(** * Turkov cloud client (custom_components/turkov/api.py, sensor.py)

    A shallow embedding of the account session ([TurkovAPI]), of the
    device state reconciler and the device commands ([TurkovDevice]) and
    of the choice of sensors ([Sensor]), followed by the properties proved
    about them.

    Conventions of the embedding:
    - a Python value of type [Any] (a decoded JSON document) is a [PyVal];
      floats are IEEE binary64 ([PrimFloat]), integers are unbounded ([Z]);
    - a coroutine that may raise returns a [result]; a method that mutates
      [self] also returns the object as it is left when the method exits,
      normally or not;
    - what the network answers (and what the clock reads) is an argument of
      the operation that asks for it;
    - parsing and printing of numerals and JSON text ([int(str)], [float(str)],
      [repr], [json.loads]) are the interpreter's: they are the fields of a
      [Builtins] record that the operations take as an argument. *)

From Stdlib Require Import Ascii ZArith QArith Floats String List Bool Lia.
From stdpp Require Import gmap strings list fin_maps.

Local Open Scope Z_scope.
Local Set Warnings "-register-all,-clear-no-such-hyp".

(** ** Python values, exceptions and built-ins *)

Module Py.

Inductive PyVal : Type :=
| VNone
| VBool (b : bool)
| VInt (n : Z)
| VFloat (x : float)
| VStr (s : string)
| VList (items : list PyVal)
| VDict (items : list (string * PyVal)).

(** The exception classes the client raises, catches or lets through. A
    constructor stands for an exception whose most specific class is the
    one named; the class hierarchy is given by the predicates below.
    Messages are kept where the source gives a fixed text (the formatted
    tail of an f-string message is left out). *)
Inductive exn : Type :=
| TypeError
| ValueError
| OverflowError
| KeyError
| IndexError
| AttributeError
| RuntimeError
| UnboundLocalError
| JSONDecodeError
| ContentTypeError
| ClientError
| TimeoutError
| CancelledError
| HTTPForbidden
| HTTPUnauthorized
| TurkovAPIError (msg : string)
| TurkovAPIAuthenticationError (msg : string)
| TurkovAPIValueError (msg : string).

Inductive result (A : Type) : Type :=
| Ok (a : A)
| Raise (e : exn).
Arguments Ok {A} a.
Arguments Raise {A} e.

Definition bind {A B : Type} (r : result A) (k : A -> result B) : result B :=
  match r with
  | Ok a => k a
  | Raise e => Raise e
  end.

(** [except (aiohttp.ClientError, TimeoutError, JSONDecodeError)]:
    [ContentTypeError] derives from [ClientError]. *)
Definition is_transport_or_decode_error (e : exn) : bool :=
  match e with
  | ClientError | ContentTypeError | TimeoutError | JSONDecodeError => true
  | _ => false
  end.

(** [except (TurkovAPIAuthenticationError, HTTPForbidden, HTTPUnauthorized)]. *)
Definition is_authorization_error (e : exn) : bool :=
  match e with
  | TurkovAPIAuthenticationError _ | HTTPForbidden | HTTPUnauthorized => true
  | _ => false
  end.

(** [isinstance(exc, TurkovAPIAuthenticationError)]. *)
Definition is_TurkovAPIAuthenticationError (e : exn) : bool :=
  match e with
  | TurkovAPIAuthenticationError _ => true
  | _ => false
  end.

(** Truth value of an object ([if x], [not x], [x or y]). *)
Definition truthy (v : PyVal) : bool :=
  match v with
  | VNone => false
  | VBool b => b
  | VInt n => negb (n =? 0)
  | VFloat x => negb (PrimFloat.eqb x 0%float)
  | VStr s => negb (String.eqb s EmptyString)
  | VList items => match items with [] => false | _ => true end
  | VDict items => match items with [] => false | _ => true end
  end.

Definition truthy_str (s : option string) : bool :=
  match s with
  | None => false
  | Some s => negb (String.eqb s EmptyString)
  end.

(** [x is None]. *)
Definition is_none (v : PyVal) : bool :=
  match v with
  | VNone => true
  | _ => false
  end.

(** [x or None]. *)
Definition or_none (v : PyVal) : PyVal := if truthy v then v else VNone.

(** Numbers: [bool] is a subclass of [int]; an [int] and a [float] are
    compared exactly, without rounding the integer. *)
Definition signed (s : bool) (m : positive) : Z := if s then Z.neg m else Z.pos m.

Definition Z_eq_float (n : Z) (x : float) : bool :=
  match Prim2SF x with
  | S754_zero _ => n =? 0
  | S754_finite s m e =>
      if 0 <=? e then n =? signed s m * 2 ^ e
      else n * 2 ^ (- e) =? signed s m
  | S754_infinity _ | S754_nan => false
  end.

Inductive number : Type :=
| NInt (n : Z)
| NFloat (x : float).

Definition as_number (v : PyVal) : option number :=
  match v with
  | VBool b => Some (NInt (if b then 1 else 0))
  | VInt n => Some (NInt n)
  | VFloat x => Some (NFloat x)
  | _ => None
  end.

Definition number_eq (a b : number) : bool :=
  match a, b with
  | NInt m, NInt n => m =? n
  | NFloat x, NFloat y => PrimFloat.eqb x y
  | NInt m, NFloat y => Z_eq_float m y
  | NFloat x, NInt n => Z_eq_float n x
  end.

Fixpoint dict_get (key : string) (items : list (string * PyVal)) : option PyVal :=
  match items with
  | [] => None
  | (k, v) :: rest => if String.eqb k key then Some v else dict_get key rest
  end.

(** [x is a NaN]. *)
Definition is_nan (v : PyVal) : bool :=
  match v with
  | VFloat x => PrimFloat.is_nan x
  | _ => false
  end.

(** [a == b] on decoded JSON. Lists compare element by element, dicts key
    by key (a decoded dict has no repeated key). The two operands are
    distinct objects, as a decoded payload and a stored value are, and
    are compared by value. The elements of two containers are compared
    as [PyObject_RichCompareBool] does: an element that is the same
    object on both sides is equal without being compared. A NaN of a
    decoded document is the decoder's one NaN object
    ([json.decoder.NaN]), so a NaN inside a container is equal to the
    NaN at its place in the other, while a NaN on its own differs from
    itself. (Any other element that is the same object on both sides is
    equal by value too.) *)
Fixpoint py_eq (a b : PyVal) : bool :=
  match a, b with
  | VNone, VNone => true
  | VStr s, VStr t => String.eqb s t
  | VList xs, VList ys =>
      (fix all2 (xs ys : list PyVal) : bool :=
         match xs, ys with
         | [], [] => true
         | x :: xs', y :: ys' => (is_nan x && is_nan y || py_eq x y) && all2 xs' ys'
         | _, _ => false
         end) xs ys
  | VDict xs, VDict ys =>
      (length xs =? length ys)%nat &&
      (fix all (xs : list (string * PyVal)) : bool :=
         match xs with
         | [] => true
         | (k, v) :: xs' =>
             match dict_get k ys with
             | Some w => (is_nan v && is_nan w || py_eq v w) && all xs'
             | None => false
             end
         end) xs
  | (VBool _ | VInt _ | VFloat _), (VBool _ | VInt _ | VFloat _) =>
      match as_number a, as_number b with
      | Some m, Some n => number_eq m n
      | _, _ => false
      end
  | _, _ => false
  end.

(** [a != b]. *)
Definition py_ne (a b : PyVal) : bool := negb (py_eq a b).

(** What the interpreter provides and this development does not define. *)
Record Builtins : Type := {
  repr : PyVal -> string;
  float_of_str : string -> option float;
  int_of_str : string -> option Z;
  loads : string -> option PyVal
}.

(** [str(v)]: a string is itself, anything else prints as its [repr]. *)
Definition py_str (B : Builtins) (v : PyVal) : string :=
  match v with
  | VStr s => s
  | _ => repr B v
  end.

(** [float(n)] for an integer: the nearest float, [OverflowError] past the
    largest one. *)
Definition float_of_Z (n : Z) : result float :=
  let x := SF2Prim (binary_normalize prec emax n 0 false) in
  if is_infinity x then Raise OverflowError else Ok x.

(** [float(v)]. *)
Definition py_float (B : Builtins) (v : PyVal) : result float :=
  match v with
  | VFloat x => Ok x
  | VInt n => float_of_Z n
  | VBool b => Ok (if b then 1%float else 0%float)
  | VStr s =>
      match float_of_str B s with
      | Some x => Ok x
      | None => Raise ValueError
      end
  | VNone | VList _ | VDict _ => Raise TypeError
  end.

(** [int(v)]: a float is truncated towards zero. *)
Definition py_int (B : Builtins) (v : PyVal) : result Z :=
  match v with
  | VInt n => Ok n
  | VBool b => Ok (if b then 1 else 0)
  | VFloat x =>
      match Prim2SF x with
      | S754_nan => Raise ValueError
      | S754_infinity _ => Raise OverflowError
      | S754_zero _ => Ok 0
      | S754_finite s m e =>
          let q := if 0 <=? e then Z.pos m * 2 ^ e else Z.pos m / 2 ^ (- e) in
          Ok (if s then - q else q)
      end
  | VStr s =>
      match int_of_str B s with
      | Some n => Ok n
      | None => Raise ValueError
      end
  | VNone | VList _ | VDict _ => Raise TypeError
  end.

(** [v[key]] with a string key. *)
Definition py_getitem (v : PyVal) (key : string) : result PyVal :=
  match v with
  | VDict items =>
      match dict_get key items with
      | Some w => Ok w
      | None => Raise KeyError
      end
  | _ => Raise TypeError
  end.

(** [v.get(key)]. *)
Definition py_get (v : PyVal) (key : string) : result PyVal :=
  match v with
  | VDict items => Ok (default VNone (dict_get key items))
  | _ => Raise AttributeError
  end.

(** [s.startswith(p)]. *)
Fixpoint startswith (s p : string) : bool :=
  match p, s with
  | EmptyString, _ => true
  | String c p', String d s' => Ascii.eqb c d && startswith s' p'
  | String _ _, EmptyString => false
  end.

(** *** Text

    A Python [str] is a sequence of code points; a [string] here holds
    its UTF-8 encoding, in which a code point is one byte that is not a
    continuation byte ([10xxxxxx]) followed by its continuation bytes. *)
Definition is_continuation (c : ascii) : bool :=
  match c with
  | Ascii _ _ _ _ _ _ b6 b7 => b7 && negb b6
  end.

(** The continuation bytes a text starts with, and the code points that
    follow them. *)
Fixpoint split_points (s : string) : string * list string :=
  match s with
  | EmptyString => (EmptyString, [])
  | String c rest =>
      let '(continuation, points) := split_points rest in
      if is_continuation c then (String c continuation, points)
      else (EmptyString, String c continuation :: points)
  end.

(** The code points of a text, in order. (A well-formed text starts with
    no continuation byte; those an ill-formed one starts with count as
    one code point.) *)
Definition code_points (s : string) : list string :=
  match split_points s with
  | (EmptyString, points) => points
  | (continuation, points) => continuation :: points
  end.

Definition join_points (points : list string) : string :=
  fold_right String.append EmptyString points.

(** [s[-n:]]: the last [n] code points, the whole text when it is
    shorter. *)
Definition last_chars (n : nat) (s : string) : string :=
  let points := code_points s in
  join_points (drop (length points - n)%nat points).

(** [s.partition(sep)] for an ASCII separator: the part before the first
    separator, the separator, the part after it; the text and two empty
    texts when there is no separator. (In UTF-8 the byte of an ASCII
    character occurs as that character only, so the first separator byte
    is the first separator.) *)
Fixpoint str_partition (sep : ascii) (s : string) : string * string * string :=
  match s with
  | EmptyString => (EmptyString, EmptyString, EmptyString)
  | String c rest =>
      if Ascii.eqb c sep then (EmptyString, String sep EmptyString, rest)
      else let '(head, found, tail) := str_partition sep rest in
           (String c head, found, tail)
  end.

(** [s[0]]: the first code point. *)
Definition first_char (s : string) : result string :=
  match code_points s with
  | [] => Raise IndexError
  | point :: _ => Ok point
  end.

End Py.
Export Py.

(** [TurkovAPI.BASE_URL], also read by a device that has no API object:
    [(self._api or TurkovAPI).BASE_URL]. *)
Definition BASE_URL : string := "https://turkovwifi.ru".

(** [_log_hide_id]: ["*" + str(id_)[-4:]]. *)
Definition _log_hide_id (B : Builtins) (id_ : PyVal) : string :=
  "*" +:+ last_chars 4 (py_str B id_).

(** ** The device: attributes, transport dispatch, reconciliation *)

Module TurkovDevice.

(** The second component of an [ATTRIBUTE_KEY_MAPPING] entry: [None] (the
    raw value passes through), a callable, or [False] (the attribute is
    computed apart from the generic pass). *)
Inductive converter : Type :=
| conv_None
| conv_str
| conv_float
| conv_int
| conv_bool
| conv_float_less
| conv_False.

Definition IMAGES_BY_DEVICE_TYPE : list (string * string) :=
  [ ("Zenit", "/images/zenit.jpg");
    ("Capsule", "/images/capsule.jpg");
    ("i-Vent", "/images/ivent.jpg") ].

Definition ATTRIBUTE_KEY_MAPPING : list (string * (string * converter)) :=
  [ ("is_on", ("on", conv_None));
    ("fan_speed", ("fan_speed", conv_str));
    ("fan_mode", ("fan_mode", conv_None));
    ("target_temperature", ("temp_sp", conv_float));
    ("selected_mode", ("mode", conv_str));
    ("setup", ("setup", conv_str));
    ("filter_life_percentage", ("filter", conv_float));
    ("outdoor_temperature", ("out_temp", conv_float_less));
    ("indoor_temperature", ("in_temp", conv_float_less));
    ("image_url", ("image", conv_False));
    ("indoor_humidity", ("in_humid", conv_float_less));
    ("exhaust_temperature", ("exh_temp", conv_float_less));
    ("air_pressure", ("air_pres", conv_float));
    ("co2_level", ("CO2_level", conv_float));
    ("current_temperature", ("temp_curr", conv_float_less));
    ("current_humidity", ("hum_curr", conv_float_less));
    ("target_humidity", ("hum_sp", conv_int));
    ("fireplace", ("firep", conv_bool));
    ("humidifier", ("humib", conv_bool));
    ("first_relay", ("relay_1", conv_bool));
    ("first_relay_name", ("relay_1_name", conv_str));
    ("second_relay", ("relay_2", conv_bool));
    ("second_relay_name", ("relay_2_name", conv_str)) ].

(** [_float_less]: [float(x) / 10]. *)
Definition _float_less (B : Builtins) (x : PyVal) : result float :=
  bind (py_float B x) (fun f => Ok (PrimFloat.div f 10%float)).

(** [converter(value)] when [callable(converter)], the value itself otherwise. *)
Definition convert (B : Builtins) (c : converter) (value : PyVal) : result PyVal :=
  match c with
  | conv_None | conv_False => Ok value
  | conv_str => Ok (VStr (py_str B value))
  | conv_float => bind (py_float B value) (fun f => Ok (VFloat f))
  | conv_int => bind (py_int B value) (fun n => Ok (VInt n))
  | conv_bool => Ok (VBool (truthy value))
  | conv_float_less => bind (_float_less B value) (fun f => Ok (VFloat f))
  end.

(** The object. [_api] and [_session] record whether the device holds a
    [TurkovAPI] and a client session of its own (neither object has a
    falsy state). The attributes that [ATTRIBUTE_KEY_MAPPING] names are
    read and written by name ([getattr], [setattr]): they live in [attrs],
    where a name that is not bound holds [None], the value [__init__]
    gives every one of them. *)
Record t : Type := {
  _api : bool;
  _id : option string;
  _session : bool;
  host : option string;
  _port : Z;
  serial_number : option string;
  pin : option string;
  type : option string;
  name : option string;
  firmware_version : option string;
  attrs : gmap string PyVal
}.

Definition getattr (self : t) (attr : string) : PyVal :=
  default VNone (attrs self !! attr).

Definition setattr (self : t) (attr : string) (value : PyVal) : t :=
  {| _api := _api self; _id := _id self; _session := _session self;
     host := host self; _port := _port self;
     serial_number := serial_number self; pin := pin self;
     type := type self; name := name self;
     firmware_version := firmware_version self;
     attrs := <[attr := value]> (attrs self) |}.

(** [__init__]: [id] may not be empty with [api], and one of [api],
    [session] is required. *)
Definition __init__ (id : option string) (api session : bool)
    (host : option string) (port : Z) : result t :=
  if api && negb (truthy_str id) then Raise ValueError
  else if negb (api || session) then Raise ValueError
  else Ok {| _api := api; _id := id; _session := session; host := host;
             _port := port; serial_number := None; pin := None;
             type := None; name := None; firmware_version := None;
             attrs := ∅ |}.

(** *** Transport *)

(** What the device sends, in the order it sends it. *)
Inductive request : Type :=
| LocalState
| CloudState (device_id : option string) (force : bool)
| LocalCommand (key : string) (value : PyVal)
| CloudCommand (device_id : option string) (key : string) (value : PyVal).

(** What each endpoint answers: the decoded body, or the exception the
    request or its decoding raises. The cloud entries are the wrapped
    [TurkovAPI.get_device_state] and [TurkovAPI.set_device_value]. *)
Record Network : Type := {
  local_state : result PyVal;
  cloud_state : option string -> bool -> result PyVal;
  local_command : string -> PyVal -> result PyVal;
  cloud_command : option string -> string -> PyVal -> result PyVal
}.

(** The [session] property. *)
Definition session (self : t) : result unit :=
  if _session self then Ok tt
  else if _api self then Ok tt
  else Raise RuntimeError.

Definition get_state_local (net : Network) (self : t) : result PyVal * list request :=
  if negb (truthy_str (host self)) then (Raise RuntimeError, [])
  else match session self with
       | Raise e => (Raise e, [])
       | Ok _ => (local_state net, [LocalState])
       end.

Definition get_state (net : Network) (self : t) (force : bool)
    : result PyVal * list request :=
  let cloud (sent : list request) :=
    if _api self
    then (cloud_state net (_id self) force, sent ++ [CloudState (_id self) force])
    else (Raise (TurkovAPIError "No method to fetch device state"), sent) in
  if truthy_str (host self) then
    match get_state_local net self with
    | (Ok data, sent) => (Ok data, sent)
    | (Raise e, sent) =>
        if is_transport_or_decode_error e then
          if negb (_api self) then (Raise e, sent) else cloud sent
        else (Raise e, sent)
    end
  else cloud [].

Definition set_value_local (net : Network) (self : t) (key : string) (value : PyVal)
    : result PyVal * list request :=
  if negb (truthy_str (host self)) then (Raise RuntimeError, [])
  else match session self with
       | Raise e => (Raise e, [])
       | Ok _ => (local_command net key value, [LocalCommand key value])
       end.

Definition set_value (net : Network) (self : t) (key : string) (value : PyVal)
    : result PyVal * list request :=
  let cloud (sent : list request) :=
    if _api self
    then (cloud_command net (_id self) key value,
          sent ++ [CloudCommand (_id self) key value])
    else (Raise (TurkovAPIError "No method to set device values"), sent) in
  if truthy_str (host self) then
    match set_value_local net self key value with
    | (Ok data, sent) => (Ok data, sent)
    | (Raise e, sent) =>
        if is_transport_or_decode_error e then
          if negb (_api self) then (Raise e, sent) else cloud sent
        else (Raise e, sent)
    end
  else cloud [].

(** *** Reconciliation *)

(** [set_attribute]: assign and record the name. *)
Definition set_attribute (changed_attributes : gset string) (self : t)
    (attr_ : string) (value_ : PyVal) : gset string * t :=
  ({[ attr_ ]} ∪ changed_attributes, setattr self attr_ value_).

(** The value the generic pass compares with the stored one:
    [device_data[key]] through the converter, [None] for a missing key
    when [mark_as_none_if_not_present], and nothing ([Ok None]: the loop
    continues) for a missing key otherwise. *)
Definition wire_value (B : Builtins) (mark_as_none_if_not_present : bool)
    (device_data : PyVal) (key : string) (c : converter) : result (option PyVal) :=
  match py_getitem device_data key with
  | Raise KeyError =>
      if negb mark_as_none_if_not_present then Ok None else Ok (Some VNone)
  | Raise e => Raise e
  | Ok value => bind (convert B c value) (fun v => Ok (Some v))
  end.

(** The loop over [ATTRIBUTE_KEY_MAPPING.items()]. An exception leaves the
    assignments made so far in place. *)
Fixpoint generic_pass (B : Builtins) (mark_as_none_if_not_present : bool)
    (device_data : PyVal) (mapping : list (string * (string * converter)))
    (changed_attributes : gset string) (self : t) : result (gset string) * t :=
  match mapping with
  | [] => (Ok changed_attributes, self)
  | (attribute_name, (key, c)) :: rest =>
      match c with
      | conv_False =>
          generic_pass B mark_as_none_if_not_present device_data rest
            changed_attributes self
      | _ =>
          match wire_value B mark_as_none_if_not_present device_data key c with
          | Raise e => (Raise e, self)
          | Ok None =>
              generic_pass B mark_as_none_if_not_present device_data rest
                changed_attributes self
          | Ok (Some value) =>
              if py_ne value (getattr self attribute_name) then
                let '(changed, self') :=
                  set_attribute changed_attributes self attribute_name value in
                generic_pass B mark_as_none_if_not_present device_data rest
                  changed self'
              else
                generic_pass B mark_as_none_if_not_present device_data rest
                  changed_attributes self
          end
      end
  end.

(** [self.type in self.IMAGES_BY_DEVICE_TYPE], with the entry. *)
Definition image_by_device_type (self : t) : option string :=
  match type self with
  | None => None
  | Some ty => snd <$> List.find (fun e => String.eqb (fst e) ty) IMAGES_BY_DEVICE_TYPE
  end.

(** The image URL the custom step computes: the upload URL of a custom
    image, else the default image of the device type, else the payload's
    [image] entry as it came ([None] when falsy or missing). *)
Definition resolve_image_url (B : Builtins) (self : t) (device_data : PyVal)
    : result PyVal :=
  let base_url := BASE_URL in
  bind (py_get device_data "image") (fun image =>
  let image_url := or_none image in
  if truthy image_url && truthy_str (_id self) then
    Ok (VStr (base_url +:+ "/upload/" +:+ default "" (_id self) +:+ "_"
              +:+ py_str B image_url +:+ ".jpg"))
  else
    match image_by_device_type self with
    | Some path =>
        Ok (VStr (if startswith path "/" then base_url +:+ path else path))
    | None => Ok image_url
    end).

(** The test that guards the assignment of [image_url]. *)
Definition image_url_changed (mark_as_none_if_not_present : bool)
    (self : t) (image_url : PyVal) : bool :=
  if mark_as_none_if_not_present
  then is_none image_url && negb (is_none (getattr self "image_url"))
  else py_ne (getattr self "image_url") image_url.

(** The body of [update_state] once [get_state] has returned [device_data]. *)
Definition apply_state (B : Builtins) (mark_as_none_if_not_present : bool)
    (self : t) (device_data : PyVal) : result (gset string) * t :=
  if is_none device_data then (Ok ∅, self)
  else
    match generic_pass B mark_as_none_if_not_present device_data
            ATTRIBUTE_KEY_MAPPING ∅ self with
    | (Raise e, self') => (Raise e, self')
    | (Ok changed_attributes, self') =>
        match resolve_image_url B self' device_data with
        | Raise e => (Raise e, self')
        | Ok image_url =>
            if image_url_changed mark_as_none_if_not_present self' image_url
            then
              let '(changed, self'') :=
                set_attribute changed_attributes self' "image_url" image_url in
              (Ok changed, self'')
            else (Ok changed_attributes, self')
        end
    end.

(** [update_state]: the change set (or the exception), the device as it
    is left, and the requests sent. *)
Definition update_state (B : Builtins) (net : Network) (self : t)
    (mark_as_none_if_not_present force : bool)
    : result (gset string) * t * list request :=
  match get_state net self force with
  | (Raise e, sent) => (Raise e, self, sent)
  | (Ok device_data, sent) =>
      (apply_state B mark_as_none_if_not_present self device_data, sent)
  end.

(** *** Commands *)

(** A command awaits [set_value] and returns nothing: it raises what
    [set_value] raises, and its value is [None]. *)
Definition returning_none (run : result PyVal * list request)
    : result PyVal * list request :=
  (bind run.1 (fun _ => Ok VNone), run.2).

Definition turn_on (net : Network) (self : t) :=
  returning_none (set_value net self "on" (VStr "true")).

Definition turn_off (net : Network) (self : t) :=
  returning_none (set_value net self "on" (VStr "false")).

(** [toggle(turn_on=None)]: with no argument [turn_on] is [self.is_on]. *)
Definition toggle (net : Network) (self : t) (turn_on_arg : option bool)
    : result PyVal * list request :=
  let turn_on_ :=
    match turn_on_arg with
    | None => getattr self "is_on"
    | Some b => VBool b
    end in
  if truthy turn_on_ then turn_on net self else turn_off net self.

Definition set_fan_speed (net : Network) (self : t) (fan_speed : string)
    : result PyVal * list request :=
  if existsb (String.eqb fan_speed) ["auto"; "0"; "1"; "2"; "3"]
  then returning_none (set_value net self "fan_speed" (VStr fan_speed))
  else (Raise (TurkovAPIValueError "valid fan speed not specified"), []).

Definition set_target_temperature (net : Network) (self : t) (target_temperature : Z)
    : result PyVal * list request :=
  if (15 <=? target_temperature) && (target_temperature <=? 50)
  then returning_none (set_value net self "temp_sp" (VInt target_temperature))
  else (Raise (TurkovAPIValueError "target temperature out of bounds"), []).

Definition set_target_humidity (net : Network) (self : t) (target_humidity : Z)
    : result PyVal * list request :=
  if (40 <=? target_humidity) && (target_humidity <=? 100)
  then returning_none (set_value net self "hum_sp" (VInt target_humidity))
  else (Raise (TurkovAPIValueError "target humidity out of bounds"), []).

(** *** Heating and cooling *)

(** [x in (a, b, ...)]. *)
Definition py_in (x : PyVal) (items : list PyVal) : bool := existsb (py_eq x) items.

Definition has_heater (self : t) : bool :=
  py_in (getattr self "setup") [VStr "heating"; VStr "both"; VNone].

Definition has_cooler (self : t) : bool :=
  py_in (getattr self "setup") [VStr "cooling"; VStr "both"; VNone].

Definition is_heater_on (self : t) : bool :=
  py_eq (getattr self "selected_mode") (VStr "heating").

Definition is_cooler_on (self : t) : bool :=
  py_eq (getattr self "selected_mode") (VStr "cooling").

Definition turn_off_hvac (net : Network) (self : t) :=
  returning_none (set_value net self "mode" (VStr "0")).

Definition turn_on_heater (net : Network) (self : t) :=
  returning_none (set_value net self "mode" (VStr "1")).

Definition turn_on_cooler (net : Network) (self : t) :=
  returning_none (set_value net self "mode" (VStr "2")).

(** [toggle_heater(turn_on=None)]: with no argument [turn_on] is
    [not self.is_heater_on]. *)
Definition toggle_heater (net : Network) (self : t) (turn_on_arg : option bool)
    : result PyVal * list request :=
  let turn_on_ :=
    match turn_on_arg with
    | None => negb (is_heater_on self)
    | Some b => b
    end in
  if turn_on_ then turn_on_heater net self else turn_off_hvac net self.

Definition toggle_cooler (net : Network) (self : t) (turn_on_arg : option bool)
    : result PyVal * list request :=
  let turn_on_ :=
    match turn_on_arg with
    | None => negb (is_cooler_on self)
    | Some b => b
    end in
  if turn_on_ then turn_on_cooler net self else turn_off_hvac net self.

(** *** Fireplace, humidifier and relays *)

(** [toggle_fireplace(enable=None)]: with no argument [enable] is
    [self.fireplace]; what is sent is [bool(enable)]. *)
Definition toggle_fireplace (net : Network) (self : t) (enable : option bool)
    : result PyVal * list request :=
  let enable :=
    match enable with
    | None => getattr self "fireplace"
    | Some b => VBool b
    end in
  returning_none (set_value net self "firep" (VBool (truthy enable))).

Definition turn_on_fireplace (net : Network) (self : t) := toggle_fireplace net self (Some true).

Definition turn_off_fireplace (net : Network) (self : t) := toggle_fireplace net self (Some false).

Definition toggle_humidifier (net : Network) (self : t) (enable : option bool)
    : result PyVal * list request :=
  let enable :=
    match enable with
    | None => getattr self "humidifier"
    | Some b => VBool b
    end in
  returning_none (set_value net self "humib" (VBool (truthy enable))).

Definition turn_on_humidifier (net : Network) (self : t) := toggle_humidifier net self (Some true).

Definition turn_off_humidifier (net : Network) (self : t) := toggle_humidifier net self (Some false).

Definition toggle_first_relay (net : Network) (self : t) (enable : option bool)
    : result PyVal * list request :=
  let enable :=
    match enable with
    | None => getattr self "first_relay"
    | Some b => VBool b
    end in
  returning_none (set_value net self "relay_1" (VBool (truthy enable))).

Definition turn_on_first_relay (net : Network) (self : t) := toggle_first_relay net self (Some true).

Definition turn_off_first_relay (net : Network) (self : t) := toggle_first_relay net self (Some false).

Definition set_first_relay_name (net : Network) (self : t) (name : string) :=
  returning_none (set_value net self "relay_1_name" (VStr name)).

Definition toggle_second_relay (net : Network) (self : t) (enable : option bool)
    : result PyVal * list request :=
  let enable :=
    match enable with
    | None => getattr self "second_relay"
    | Some b => VBool b
    end in
  returning_none (set_value net self "relay_2" (VBool (truthy enable))).

Definition turn_on_second_relay (net : Network) (self : t) := toggle_second_relay net self (Some true).

Definition turn_off_second_relay (net : Network) (self : t) := toggle_second_relay net self (Some false).

Definition set_second_relay_name (net : Network) (self : t) (name : string) :=
  returning_none (set_value net self "relay_2_name" (VStr name)).

(** *** Display *)

(** [__str__]: the class name and the id, hidden but for its last four
    characters ([str(None)] for a device without an id). *)
Definition __str__ (B : Builtins) (self : t) : string :=
  "TurkovDevice["
  +:+ _log_hide_id B (match _id self with Some id_ => VStr id_ | None => VNone end)
  +:+ "]".

End TurkovDevice.

(** ** The account session and the device registry *)

Module TurkovAPI.

(** A request as [prepare_authenticated_request] hands it to the client
    session, and what comes back: the request fails, or a response arrives
    with its status, its [ETag] header and what [response.json()] gives. *)
Record request : Type := {
  req_method : string;
  req_url : string;
  req_headers : gmap string PyVal;
  req_params : list (string * string);
  req_json : list (string * PyVal)
}.

Inductive http_outcome (A : Type) : Type :=
| ConnectionFails (e : exn)
| Responds (status : Z) (etag : option string) (json : result A).
Arguments ConnectionFails {A} e.
Arguments Responds {A} status etag json.

(** [DeviceDataResponseDict] and [UserDataResponseDict], at their declared
    types: a device entry maps its keys to a string or [null]; a key of
    the user document may be missing. *)
Definition DeviceDataResponseDict : Type := gmap string (option string).

Record UserDataResponseDict : Type := {
  devices : option (list DeviceDataResponseDict);
  userEmail : option string;
  firstName : option string;
  lastName : option string;
  fathersName : option string
}.

Inductive log_record : Type :=
| WarningNoId (device_data : DeviceDataResponseDict)
| WarningEmptyId (device_data : DeviceDataResponseDict)
| InfoFoundExisting (id_ : string)
| InfoCreatingNew (id_ : string)
| InfoDiscarding (id_ : string)
| ErrorFetchFailed (device_id : string).

Record t : Type := {
  handle_authentication : bool;
  _user_email : string;
  _password : string;
  _access_token : PyVal;
  _access_token_expires_at : option Z;
  _refresh_token : PyVal;
  _refresh_token_expires_at : option Z;
  first_name : option string;
  last_name : option string;
  middle_name : option string;
  _request_history : gmap string string;
  _devices : gmap string TurkovDevice.t
}.

(** [utcnow().timestamp()] is a finite float, that is a rational; Python
    compares an [int] with it exactly. *)
Definition Z_lt_Q (n : Z) (q : Q) : bool :=
  match (inject_Z n ?= q)%Q with
  | Lt => true
  | _ => false
  end.

Definition access_token_needs_update (self : t) (now : Q) : bool :=
  if negb (truthy (_access_token self)) then true
  else match _access_token_expires_at self with
       | None => true
       | Some access_token_expires_at => Z_lt_Q (access_token_expires_at - 60) now
       end.

Definition refresh_token_needs_update (self : t) (now : Q) : bool :=
  if negb (truthy (_refresh_token self)) then true
  else match _refresh_token_expires_at self with
       | None => true
       | Some refresh_token_expires_at => Z_lt_Q (refresh_token_expires_at - 60) now
       end.

(** *** Display *)

(** [__str__]: the first code point of each of the three parts of
    [self._user_email.partition("@")], each followed by two asterisks.
    [v[0]] raises [IndexError] on an empty part. *)
Definition __str__ (self : t) : result string :=
  let '(head, found, tail) := str_partition "@"%char (_user_email self) in
  bind (first_char head) (fun a =>
  bind (first_char found) (fun b =>
  bind (first_char tail) (fun c =>
  Ok ("TurkovAPI[" +:+ a +:+ "**" +:+ b +:+ "**" +:+ c +:+ "**" +:+ "]")))).

(** A log line that formats the session. Its f-string is evaluated
    before the logger is called, whatever the log level, so the line
    raises what [__str__] raises. *)
Definition formats (self : t) : result unit :=
  bind (__str__ self) (fun _ => Ok tt).

(** *** Authentication *)

(** The session once the four assignments of [_process_auth_request] are
    made. *)
Definition set_tokens (self : t) (access_token : PyVal) (access_token_expires_at : Z)
    (refresh_token : PyVal) (refresh_token_expires_at : Z) : t :=
  {| handle_authentication := handle_authentication self;
     _user_email := _user_email self; _password := _password self;
     _access_token := access_token;
     _access_token_expires_at := Some access_token_expires_at;
     _refresh_token := refresh_token;
     _refresh_token_expires_at := Some refresh_token_expires_at;
     first_name := first_name self; last_name := last_name self;
     middle_name := middle_name self;
     _request_history := _request_history self; _devices := _devices self |}.

(** The [try] block that reads the four fields of the response. *)
Definition extract_auth_data (B : Builtins) (data : PyVal)
    : result (PyVal * Z * PyVal * Z) :=
  bind (py_getitem data "accessToken") (fun access_token =>
  bind (bind (py_getitem data "accessTokenExpiresAt") (py_int B))
    (fun access_token_expires_at =>
  bind (py_getitem data "refreshToken") (fun refresh_token =>
  bind (bind (py_getitem data "refreshTokenExpiresAt") (py_int B))
    (fun refresh_token_expires_at =>
  Ok (access_token, access_token_expires_at,
      refresh_token, refresh_token_expires_at))))).

(** [except (ValueError, TypeError)]: [JSONDecodeError] and
    [TurkovAPIValueError] derive from [ValueError]. *)
Definition is_ValueError_or_TypeError (e : exn) : bool :=
  match e with
  | ValueError | TypeError | JSONDecodeError | TurkovAPIValueError _ => true
  | _ => false
  end.

(** The first three assignments of [_process_auth_request]
    ([_access_token], [_refresh_token], [_access_token_expires_at]), and
    the fourth. Together they make [set_tokens]. *)
Definition set_access (self : t) (access_token refresh_token : PyVal)
    (access_token_expires_at : Z) : t :=
  {| handle_authentication := handle_authentication self;
     _user_email := _user_email self; _password := _password self;
     _access_token := access_token;
     _access_token_expires_at := Some access_token_expires_at;
     _refresh_token := refresh_token;
     _refresh_token_expires_at := _refresh_token_expires_at self;
     first_name := first_name self; last_name := last_name self;
     middle_name := middle_name self;
     _request_history := _request_history self; _devices := _devices self |}.

Definition set_refresh_token_expires_at (self : t) (refresh_token_expires_at : Z) : t :=
  {| handle_authentication := handle_authentication self;
     _user_email := _user_email self; _password := _password self;
     _access_token := _access_token self;
     _access_token_expires_at := _access_token_expires_at self;
     _refresh_token := _refresh_token self;
     _refresh_token_expires_at := Some refresh_token_expires_at;
     first_name := first_name self; last_name := last_name self;
     middle_name := middle_name self;
     _request_history := _request_history self; _devices := _devices self |}.

(** [expires_at - current_timestamp], as the two log lines after the
    assignments compute it: the [int] is converted to a float, which
    raises [OverflowError] past the largest float. *)
Definition seconds_left (expires_at : Z) : result unit :=
  bind (float_of_Z expires_at) (fun _ => Ok tt).

(** [_process_auth_request]: [response_json] is what [await response.json()]
    gives, [current_timestamp] the clock read after it. The log line that
    computes the seconds left to the access token stands between the
    third assignment and the fourth, the one for the refresh token after
    the fourth. (The log lines format the session too. The method is
    called by [authenticate_with_email] and [authenticate_with_token]
    only, which have formatted it in their own log line just before,
    with the same address; here it does not raise.) *)
Definition _process_auth_request (B : Builtins) (self : t)
    (response_json : result PyVal) (current_timestamp : Q) : result unit * t :=
  match response_json with
  | Raise (ContentTypeError | JSONDecodeError) =>
      (Raise (TurkovAPIAuthenticationError "Server returned bad response"), self)
  | Raise (ClientError | TimeoutError) =>
      (Raise (TurkovAPIAuthenticationError "Server did not respond"), self)
  | Raise e => (Raise e, self)
  | Ok data =>
      match extract_auth_data B data with
      | Raise KeyError =>
          (Raise (TurkovAPIAuthenticationError "Server did not provide auth data"), self)
      | Raise e =>
          if is_ValueError_or_TypeError e
          then (Raise (TurkovAPIAuthenticationError "Server provided bad data"), self)
          else (Raise e, self)
      | Ok (access_token, access_token_expires_at,
            refresh_token, refresh_token_expires_at) =>
          if negb (truthy access_token || truthy refresh_token) then
            (Raise (TurkovAPIAuthenticationError "Server provided empty auth data"), self)
          else if Z_lt_Q access_token_expires_at current_timestamp then
            (Raise (TurkovAPIAuthenticationError "Server provided expired access token"), self)
          else if Z_lt_Q refresh_token_expires_at current_timestamp then
            (Raise (TurkovAPIAuthenticationError "Server provided expired refresh token"), self)
          else
            let self := set_access self access_token refresh_token
                          access_token_expires_at in
            match seconds_left access_token_expires_at with
            | Raise e => (Raise e, self)
            | Ok _ =>
                let self := set_refresh_token_expires_at self refresh_token_expires_at in
                match seconds_left refresh_token_expires_at with
                | Raise e => (Raise e, self)
                | Ok _ => (Ok tt, self)
                end
            end
      end
  end.

(** One exchange with the server, as the two [authenticate_with_*] methods
    see it: the answer to the request, and the clock when the answer is
    processed. *)
Record exchange : Type := {
  answer : request -> http_outcome PyVal;
  answered_at : Q
}.

Definition non_empty (s : string) : bool := negb (String.eqb s EmptyString).

Definition authenticate_with_email (B : Builtins) (self : t)
    (user_email password : option string) (x : exchange) : result unit * t :=
  let user_email := if truthy_str user_email then default "" user_email
                    else _user_email self in
  let password := if truthy_str password then default "" password
                  else _password self in
  if negb (non_empty user_email && non_empty password) then (Raise ValueError, self)
  else
    match formats self with
    | Raise e => (Raise e, self)
    | Ok _ =>
        match answer x {| req_method := "POST"; req_url := BASE_URL +:+ "/user/signin";
                          req_headers := ∅; req_params := [];
                          req_json := [("userEmail", VStr user_email);
                                       ("password", VStr password)] |} with
        | ConnectionFails e => (Raise e, self)
        | Responds _ _ json => _process_auth_request B self json (answered_at x)
        end
    end.

(** [now] is the clock when [refresh_token_needs_update] is read. *)
Definition authenticate_with_token (B : Builtins) (self : t)
    (refresh_token : PyVal) (now : Q) (x : exchange) : result unit * t :=
  let chosen :=
    if negb (truthy refresh_token) then
      if refresh_token_needs_update self now then Raise RuntimeError
      else Ok (_refresh_token self)
    else Ok refresh_token in
  match chosen with
  | Raise e => (Raise e, self)
  | Ok refresh_token =>
      match formats self with
      | Raise e => (Raise e, self)
      | Ok _ =>
          match answer x {| req_method := "GET"; req_url := BASE_URL +:+ "/user/token";
                            req_headers := {[ "x-access-token" := refresh_token ]};
                            req_params := []; req_json := [] |} with
          | ConnectionFails e => (Raise e, self)
          | Responds _ _ json => _process_auth_request B self json (answered_at x)
          end
      end
  end.

(** [authenticate]: [now] and [now'] are the two readings of the clock for
    [refresh_token_needs_update] (here and in [authenticate_with_token]).
    The first log line stands before the [try]; the handler has two
    more. *)
Definition authenticate (B : Builtins) (self : t) (now now' : Q)
    (refresh signin : exchange) : result unit * t :=
  let with_email (self : t) := authenticate_with_email B self None None signin in
  if negb (refresh_token_needs_update self now) then
    match formats self with
    | Raise e => (Raise e, self)
    | Ok _ =>
        match authenticate_with_token B self VNone now' refresh with
        | (Raise CancelledError, self') => (Raise CancelledError, self')
        | (Raise _, self') =>
            match formats self' with
            | Raise e => (Raise e, self')
            | Ok _ => with_email self'
            end
        | (Ok _, self') => (Ok tt, self')
        end
    end
  else with_email self.

(** *** The decorator [_handle_preliminary_auth]

    [fn] is the wrapped coroutine and [authenticate] the session's; both
    act on the session and on whatever else changes between two calls
    (the clock, the server), which together make up [S]. The result comes
    with the calls made, in order. (Each of the two calls of
    [authenticate] is preceded by a log line that formats the session;
    [S] being any state, the lines are left to the properties, which say
    where they need the label of the session to exist.) *)

Inductive call : Type :=
| CallAuthenticate
| CallWrapped.

Section handle_preliminary_auth.

Context {S A : Type}.
Variable handle_authentication_of : S -> bool.
Variable access_token_needs_update_of : S -> bool.
Variable authenticate_ : S -> result unit * S.
Variable fn : S -> result A * S.

(** The [except] clause of the decorator, entered with the exception of
    the first call. *)
Definition on_authorization_error (handle_authentication authentication_attempted : bool)
    (exc : exn) (self : S) (calls : list call) : result A * S * list call :=
  if authentication_attempted || negb handle_authentication then
    if is_TurkovAPIAuthenticationError exc then (Raise exc, self, calls)
    else (Raise (TurkovAPIAuthenticationError "Unauthorized request performed"),
          self, calls)
  else
    match authenticate_ self with
    | (Raise e, self') => (Raise e, self', calls ++ [CallAuthenticate])
    | (Ok _, self') =>
        let '(r, self'') := fn self' in
        (r, self'', calls ++ [CallAuthenticate; CallWrapped])
    end.

(** The [try] statement: the first call and its handler. *)
Definition perform (handle_authentication authentication_attempted : bool)
    (self : S) (calls : list call) : result A * S * list call :=
  match fn self with
  | (Ok a, self') => (Ok a, self', calls ++ [CallWrapped])
  | (Raise exc, self') =>
      if is_authorization_error exc
      then on_authorization_error handle_authentication authentication_attempted
             exc self' (calls ++ [CallWrapped])
      else (Raise exc, self', calls ++ [CallWrapped])
  end.

Definition _handle_preliminary_auth (self : S) : result A * S * list call :=
  let handle_authentication := handle_authentication_of self in
  if handle_authentication && access_token_needs_update_of self then
    match authenticate_ self with
    | (Raise e, self') => (Raise e, self', [CallAuthenticate])
    | (Ok _, self') => perform handle_authentication true self' [CallAuthenticate]
    end
  else perform handle_authentication false self [].

End handle_preliminary_auth.

(** A method under the decorator, in one session: [now] is what the
    clock reads while the call lasts, [refresh] and [signin] are the two
    exchanges [authenticate] may make, [fn] is the method as written. *)
Definition decorated {A : Type} (B : Builtins) (now : Q) (refresh signin : exchange)
    (fn : t -> result A * t) (self : t) : result A * t * list call :=
  _handle_preliminary_auth handle_authentication
    (fun self => access_token_needs_update self now)
    (fun self => authenticate B self now now refresh signin)
    fn self.

(** *** Authenticated requests *)

Definition IF_NONE_MATCH : string := "If-None-Match".

Definition prepare_authenticated_request (self : t) (method url : string)
    (params : list (string * string)) (json : list (string * PyVal))
    (request_tag : option string) : request :=
  let headers : gmap string PyVal := {[ "x-access-token" := _access_token self ]} in
  let headers :=
    match request_tag with
    | None => headers
    | Some request_tag =>
        match _request_history self !! request_tag with
        | None => headers
        | Some if_none_match => <[ IF_NONE_MATCH := VStr if_none_match ]> headers
        end
    end in
  {| req_method := method; req_url := url; req_headers := headers;
     req_params := params; req_json := json |}.

Definition set_request_history (self : t) (request_tag response_tag : string) : t :=
  {| handle_authentication := handle_authentication self;
     _user_email := _user_email self; _password := _password self;
     _access_token := _access_token self;
     _access_token_expires_at := _access_token_expires_at self;
     _refresh_token := _refresh_token self;
     _refresh_token_expires_at := _refresh_token_expires_at self;
     first_name := first_name self; last_name := last_name self;
     middle_name := middle_name self;
     _request_history := <[ request_tag := response_tag ]> (_request_history self);
     _devices := _devices self |}.

(** [if response_tag: self._request_history[request_tag] = response_tag]. *)
Definition remember_tag (self : t) (request_tag : string) (response_tag : option string) : t :=
  if truthy_str response_tag
  then set_request_history self request_tag (default "" response_tag)
  else self.

Definition set_profile (self : t) (user_email : string)
    (first_name last_name middle_name : string) : t :=
  {| handle_authentication := handle_authentication self;
     _user_email := user_email; _password := _password self;
     _access_token := _access_token self;
     _access_token_expires_at := _access_token_expires_at self;
     _refresh_token := _refresh_token self;
     _refresh_token_expires_at := _refresh_token_expires_at self;
     first_name := Some first_name; last_name := Some last_name;
     middle_name := Some middle_name;
     _request_history := _request_history self; _devices := _devices self |}.

Definition set_devices (self : t) (devices : gmap string TurkovDevice.t) : t :=
  {| handle_authentication := handle_authentication self;
     _user_email := _user_email self; _password := _password self;
     _access_token := _access_token self;
     _access_token_expires_at := _access_token_expires_at self;
     _refresh_token := _refresh_token self;
     _refresh_token_expires_at := _refresh_token_expires_at self;
     first_name := first_name self; last_name := last_name self;
     middle_name := middle_name self;
     _request_history := _request_history self; _devices := devices |}.

(** *** The device list *)

(** The five optional assignments of one device entry. *)
Definition apply_device_data (device : TurkovDevice.t) (device_data : DeviceDataResponseDict)
    : TurkovDevice.t :=
  let pick (key : string) (old : option string) : option string :=
    match device_data !! key with
    | Some value => value
    | None => old
    end in
  {| TurkovDevice._api := TurkovDevice._api device;
     TurkovDevice._id := TurkovDevice._id device;
     TurkovDevice._session := TurkovDevice._session device;
     TurkovDevice.host := TurkovDevice.host device;
     TurkovDevice._port := TurkovDevice._port device;
     TurkovDevice.serial_number := pick "serialNumber" (TurkovDevice.serial_number device);
     TurkovDevice.pin := pick "pin" (TurkovDevice.pin device);
     TurkovDevice.type := pick "deviceType" (TurkovDevice.type device);
     TurkovDevice.name := pick "deviceName" (TurkovDevice.name device);
     TurkovDevice.firmware_version := pick "firmVer" (TurkovDevice.firmware_version device);
     TurkovDevice.attrs := TurkovDevice.attrs device |}.

(** The state of the loop over [device_datum]. *)
Record sync_state : Type := {
  existing_devices : gmap string TurkovDevice.t;
  leftover_devices : gset string;
  logged : list log_record
}.

(** One turn of the loop. [label] is the session as the log line of the
    turn formats it: every branch has one such line, and reaches it
    before it changes anything. *)
Definition sync_device (label : result unit) (st : sync_state)
    (device_data : DeviceDataResponseDict) : result sync_state :=
  let skip (w : log_record) :=
    bind label (fun _ =>
    Ok {| existing_devices := existing_devices st;
          leftover_devices := leftover_devices st;
          logged := logged st ++ [w] |}) in
  match device_data !! "_id" with
  | None => skip (WarningNoId device_data)
  | Some id_ =>
      if negb (truthy_str id_) then skip (WarningEmptyId device_data)
      else
        let id_ := default "" id_ in
        match existing_devices st !! id_ with
        | Some device =>
            bind label (fun _ =>
            Ok {| existing_devices :=
                    <[ id_ := apply_device_data device device_data ]> (existing_devices st);
                  leftover_devices := leftover_devices st ∖ {[ id_ ]};
                  logged := logged st ++ [InfoFoundExisting id_] |})
        | None =>
            bind label (fun _ =>
            bind (TurkovDevice.__init__ (Some id_) true false None 80) (fun device =>
            Ok {| existing_devices :=
                    <[ id_ := apply_device_data device device_data ]> (existing_devices st);
                  leftover_devices := leftover_devices st;
                  logged := logged st ++ [InfoCreatingNew id_] |}))
        end
  end.

(** The loop: the exception of a turn ends it, with the registry as the
    turns before have left it. *)
Fixpoint sync_devices (label : result unit) (st : sync_state)
    (device_datum : list DeviceDataResponseDict) : result unit * sync_state :=
  match device_datum with
  | [] => (Ok tt, st)
  | device_data :: rest =>
      match sync_device label st device_data with
      | Raise e => (Raise e, st)
      | Ok st' => sync_devices label st' rest
      end
  end.

(** [del existing_devices[id_]] for every leftover id. Every leftover id
    is a key of the registry (the loop only takes ids out of the set),
    so no [del] raises. *)
Definition discard_leftover (existing : gmap string TurkovDevice.t) (leftover : gset string)
    : gmap string TurkovDevice.t :=
  set_fold (fun id_ m => delete id_ m) existing leftover.

(** [for id_ in leftover_devices: <log line>; del existing_devices[id_]].
    Every turn formats the session before it deletes, and the label is
    the same in every turn: the loop raises in its first turn, with
    nothing deleted, or in none. *)
Definition discard_leftover_devices (label : result unit)
    (existing : gmap string TurkovDevice.t) (leftover : gset string)
    : result unit * gmap string TurkovDevice.t :=
  if decide (leftover = ∅) then (Ok tt, existing)
  else match label with
       | Raise e => (Raise e, existing)
       | Ok _ => (Ok tt, discard_leftover existing leftover)
       end.

(** [update_user_data], as written under the decorator. [send] is the
    server's answer to the request. The body is taken at its declared
    type, [UserDataResponseDict]. The first log line formats the session
    before the request; those of the two loops format it with the
    address the document has just given it. *)
Definition update_user_data (self : t) (force : bool)
    (send : request -> http_outcome UserDataResponseDict)
    : result unit * t * list log_record :=
  let request_tag := "user_data" in
  match formats self with
  | Raise e => (Raise e, self, [])
  | Ok _ =>
      match send (prepare_authenticated_request self "GET" (BASE_URL +:+ "/user") [] []
                    (if force then None else Some request_tag)) with
      | ConnectionFails e => (Raise e, self, [])
      | Responds status response_tag json =>
          if negb force && (status =? 304) then (Ok tt, self, [])
          else
            match json with
            | Raise (JSONDecodeError | ContentTypeError) =>
                (Raise (TurkovAPIAuthenticationError
                          "Server did not provide user and/or device datum"), self, [])
            | Raise e => (Raise e, self, [])
            | Ok user_data =>
                match devices user_data, userEmail user_data, firstName user_data,
                      lastName user_data, fathersName user_data with
                | Some device_datum, Some user_email, Some first_name,
                  Some last_name, Some middle_name =>
                    let self :=
                      set_profile self user_email first_name last_name middle_name in
                    let label := formats self in
                    match sync_devices label
                            {| existing_devices := _devices self;
                               leftover_devices := dom (_devices self);
                               logged := [] |} device_datum with
                    | (Raise e, st) =>
                        (Raise e, set_devices self (existing_devices st), logged st)
                    | (Ok _, st) =>
                        let self := set_devices self (existing_devices st) in
                        let self := remember_tag self request_tag response_tag in
                        match discard_leftover_devices label (existing_devices st)
                                (leftover_devices st) with
                        | (Raise e, registry) =>
                            (Raise e, set_devices self registry, logged st)
                        | (Ok _, registry) =>
                            (Ok tt, set_devices self registry,
                             logged st
                             ++ (InfoDiscarding <$> elements (leftover_devices st)))
                        end
                    end
                | _, _, _, _, _ =>
                    (* the handler of [KeyError] formats [exp], a name that is
                       not bound there *)
                    (Raise UnboundLocalError, self, [])
                end
            end
      end
  end.

(** *** Device state and commands through the cloud *)

(** [device_data_list[-1]]. *)
Definition last_item (items : list PyVal) : result PyVal :=
  match last items with
  | Some v => Ok v
  | None => Raise IndexError
  end.

(** [loads(text)]: only text can be decoded. *)
Definition py_loads (B : Builtins) (text : PyVal) : result PyVal :=
  match text with
  | VStr s =>
      match loads B s with
      | Some v => Ok v
      | None => Raise JSONDecodeError
      end
  | _ => Raise TypeError
  end.

(** The [try] block that unwraps the device data. *)
Definition decode_device_data (B : Builtins) (device_data_list : PyVal) : result PyVal :=
  match device_data_list with
  | VList items =>
      match last_item items with
      | Raise _ => Raise (TurkovAPIError "Missing device data")
      | Ok device_data_text =>
          match py_loads B device_data_text with
          | Raise JSONDecodeError => Raise (TurkovAPIError "Improper device data encoding")
          | Raise e => Raise e
          | Ok (VDict items) => Ok (VDict items)
          | Ok _ => Raise (TurkovAPIError "Improper device data format")
          end
      end
  | _ => Raise (TurkovAPIError "Improper device data format")
  end.

(** [get_device_state], as written under the decorator. The value is the
    device data, [None] ([VNone]) when the server answers 304 to a request
    that is not forced. The first log line formats the session before
    the request. *)
Definition get_device_state (B : Builtins) (self : t) (device_id : string) (force : bool)
    (send : request -> http_outcome PyVal) : result PyVal * t * list log_record :=
  let request_tag := "device_state__" +:+ device_id in
  match formats self with
  | Raise e => (Raise e, self, [])
  | Ok _ =>
      match send (prepare_authenticated_request self "GET" (BASE_URL +:+ "/user/devices")
                    [("device", device_id +:+ "_state")] []
                    (if force then None else Some request_tag)) with
      | ConnectionFails e => (Raise e, self, [])
      | Responds status response_tag json =>
          if negb force && (status =? 304) then (Ok VNone, self, [])
          else
            match json with
            | Raise (ContentTypeError | JSONDecodeError) =>
                (Raise (TurkovAPIError "Error decoding json data"), self, [])
            | Raise e => (Raise e, self, [])
            | Ok device_data_list =>
                match decode_device_data B device_data_list with
                | Raise e => (Raise e, self, [ErrorFetchFailed device_id])
                | Ok device_data =>
                    (Ok device_data, remember_tag self request_tag response_tag, [])
                end
            end
      end
  end.

(** [except (LookupError, ValueError, TypeError, AttributeError)]. *)
Definition is_lookup_value_type_or_attribute_error (e : exn) : bool :=
  match e with
  | KeyError | IndexError | ValueError | JSONDecodeError | TurkovAPIValueError _
  | TypeError | AttributeError => true
  | _ => false
  end.

(** [set_device_value], as written under the decorator. The first log
    line formats the session before the request. The [try] block holds
    both the decoding of the body and the subscript, so its second
    handler also catches what the decoding raises. *)
Definition set_device_value (self : t) (device_id key : string) (value : PyVal)
    (send : request -> http_outcome PyVal) : result unit * t :=
  match formats self with
  | Raise e => (Raise e, self)
  | Ok _ =>
      match send (prepare_authenticated_request self "POST"
                    (BASE_URL +:+ "/user/device/" +:+ device_id) [] [(key, value)] None) with
      | ConnectionFails e => (Raise e, self)
      | Responds _ _ json =>
          match json with
          | Raise (ContentTypeError | JSONDecodeError) =>
              (Raise (TurkovAPIError "Error decoding json data"), self)
          | Raise e =>
              if is_lookup_value_type_or_attribute_error e
              then (Raise (TurkovAPIError "Response contains no message"), self)
              else (Raise e, self)
          | Ok body =>
              match py_getitem body "message" with
              | Raise _ => (Raise (TurkovAPIError "Response contains no message"), self)
              | Ok message =>
                  if py_ne message (VStr "success")
                  then (Raise (TurkovAPIError "Error calling setter"), self)
                  else (Ok tt, self)
              end
          end
      end
  end.

End TurkovAPI.

(** ** The sensor platform (custom_components/turkov/sensor.py) *)

Module Sensor.

(** A sensor description: the device attribute it reads and its display
    name. (Its other fields, the device class, unit, state class, display
    precision and icon, are Home Assistant constants.) *)
Record TurkovSensorEntityDescription : Type := {
  key : string;
  name : string
}.

Definition DYNAMIC_SENSOR_TYPES : list (string * TurkovSensorEntityDescription) :=
  [ ("outdoor_temperature",
     {| key := "outdoor_temperature"; name := "Outdoor Temperature" |});
    ("indoor_temperature",
     {| key := "indoor_temperature"; name := "Indoor Temperature" |});
    ("exhaust_temperature",
     {| key := "exhaust_temperature"; name := "Exhaust Temperature" |});
    ("filter_life_percentage",
     {| key := "filter_life_percentage"; name := "Filter Used Percentage" |});
    ("air_pressure", {| key := "air_pressure"; name := "Air Pressure" |});
    ("indoor_humidity", {| key := "indoor_humidity"; name := "Indoor Humidity" |});
    ("co2_level", {| key := "co2_level"; name := "CO2 Level" |});
    ("current_temperature",
     {| key := "current_temperature"; name := "Current Temperature" |});
    ("current_humidity", {| key := "current_humidity"; name := "Current Humidity" |});
    ("fan_speed", {| key := "fan_speed"; name := "Fan Speed" |});
    ("fan_mode", {| key := "fan_mode"; name := "Fan Mode" |});
    ("target_temperature",
     {| key := "target_temperature"; name := "Target Temperature" |});
    ("target_humidity", {| key := "target_humidity"; name := "Target Humidity" |});
    ("fireplace", {| key := "fireplace"; name := "Fireplace State" |});
    ("humidifier", {| key := "humidifier"; name := "Humidifier State" |});
    ("first_relay", {| key := "first_relay"; name := "First Relay State" |});
    ("second_relay", {| key := "second_relay"; name := "Second Relay State" |}) ].

(** [_get_dynamic_sensor_descriptions]: the descriptions whose attribute
    the device holds with a value that is not [None], in the order of the
    table. *)
Definition _get_dynamic_sensor_descriptions (device : TurkovDevice.t)
    : list TurkovSensorEntityDescription :=
  snd <$> List.filter (fun e => negb (is_none (TurkovDevice.getattr device e.1)))
            DYNAMIC_SENSOR_TYPES.

End Sensor.

(** ** Concrete sessions, devices and payloads used in the examples *)

Module Examples.

(** Built-ins for the examples: [json.loads] is given on the one text the
    examples decode (the empty object), and no example parses or prints a
    numeral. *)
Definition example_builtins : Builtins :=
  {| repr := fun _ => EmptyString;
     float_of_str := fun _ => None;
     int_of_str := fun _ => None;
     loads := fun s => if String.eqb s "{}" then Some (VDict []) else None |}.

(** A session holding both tokens, each expiring at 1060. *)
Definition session_1060 : TurkovAPI.t :=
  {| TurkovAPI.handle_authentication := true;
     TurkovAPI._user_email := "user@example.org";
     TurkovAPI._password := "secret";
     TurkovAPI._access_token := VStr "access-0";
     TurkovAPI._access_token_expires_at := Some 1060;
     TurkovAPI._refresh_token := VStr "refresh-0";
     TurkovAPI._refresh_token_expires_at := Some 1060;
     TurkovAPI.first_name := None;
     TurkovAPI.last_name := None;
     TurkovAPI.middle_name := None;
     TurkovAPI._request_history := ∅;
     TurkovAPI._devices := ∅ |}.

(** A token envelope whose access token expires at 1000. *)
Definition envelope_1000 : PyVal :=
  VDict [ ("accessToken", VStr "access-1");
          ("accessTokenExpiresAt", VInt 1000);
          ("refreshToken", VStr "refresh-1");
          ("refreshTokenExpiresAt", VInt 5000) ].

(** A token envelope whose access token expires past the largest float. *)
Definition envelope_overflow : PyVal :=
  VDict [ ("accessToken", VStr "access-1");
          ("accessTokenExpiresAt", VInt (2 ^ 1024));
          ("refreshToken", VStr "refresh-1");
          ("refreshTokenExpiresAt", VInt 5000) ].

(** An envelope with no access token and an otherwise valid content. *)
Definition envelope_no_access : list (string * PyVal) :=
  [ ("accessTokenExpiresAt", VInt 4000);
    ("refreshToken", VStr "refresh-1");
    ("refreshTokenExpiresAt", VInt 5000) ].

(** A cloud device with nothing stored yet, and the same device once the
    target temperature holds a NaN. *)
Definition cloud_device (attrs : gmap string PyVal) : TurkovDevice.t :=
  {| TurkovDevice._api := true; TurkovDevice._id := Some "dev1";
     TurkovDevice._session := false; TurkovDevice.host := None;
     TurkovDevice._port := 80; TurkovDevice.serial_number := None;
     TurkovDevice.pin := None; TurkovDevice.type := None;
     TurkovDevice.name := None; TurkovDevice.firmware_version := None;
     TurkovDevice.attrs := attrs |}.

(** A device reached on the local network only. *)
Definition local_device : TurkovDevice.t :=
  {| TurkovDevice._api := false; TurkovDevice._id := None;
     TurkovDevice._session := true; TurkovDevice.host := Some "192.168.1.10";
     TurkovDevice._port := 80; TurkovDevice.serial_number := None;
     TurkovDevice.pin := None; TurkovDevice.type := None;
     TurkovDevice.name := None; TurkovDevice.firmware_version := None;
     TurkovDevice.attrs := ∅ |}.

(** A network on which the cloud answers every state request with
    [payload] and the local endpoint does not answer. *)
Definition cloud_answers (payload : PyVal) : TurkovDevice.Network :=
  {| TurkovDevice.local_state := Raise TimeoutError;
     TurkovDevice.cloud_state := fun _ _ => Ok payload;
     TurkovDevice.local_command := fun _ _ => Raise TimeoutError;
     TurkovDevice.cloud_command := fun _ _ _ => Ok VNone |}.

(** State payloads: a NaN target temperature, a custom image, and a
    device that is on. *)
Definition payload_nan : PyVal := VDict [ ("temp_sp", VFloat nan) ].

Definition payload_image : PyVal := VDict [ ("image", VStr "abc") ].

Definition payload_on : PyVal := VDict [ ("on", VBool true) ].

Definition upload_url : PyVal := VStr "https://turkovwifi.ru/upload/dev1_abc.jpg".

(** A user document reporting one device and two entries without a usable
    id, and a server that answers every request with it. *)
Definition three_entries : list TurkovAPI.DeviceDataResponseDict :=
  [ {[ "_id" := Some "dev1"; "deviceType" := Some "Capsule" ]};
    {[ "deviceName" := Some "nameless" ]};
    {[ "_id" := Some EmptyString ]} ].

Definition user_document : TurkovAPI.UserDataResponseDict :=
  {| TurkovAPI.devices := Some three_entries;
     TurkovAPI.userEmail := Some "user@example.org";
     TurkovAPI.firstName := Some "Ada";
     TurkovAPI.lastName := Some "Lovelace";
     TurkovAPI.fathersName := Some "" |}.

(** A server that does not answer the token endpoints, one that answers
    them with [envelope], and a user endpoint that answers with a page
    that is not JSON. *)
Definition unreachable : TurkovAPI.exchange :=
  {| TurkovAPI.answer := fun _ => TurkovAPI.ConnectionFails ClientError;
     TurkovAPI.answered_at := 1000%Q |}.

Definition grants (envelope : PyVal) : TurkovAPI.exchange :=
  {| TurkovAPI.answer := fun _ => TurkovAPI.Responds 200 None (Ok envelope);
     TurkovAPI.answered_at := 1000%Q |}.

Definition envelope_5000 : PyVal :=
  VDict [ ("accessToken", VStr "access-1");
          ("accessTokenExpiresAt", VInt 5000);
          ("refreshToken", VStr "refresh-1");
          ("refreshTokenExpiresAt", VInt 9000) ].

Definition session_5000 : TurkovAPI.t :=
  TurkovAPI.set_tokens session_1060 (VStr "access-1") 5000 (VStr "refresh-1") 9000.

Definition serves_html
    : TurkovAPI.request -> TurkovAPI.http_outcome TurkovAPI.UserDataResponseDict :=
  fun _ => TurkovAPI.Responds 200 None (Raise ContentTypeError).

Definition refuses
    : TurkovAPI.request -> TurkovAPI.http_outcome TurkovAPI.UserDataResponseDict :=
  fun _ => TurkovAPI.ConnectionFails HTTPUnauthorized.

(** [update_user_data] as the decorator calls it. *)
Definition update_user_data_fn
    (send : TurkovAPI.request -> TurkovAPI.http_outcome TurkovAPI.UserDataResponseDict)
    (self : TurkovAPI.t) : result unit * TurkovAPI.t :=
  fst (TurkovAPI.update_user_data self false send).

Definition serves_user_document
    : TurkovAPI.request -> TurkovAPI.http_outcome TurkovAPI.UserDataResponseDict :=
  fun _ => TurkovAPI.Responds 200 (Some "tag-1") (Ok user_document).

(** A device with a host and an API reference. *)
Definition both_device : TurkovDevice.t :=
  {| TurkovDevice._api := true; TurkovDevice._id := Some "dev1";
     TurkovDevice._session := false; TurkovDevice.host := Some "192.168.1.10";
     TurkovDevice._port := 80; TurkovDevice.serial_number := None;
     TurkovDevice.pin := None; TurkovDevice.type := None;
     TurkovDevice.name := None; TurkovDevice.firmware_version := None;
     TurkovDevice.attrs := ∅ |}.

(** A payload that reports the device on and no target temperature
    ([null]). *)
Definition payload_null : PyVal := VDict [ ("on", VBool true); ("temp_sp", VNone) ].

(** A payload that reports a fan speed, and the sensor of the fan speed. *)
Definition payload_fan : PyVal := VDict [ ("fan_speed", VStr "2") ].

Definition fan_speed_sensor : Sensor.TurkovSensorEntityDescription :=
  {| Sensor.key := "fan_speed"; Sensor.name := "Fan Speed" |}.

(** A session that holds no token and does not handle authentication. *)
Definition session_unmanaged : TurkovAPI.t :=
  {| TurkovAPI.handle_authentication := false;
     TurkovAPI._user_email := "user@example.org";
     TurkovAPI._password := "secret";
     TurkovAPI._access_token := VNone;
     TurkovAPI._access_token_expires_at := None;
     TurkovAPI._refresh_token := VNone;
     TurkovAPI._refresh_token_expires_at := None;
     TurkovAPI.first_name := None;
     TurkovAPI.last_name := None;
     TurkovAPI.middle_name := None;
     TurkovAPI._request_history := ∅;
     TurkovAPI._devices := ∅ |}.

(** A state endpoint that answers with the empty object and the
    validator [v1]. *)
Definition serves_state : TurkovAPI.request -> TurkovAPI.http_outcome PyVal :=
  fun _ => TurkovAPI.Responds 200 (Some "v1") (Ok (VList [VStr "{}"])).

(** A user document that lacks [fathersName], and a server that answers
    with it. *)
Definition partial_document : TurkovAPI.UserDataResponseDict :=
  {| TurkovAPI.devices := Some [];
     TurkovAPI.userEmail := Some "user@example.org";
     TurkovAPI.firstName := Some "Ada";
     TurkovAPI.lastName := Some "Lovelace";
     TurkovAPI.fathersName := None |}.

Definition serves_partial_document
    : TurkovAPI.request -> TurkovAPI.http_outcome TurkovAPI.UserDataResponseDict :=
  fun _ => TurkovAPI.Responds 200 None (Ok partial_document).

(** A session whose address has no [@], and a user document that gives
    such an address. *)
Definition session_admin : TurkovAPI.t :=
  TurkovAPI.set_profile session_1060 "admin" "Ada" "Lovelace" "".

Definition admin_document : TurkovAPI.UserDataResponseDict :=
  {| TurkovAPI.devices := Some three_entries;
     TurkovAPI.userEmail := Some "admin";
     TurkovAPI.firstName := Some "Ada";
     TurkovAPI.lastName := Some "Lovelace";
     TurkovAPI.fathersName := Some "" |}.

Definition serves_admin_document
    : TurkovAPI.request -> TurkovAPI.http_outcome TurkovAPI.UserDataResponseDict :=
  fun _ => TurkovAPI.Responds 200 (Some "tag-1") (Ok admin_document).

End Examples.

(** ** Vocabulary of the properties *)

Section DisplayVocabulary.

(** The character occurs in the string. *)
Fixpoint contains (c : ascii) (s : string) : bool :=
  match s with
  | EmptyString => false
  | String d rest => Ascii.eqb d c || contains c rest
  end.

(** The label of a session whose e-mail address has a local part that
    starts with the code point [c1] and a domain that starts with the
    code point [c2]. *)
Definition masked_label (c1 c2 : string) : string :=
  "TurkovAPI[" +:+ c1 +:+ "**@**" +:+ c2 +:+ "**]".

(** The address has a first [@] with something before it and something
    after it: the addresses that [__str__] makes a label of. *)
Definition has_label (user_email : string) : Prop :=
  exists local domain,
    contains "@" local = false /\ local <> EmptyString /\ domain <> EmptyString
    /\ user_email = local +:+ String "@" domain.

(** The text starts with the code point [point]. *)
Definition starts_with_point (s point : string) : Prop :=
  exists rest, code_points s = point :: rest.

End DisplayVocabulary.

Section SessionVocabulary.

Import TurkovAPI.

(** [needs_update] of a token and its expiry, as both properties compute it. *)
Definition needs_update (token : PyVal) (expires_at : option Z) (now : Q) : bool :=
  if negb (truthy token) then true
  else match expires_at with
       | None => true
       | Some e => Z_lt_Q (e - 60) now
       end.

(** The result is an [AuthenticationError]. *)
Definition is_authentication_error {A : Type} (r : result A) : Prop :=
  exists msg, r = Raise (TurkovAPIAuthenticationError msg).

(** An infinite float, the one value on which [int] raises [OverflowError]. *)
Definition is_infinite (v : PyVal) : bool :=
  match v with
  | VFloat x => match Prim2SF x with S754_infinity _ => true | _ => false end
  | _ => false
  end.

(** The payload is an array whose last element is a text that decodes to
    the object [d]. *)
Definition wraps_object (B : Builtins) (payload : result PyVal)
    (d : list (string * PyVal)) : Prop :=
  exists items text,
    payload = Ok (VList items)
    /\ last items = Some (VStr text)
    /\ loads B text = Some (VDict d).

(** The request [get_device_state] sends. *)
Definition device_state_request (self : t) (device_id : string) (force : bool) : request :=
  prepare_authenticated_request self "GET" (BASE_URL +:+ "/user/devices")
    [("device", device_id +:+ "_state")] []
    (if force then None else Some ("device_state__" +:+ device_id)).

(** The id a device entry reports, if it reports a non-empty one. *)
Definition reported_id (device_data : DeviceDataResponseDict) : option string :=
  match device_data !! "_id" with
  | Some (Some id_) => if non_empty id_ then Some id_ else None
  | _ => None
  end.

Definition reported_ids (device_datum : list DeviceDataResponseDict) : gset string :=
  list_to_set (omap reported_id device_datum).

(** The same object after a synchronisation: everything but the five
    fields a device entry may carry is as it was. *)
Definition same_device (device device' : TurkovDevice.t) : Prop :=
  TurkovDevice._api device' = TurkovDevice._api device
  /\ TurkovDevice._id device' = TurkovDevice._id device
  /\ TurkovDevice._session device' = TurkovDevice._session device
  /\ TurkovDevice.host device' = TurkovDevice.host device
  /\ TurkovDevice._port device' = TurkovDevice._port device
  /\ TurkovDevice.attrs device' = TurkovDevice.attrs device.

(** The request [update_user_data] sends. *)
Definition user_data_request (self : t) (force : bool) : request :=
  prepare_authenticated_request self "GET" (BASE_URL +:+ "/user") [] []
    (if force then None else Some "user_data").

(** The user document carries its five keys, [devices] holding
    [device_datum]. *)
Definition complete (user_data : UserDataResponseDict)
    (device_datum : list DeviceDataResponseDict) : Prop :=
  devices user_data = Some device_datum
  /\ is_Some (userEmail user_data) /\ is_Some (firstName user_data)
  /\ is_Some (lastName user_data) /\ is_Some (fathersName user_data).

(** The user document gives an address that [__str__] makes a label of. *)
Definition labelled (user_data : UserDataResponseDict) : Prop :=
  exists user_email, userEmail user_data = Some user_email /\ has_label user_email.

(** How many times a call occurs. *)
Fixpoint count (c : call) (calls : list call) : nat :=
  match calls with
  | [] => O
  | CallAuthenticate :: rest =>
      match c with
      | CallAuthenticate => S (count c rest)
      | CallWrapped => count c rest
      end
  | CallWrapped :: rest =>
      match c with
      | CallAuthenticate => count c rest
      | CallWrapped => S (count c rest)
      end
  end.

End SessionVocabulary.

Section DeviceVocabulary.

Import TurkovDevice.

(** The key and value a request carries to a command endpoint. *)
Definition command_of (r : request) : option (string * PyVal) :=
  match r with
  | LocalCommand key value | CloudCommand _ key value => Some (key, value)
  | LocalState | CloudState _ _ => None
  end.

Abbreviation entry := (string * (string * converter))%type.

(** The device with other attribute values. *)
Definition with_attrs (self : t) (m : gmap string PyVal) : t :=
  {| _api := _api self; _id := _id self; _session := _session self;
     host := host self; _port := _port self;
     serial_number := serial_number self; pin := pin self;
     type := type self; name := name self;
     firmware_version := firmware_version self;
     attrs := m |}.

Definition is_skipped (c : converter) : bool :=
  match c with
  | conv_False => true
  | _ => false
  end.

(** What one turn of the generic loop assigns to its attribute, if it
    assigns. *)
Definition entry_update (B : Builtins) (mark_as_none_if_not_present : bool)
    (device_data : PyVal) (self : t) (e : entry) : option PyVal :=
  if is_skipped e.2.2 then None
  else match wire_value B mark_as_none_if_not_present device_data e.2.1 e.2.2 with
       | Ok (Some value) => if py_ne value (getattr self e.1) then Some value else None
       | _ => None
       end.

(** The turn does not raise. *)
Definition entry_passes (B : Builtins) (mark_as_none_if_not_present : bool)
    (device_data : PyVal) (e : entry) : Prop :=
  is_skipped e.2.2 = false ->
  exists o, wire_value B mark_as_none_if_not_present device_data e.2.1 e.2.2 = Ok o.

(** Every value of the payload that the generic pass reads converts. *)
Definition convertible (B : Builtins) (mark_as_none_if_not_present : bool)
    (device_data : PyVal) : Prop :=
  forall e, e ∈ ATTRIBUTE_KEY_MAPPING ->
    entry_passes B mark_as_none_if_not_present device_data e.

End DeviceVocabulary.

Section CommandVocabulary.

Import TurkovDevice.

(** The commands of a device, each with its arguments. *)
Inductive command : Type :=
| Toggle (turn_on : option bool)
| TurnOn
| TurnOff
| SetFanSpeed (fan_speed : string)
| SetTargetTemperature (target_temperature : Z)
| SetTargetHumidity (target_humidity : Z)
| ToggleHeater (turn_on : option bool)
| ToggleCooler (turn_on : option bool)
| TurnOffHvac
| TurnOnHeater
| TurnOnCooler
| ToggleFireplace (enable : option bool)
| TurnOnFireplace
| TurnOffFireplace
| ToggleHumidifier (enable : option bool)
| TurnOnHumidifier
| TurnOffHumidifier
| ToggleFirstRelay (enable : option bool)
| TurnOnFirstRelay
| TurnOffFirstRelay
| SetFirstRelayName (name : string)
| ToggleSecondRelay (enable : option bool)
| TurnOnSecondRelay
| TurnOffSecondRelay
| SetSecondRelayName (name : string).

Definition run_command (net : Network) (self : t) (c : command)
    : result PyVal * list request :=
  match c with
  | Toggle turn_on => toggle net self turn_on
  | TurnOn => turn_on net self
  | TurnOff => turn_off net self
  | SetFanSpeed fan_speed => set_fan_speed net self fan_speed
  | SetTargetTemperature n => set_target_temperature net self n
  | SetTargetHumidity n => set_target_humidity net self n
  | ToggleHeater turn_on => toggle_heater net self turn_on
  | ToggleCooler turn_on => toggle_cooler net self turn_on
  | TurnOffHvac => turn_off_hvac net self
  | TurnOnHeater => turn_on_heater net self
  | TurnOnCooler => turn_on_cooler net self
  | ToggleFireplace enable => toggle_fireplace net self enable
  | TurnOnFireplace => turn_on_fireplace net self
  | TurnOffFireplace => turn_off_fireplace net self
  | ToggleHumidifier enable => toggle_humidifier net self enable
  | TurnOnHumidifier => turn_on_humidifier net self
  | TurnOffHumidifier => turn_off_humidifier net self
  | ToggleFirstRelay enable => toggle_first_relay net self enable
  | TurnOnFirstRelay => turn_on_first_relay net self
  | TurnOffFirstRelay => turn_off_first_relay net self
  | SetFirstRelayName name => set_first_relay_name net self name
  | ToggleSecondRelay enable => toggle_second_relay net self enable
  | TurnOnSecondRelay => turn_on_second_relay net self
  | TurnOffSecondRelay => turn_off_second_relay net self
  | SetSecondRelayName name => set_second_relay_name net self name
  end.

(** The request writes a wire key from which the reconciliation reads an
    attribute. *)
Definition writes_reconciled_key (r : request) : Prop :=
  exists key value attribute_name c,
    command_of r = Some (key, value)
    /\ (attribute_name, (key, c)) ∈ ATTRIBUTE_KEY_MAPPING
    /\ c <> conv_False.

(** Every request of the call carries [key] with a value that [accepts]
    holds of. *)
Definition sends_only (key : string) (accepts : PyVal -> Prop)
    (run : result PyVal * list request) : Prop :=
  Forall (fun r => exists value, command_of r = Some (key, value) /\ accepts value) run.2.


End CommandVocabulary.

Section ReconciliationVocabulary.

Import TurkovDevice.

(** The exceptions a converter raises. *)
Definition is_conversion_error (e : exn) : bool :=
  match e with
  | TypeError | ValueError | OverflowError => true
  | _ => false
  end.

(** The turn of the generic loop for [attribute_name] raises [e]. *)
Definition fails_to_convert (B : Builtins) (mark_as_none_if_not_present : bool)
    (device_data : PyVal) (e : exn) : Prop :=
  exists attribute_name key c,
    (attribute_name, (key, c)) ∈ ATTRIBUTE_KEY_MAPPING
    /\ c <> conv_False
    /\ wire_value B mark_as_none_if_not_present device_data key c = Raise e.

(** The value is [None] or of the type the converter returns; a raw
    value (no converter) is of any type. *)
Definition holds_type (c : converter) (v : PyVal) : bool :=
  match c, v with
  | _, VNone => true
  | (conv_None | conv_False), _ => true
  | conv_str, VStr _ => true
  | (conv_float | conv_float_less), VFloat _ => true
  | conv_int, VInt _ => true
  | conv_bool, VBool _ => true
  | _, _ => false
  end.

(** No attribute holds a value yet, as when the device has just been
    created. *)
Definition is_blank (self : t) : Prop := forall a, getattr self a = VNone.

End ReconciliationVocabulary.

Section ExchangeVocabulary.

Import TurkovAPI.

(** The requests of the two authentication exchanges. *)
Definition signin_request (user_email password : string) : request :=
  {| req_method := "POST"; req_url := BASE_URL +:+ "/user/signin";
     req_headers := ∅; req_params := [];
     req_json := [("userEmail", VStr user_email); ("password", VStr password)] |}.

Definition token_request (refresh_token : PyVal) : request :=
  {| req_method := "GET"; req_url := BASE_URL +:+ "/user/token";
     req_headers := {[ "x-access-token" := refresh_token ]};
     req_params := []; req_json := [] |}.

(** The exchange answers [req] with an envelope that holds the four
    values and passes the validation at the time it is processed. *)
Definition grants_tokens (B : Builtins) (x : exchange) (req : request)
    (access_token : PyVal) (access_token_expires_at : Z)
    (refresh_token : PyVal) (refresh_token_expires_at : Z) : Prop :=
  exists status etag data,
    answer x req = Responds status etag (Ok data)
    /\ extract_auth_data B data
       = Ok (access_token, access_token_expires_at, refresh_token, refresh_token_expires_at)
    /\ truthy access_token || truthy refresh_token = true
    /\ Z_lt_Q access_token_expires_at (answered_at x) = false
    /\ Z_lt_Q refresh_token_expires_at (answered_at x) = false.

(** The integer converts to a float: it is not past the largest one. *)
Definition in_float_range (n : Z) : Prop := exists x, float_of_Z n = Ok x.

(** The same session but for the four token fields. *)
Definition same_account (self self' : t) : Prop :=
  handle_authentication self' = handle_authentication self
  /\ _user_email self' = _user_email self
  /\ _password self' = _password self
  /\ first_name self' = first_name self
  /\ last_name self' = last_name self
  /\ middle_name self' = middle_name self
  /\ _request_history self' = _request_history self
  /\ _devices self' = _devices self.

End ExchangeVocabulary.

Section RequestVocabulary.

Import TurkovAPI.

(** The same session but for the request history. *)
Definition same_but_history (self self' : t) : Prop :=
  handle_authentication self' = handle_authentication self
  /\ _user_email self' = _user_email self
  /\ _password self' = _password self
  /\ _access_token self' = _access_token self
  /\ _access_token_expires_at self' = _access_token_expires_at self
  /\ _refresh_token self' = _refresh_token self
  /\ _refresh_token_expires_at self' = _refresh_token_expires_at self
  /\ first_name self' = first_name self
  /\ last_name self' = last_name self
  /\ middle_name self' = middle_name self
  /\ _devices self' = _devices self.

(** The credentials and the tokens are the same. *)
Definition same_tokens (self self' : t) : Prop :=
  handle_authentication self' = handle_authentication self
  /\ _password self' = _password self
  /\ _access_token self' = _access_token self
  /\ _access_token_expires_at self' = _access_token_expires_at self
  /\ _refresh_token self' = _refresh_token self
  /\ _refresh_token_expires_at self' = _refresh_token_expires_at self.

(** The request [set_device_value] sends. *)
Definition device_command_request (self : t) (device_id key : string) (value : PyVal)
    : request :=
  prepare_authenticated_request self "POST" (BASE_URL +:+ "/user/device/" +:+ device_id)
    [] [(key, value)] None.

End RequestVocabulary.

Section RegistryVocabulary.

Import TurkovAPI.

(** The device that [TurkovDevice(id_, self)] creates. *)
Definition new_device (id_ : string) : TurkovDevice.t :=
  {| TurkovDevice._api := true; TurkovDevice._id := Some id_;
     TurkovDevice._session := false; TurkovDevice.host := None;
     TurkovDevice._port := 80; TurkovDevice.serial_number := None;
     TurkovDevice.pin := None; TurkovDevice.type := None;
     TurkovDevice.name := None; TurkovDevice.firmware_version := None;
     TurkovDevice.attrs := ∅ |}.

(** The entries of the device list that report [id_], in order. *)
Definition entries_of (id_ : string) (device_datum : list DeviceDataResponseDict)
    : list DeviceDataResponseDict :=
  filter (fun device_data => reported_id device_data = Some id_) device_datum.

(** The device the entries that report [id_] make of the device the
    registry held under it, or of a new one. *)
Definition synchronised (registry : gmap string TurkovDevice.t) (id_ : string)
    (entries : list DeviceDataResponseDict) : TurkovDevice.t :=
  fold_left apply_device_data entries (default (new_device id_) (registry !! id_)).

(** Every device is filed under its own id and holds the API reference. *)
Definition well_keyed (registry : gmap string TurkovDevice.t) : Prop :=
  forall id_ device, registry !! id_ = Some device ->
    TurkovDevice._id device = Some id_ /\ TurkovDevice._api device = true.

(** The five descriptive fields, by the key of a device entry that
    carries them. *)
Definition descriptive_fields : list (string * (TurkovDevice.t -> option string)) :=
  [ ("deviceType", TurkovDevice.type);
    ("deviceName", TurkovDevice.name);
    ("serialNumber", TurkovDevice.serial_number);
    ("pin", TurkovDevice.pin);
    ("firmVer", TurkovDevice.firmware_version) ].

(** The state in which the first loop starts. *)
Definition sync_start (self : t) : sync_state :=
  {| existing_devices := _devices self;
     leftover_devices := dom (_devices self);
     logged := [] |}.

(** The session a synchronisation leaves when both loops have run. *)
Definition synchronised_session (self : t) (user_email first_name last_name
    middle_name : string) (etag : option string) (st : sync_state) : t :=
  set_devices
    (remember_tag
       (set_devices (set_profile self user_email first_name last_name middle_name)
          (existing_devices st))
       "user_data" etag)
    (discard_leftover (existing_devices st) (leftover_devices st)).

End RegistryVocabulary.

(** * Properties *)

(** ** Log lines *)

Section LogLines.

Import TurkovAPI.

Lemma formats_ok (self : t) (label : string) :
  __str__ self = Ok label -> formats self = Ok tt.
Proof. unfold formats. intros ->. reflexivity. Qed.

Lemma formats_raises (self : t) (e : exn) :
  formats self = Raise e <-> __str__ self = Raise e.
Proof.
  unfold formats. destruct (__str__ self); cbn [bind]; split; congruence.
Qed.

Lemma formats_label (self : t) :
  formats self = Ok tt -> exists label, __str__ self = Ok label.
Proof.
  unfold formats. destruct (__str__ self) as [label|e]; [eauto | discriminate].
Qed.

(** The label is made of the e-mail address alone. *)
Lemma formats_same_email (self self' : t) :
  _user_email self' = _user_email self -> formats self' = formats self.
Proof. unfold formats, __str__. intros ->. reflexivity. Qed.

Lemma append_cons (c : ascii) (a b : string) : String c a +:+ b = String c (a +:+ b).
Proof. reflexivity. Qed.

Lemma append_nil_r (a : string) : a +:+ EmptyString = a.
Proof. induction a as [|c a IH]; [reflexivity|]. rewrite append_cons, IH. reflexivity. Qed.

Lemma split_points_join (s : string) :
  (split_points s).1 +:+ join_points (split_points s).2 = s.
Proof.
  induction s as [|c s IH]; [reflexivity|].
  cbn [split_points]. destruct (split_points s) as [continuation points].
  cbn [fst snd] in IH. destruct (is_continuation c); cbn [fst snd].
  - rewrite append_cons, IH. reflexivity.
  - change (join_points (String c continuation :: points))
      with (String c continuation +:+ join_points points).
    change (String c (continuation +:+ join_points points) = String c s).
    rewrite IH. reflexivity.
Qed.

Lemma join_code_points (s : string) : join_points (code_points s) = s.
Proof.
  pose proof (split_points_join s) as H. unfold code_points.
  destruct (split_points s) as [[|c continuation] points]; exact H.
Qed.

Lemma join_points_app (l1 l2 : list string) :
  join_points (l1 ++ l2) = join_points l1 +:+ join_points l2.
Proof.
  induction l1 as [|x l1 IH]; [reflexivity|].
  cbn [app join_points fold_right]. fold (join_points (l1 ++ l2)). fold (join_points l1).
  rewrite IH. generalize (join_points l1) (join_points l2). clear.
  induction x as [|c x IHx]; intros a b; [reflexivity|].
  rewrite !append_cons, IHx. reflexivity.
Qed.

Lemma code_points_nil (s : string) : code_points s = [] <-> s = EmptyString.
Proof.
  split; [|intros ->; reflexivity].
  intros H. rewrite <- (join_code_points s), H. reflexivity.
Qed.

Lemma first_char_spec (s : string) :
  (s = EmptyString /\ first_char s = Raise IndexError)
  \/ (exists point, starts_with_point s point /\ first_char s = Ok point).
Proof.
  unfold first_char, starts_with_point.
  destruct (code_points s) as [|point rest] eqn:E.
  - left. split; [apply code_points_nil; exact E | reflexivity].
  - right. exists point. split; [exists rest; reflexivity | reflexivity].
Qed.

Lemma first_char_cases (s : string) :
  first_char s = Raise IndexError \/ exists point, first_char s = Ok point.
Proof. unfold first_char. destruct (code_points s); eauto. Qed.

Lemma first_char_point (s point : string) :
  starts_with_point s point -> first_char s = Ok point.
Proof. intros [rest H]. unfold first_char. rewrite H. reflexivity. Qed.

Lemma str_partition_found (sep : ascii) (head tail : string) :
  contains sep head = false ->
  str_partition sep (head +:+ String sep tail) = (head, String sep EmptyString, tail).
Proof.
  induction head as [|c head IH].
  - intros _. change (EmptyString +:+ String sep tail) with (String sep tail).
    cbn [str_partition]. rewrite Ascii.eqb_refl. reflexivity.
  - intros H. cbn [contains] in H. apply orb_false_iff in H as [Hc Hrest].
    rewrite append_cons. cbn [str_partition]. rewrite Hc, (IH Hrest). reflexivity.
Qed.

Lemma str_partition_absent (sep : ascii) (s : string) :
  contains sep s = false ->
  str_partition sep s = (s, EmptyString, EmptyString).
Proof.
  induction s as [|c s IH]; cbn [str_partition contains]; [reflexivity|].
  intros H. apply orb_false_iff in H as [Hc Hrest].
  rewrite Hc, (IH Hrest). reflexivity.
Qed.

Lemma str_partition_spec (sep : ascii) (s : string) :
  (exists head tail,
     s = head +:+ String sep tail /\ contains sep head = false)
  \/ contains sep s = false.
Proof.
  induction s as [|c s IH]; [right; reflexivity|].
  destruct (Ascii.eqb c sep) eqn:Hc.
  - left. apply Ascii.eqb_eq in Hc. subst c. exists EmptyString, s. split; reflexivity.
  - destruct IH as [(head & tail & -> & Hh) | Hno].
    + left. exists (String c head), tail. split; [reflexivity|].
      cbn [contains]. rewrite Hc, Hh. reflexivity.
    + right. cbn [contains]. rewrite Hc, Hno. reflexivity.
Qed.

(** The label exists exactly for an address with a non-empty part before
    its first [@] and a non-empty part after it. *)
Lemma label_exists (self : t) :
  (exists label, __str__ self = Ok label) <-> has_label (_user_email self).
Proof.
  unfold __str__, has_label. split.
  - intros [label Hl].
    destruct (str_partition_spec "@" (_user_email self))
      as [(head & tail & He & Hh) | Hno].
    + rewrite He, (str_partition_found _ _ _ Hh) in Hl.
      exists head, tail. split; [exact Hh|].
      split; [|split; [|exact He]].
      * intros ->. discriminate Hl.
      * intros ->. destruct (first_char head); discriminate Hl.
    + rewrite (str_partition_absent _ _ Hno) in Hl.
      destruct (first_char (_user_email self)); discriminate Hl.
  - intros (local & domain & Hno & Hl & Hd & ->).
    rewrite (str_partition_found _ _ _ Hno).
    destruct (first_char_spec local) as [[-> _] | (c1 & _ & ->)]; [congruence|].
    destruct (first_char_spec domain) as [[-> _] | (c2 & _ & ->)]; [congruence|].
    eexists. reflexivity.
Qed.

(** [__str__] raises nothing but [IndexError]. *)
Lemma str_raises (self : t) (e : exn) : __str__ self = Raise e -> e = IndexError.
Proof.
  unfold __str__.
  destruct (str_partition "@" (_user_email self)) as [[head found] tail].
  destruct (first_char_cases head) as [-> | [a ->]]; cbn [bind]; [congruence|].
  destruct (first_char_cases found) as [-> | [b ->]]; cbn [bind]; [congruence|].
  destruct (first_char_cases tail) as [-> | [c ->]]; cbn [bind]; congruence.
Qed.

Lemma formats_cases (self : t) :
  (has_label (_user_email self) /\ formats self = Ok tt)
  \/ (~ has_label (_user_email self) /\ formats self = Raise IndexError).
Proof.
  unfold formats. destruct (__str__ self) as [label|e] eqn:E; cbn [bind].
  - left. split; [apply label_exists; eauto | reflexivity].
  - right. rewrite (str_raises self e E). split; [|reflexivity].
    intros H. apply label_exists in H as [label H]. congruence.
Qed.

Lemma formats_has_label (self : t) :
  has_label (_user_email self) -> formats self = Ok tt.
Proof. destruct (formats_cases self) as [[_ H] | [H _]]; tauto. Qed.

Lemma formats_no_label (self : t) :
  ~ has_label (_user_email self) -> formats self = Raise IndexError.
Proof. destruct (formats_cases self) as [[H _] | [_ H]]; tauto. Qed.

End LogLines.

(** ** Token freshness *)

Section Freshness.

Import TurkovAPI.

Lemma Z_lt_Q_spec (n : Z) (q : Q) : Z_lt_Q n q = true <-> (inject_Z n < q)%Q.
Proof.
  unfold Z_lt_Q. rewrite Qlt_alt.
  destruct (inject_Z n ?= q)%Q; split; congruence.
Qed.

Lemma Z_lt_Q_boundary (n : Z) (q : Q) : (inject_Z n == q)%Q -> Z_lt_Q n q = false.
Proof.
  intros H. destruct (Z_lt_Q n q) eqn:E; [|reflexivity].
  apply Z_lt_Q_spec in E. rewrite H in E. exfalso. exact (Qlt_irrefl _ E).
Qed.

Lemma needs_update_spec (token : PyVal) (expires_at : option Z) (now : Q) :
  needs_update token expires_at now = true <->
  truthy token = false \/ expires_at = None \/
  exists e, expires_at = Some e /\ (inject_Z (e - 60) < now)%Q.
Proof.
  unfold needs_update. destruct (truthy token); simpl.
  - destruct expires_at as [e|].
    + rewrite Z_lt_Q_spec. split.
      * intros H. right. right. exists e. split; [reflexivity | exact H].
      * intros [H | [H | [e' [H1 H2]]]]; try discriminate.
        injection H1 as <-. exact H2.
    + split; [intros _; right; left; reflexivity | reflexivity].
  - split; [intros _; left; reflexivity | reflexivity].
Qed.

(** C4 (as the code has it): [access_token_needs_update] and
    [refresh_token_needs_update] are true if and only if no token is
    stored (the token is [None] or empty), or no expiry is stored, or
    [expiry - 60 < now], the comparison being strict: at the boundary
    instant [expiry - 60 = now], with a token and an expiry stored, both
    are false. *)
Theorem needs_update_iff_strictly_past (self : t) (now : Q) :
  (access_token_needs_update self now = true <->
     truthy (_access_token self) = false \/
     _access_token_expires_at self = None \/
     exists e, _access_token_expires_at self = Some e /\ (inject_Z (e - 60) < now)%Q)
  /\ (refresh_token_needs_update self now = true <->
     truthy (_refresh_token self) = false \/
     _refresh_token_expires_at self = None \/
     exists e, _refresh_token_expires_at self = Some e /\ (inject_Z (e - 60) < now)%Q)
  /\ (forall e, truthy (_access_token self) = true ->
        _access_token_expires_at self = Some e ->
        (inject_Z (e - 60) == now)%Q ->
        access_token_needs_update self now = false)
  /\ (forall e, truthy (_refresh_token self) = true ->
        _refresh_token_expires_at self = Some e ->
        (inject_Z (e - 60) == now)%Q ->
        refresh_token_needs_update self now = false).
Proof.
  repeat split.
  - apply (needs_update_spec (_access_token self) (_access_token_expires_at self) now).
  - apply (needs_update_spec (_access_token self) (_access_token_expires_at self) now).
  - apply (needs_update_spec (_refresh_token self) (_refresh_token_expires_at self) now).
  - apply (needs_update_spec (_refresh_token self) (_refresh_token_expires_at self) now).
  - intros e Ht He Hb. unfold access_token_needs_update.
    rewrite Ht, He. simpl. apply Z_lt_Q_boundary, Hb.
  - intros e Ht He Hb. unfold refresh_token_needs_update.
    rewrite Ht, He. simpl. apply Z_lt_Q_boundary, Hb.
Qed.

(** C4, the claim as stated fails: with a token stored and
    [expiry - 60 = now] (expiry 1060, now 1000) neither property asks for
    an update. *)
Lemma needs_update_false_at_boundary :
  (inject_Z (1060 - 60) <= 1000)%Q
  /\ access_token_needs_update Examples.session_1060 1000 = false
  /\ refresh_token_needs_update Examples.session_1060 1000 = false.
Proof. repeat split. discriminate. Qed.

End Freshness.

(** ** Validation of an authentication response *)

Section AuthResponse.

Import TurkovAPI.

Variable B : Builtins.

Lemma py_int_raises (v : PyVal) (e : exn) :
  py_int B v = Raise e ->
  is_infinite v = false ->
  is_ValueError_or_TypeError e = true.
Proof.
  destruct v as [|b|n|x|s|l|l]; simpl; try discriminate;
    try (intros [= <-]; reflexivity).
  - destruct (Prim2SF x); try discriminate; intros [= <-]; reflexivity.
  - destruct (int_of_str B s); [discriminate|]. intros [= <-]. reflexivity.
Qed.

Lemma rejected_bad_data (self : t) (e : exn) :
  is_ValueError_or_TypeError e = true ->
  is_authentication_error (A := unit)
    (fst (match e with
          | KeyError =>
              (Raise (TurkovAPIAuthenticationError "Server did not provide auth data"), self)
          | _ =>
              if is_ValueError_or_TypeError e
              then (Raise (TurkovAPIAuthenticationError "Server provided bad data"), self)
              else (Raise e, self)
          end)).
Proof.
  intros H. destruct e; simpl in H |- *; try discriminate; eexists; reflexivity.
Qed.

(** C3 (as the code has it): a response is rejected with an
    [AuthenticationError] whenever the [accessToken] field is missing, or
    the [refreshToken] field is missing (the access-token expiry read
    before it not being an infinite float), or, the four fields being
    read, the access-token expiry is strictly before now, or the
    refresh-token expiry is strictly before now; each condition suffices
    alone, whatever the other fields hold. *)
Theorem process_auth_request_rejects (self : t) (d : list (string * PyVal)) (now : Q) :
  (dict_get "accessToken" d = None ->
     is_authentication_error (fst (_process_auth_request B self (Ok (VDict d)) now)))
  /\ (dict_get "refreshToken" d = None ->
      (forall v, dict_get "accessTokenExpiresAt" d = Some v -> is_infinite v = false) ->
      is_authentication_error (fst (_process_auth_request B self (Ok (VDict d)) now)))
  /\ (forall access_token access refresh_token refresh ae re,
      dict_get "accessToken" d = Some access_token ->
      dict_get "accessTokenExpiresAt" d = Some access -> py_int B access = Ok ae ->
      dict_get "refreshToken" d = Some refresh_token ->
      dict_get "refreshTokenExpiresAt" d = Some refresh -> py_int B refresh = Ok re ->
      (inject_Z ae < now)%Q \/ (inject_Z re < now)%Q ->
      is_authentication_error (fst (_process_auth_request B self (Ok (VDict d)) now))).
Proof.
  split; [|split].
  - intros H. unfold _process_auth_request, extract_auth_data.
    cbn [py_getitem bind]. rewrite H. eexists. reflexivity.
  - intros H Hfin. unfold _process_auth_request, extract_auth_data.
    cbn [py_getitem bind].
    destruct (dict_get "accessToken" d) as [a|]; cbn [bind];
      [|eexists; reflexivity].
    destruct (dict_get "accessTokenExpiresAt" d) as [v|] eqn:Ev; cbn [bind];
      [|eexists; reflexivity].
    destruct (py_int B v) as [ae|e] eqn:Ei; cbn [bind].
    + rewrite H. eexists. reflexivity.
    + apply rejected_bad_data, (py_int_raises v e Ei), (Hfin v eq_refl).
  - intros a access r refresh ae re Ha Hae Hae' Hr Hre Hre' Hexp.
    unfold _process_auth_request, extract_auth_data. cbn [py_getitem bind].
    rewrite Ha, Hae. cbn [bind]. rewrite Hae'. cbn [bind]. rewrite Hr, Hre.
    cbn [bind]. rewrite Hre'. cbn [bind].
    destruct (negb (truthy a || truthy r)); [eexists; reflexivity|].
    destruct (Z_lt_Q ae now) eqn:E1; [eexists; reflexivity|].
    destruct (Z_lt_Q re now) eqn:E2; [eexists; reflexivity|].
    exfalso. destruct Hexp as [H | H]; apply Z_lt_Q_spec in H; congruence.
Qed.

End AuthResponse.

(** C3, witness: an envelope without [accessToken] is rejected. *)
Lemma process_auth_request_rejects_witness :
  is_authentication_error
    (fst (TurkovAPI._process_auth_request Examples.example_builtins
            Examples.session_1060 (Ok (VDict Examples.envelope_no_access)) 1000)).
Proof.
  exact (proj1 (process_auth_request_rejects Examples.example_builtins
                  Examples.session_1060 Examples.envelope_no_access 1000) eq_refl).
Defined.

(** C3, the claim as stated fails: a response whose access token expires
    exactly now (expiry 1000, now 1000) is accepted, whatever the
    built-ins. *)
Lemma process_auth_request_accepts_expiry_now :
  (inject_Z 1000 <= 1000)%Q
  /\ (fun B => fst (TurkovAPI._process_auth_request B Examples.session_1060
                      (Ok Examples.envelope_1000) 1000))
     = (fun _ => Ok tt).
Proof. split; [discriminate | reflexivity]. Qed.

(** ** Atomic update of the tokens *)

Section TokenAtomicity.

Import TurkovAPI.

Variable B : Builtins.

Lemma seconds_left_raises (expires_at : Z) (e : exn) :
  seconds_left expires_at = Raise e -> e = OverflowError.
Proof.
  unfold seconds_left, float_of_Z. destruct (is_infinity _); cbn [bind]; congruence.
Qed.

Lemma seconds_left_cases (expires_at : Z) :
  seconds_left expires_at = Ok tt \/ seconds_left expires_at = Raise OverflowError.
Proof.
  unfold seconds_left, float_of_Z. destruct (is_infinity _); cbn [bind]; auto.
Qed.

Lemma set_access_then_refresh (self : t) (access_token refresh_token : PyVal)
    (ae re : Z) :
  set_refresh_token_expires_at (set_access self access_token refresh_token ae) re
  = set_tokens self access_token ae refresh_token re.
Proof. reflexivity. Qed.

(** A failed [_process_auth_request] leaves the session as it was, unless
    the failure is the [OverflowError] of one of the two log lines that
    follow the validation. *)
Lemma process_auth_request_failure (self : t) (json : result PyVal) (now : Q) (e : exn) :
  fst (_process_auth_request B self json now) = Raise e ->
  snd (_process_auth_request B self json now) = self
  \/ exists data access_token ae refresh_token re,
       json = Ok data
       /\ extract_auth_data B data = Ok (access_token, ae, refresh_token, re)
       /\ e = OverflowError
       /\ (seconds_left ae = Raise OverflowError
           /\ snd (_process_auth_request B self json now)
              = set_access self access_token refresh_token ae
           \/ seconds_left ae = Ok tt
              /\ seconds_left re = Raise OverflowError
              /\ snd (_process_auth_request B self json now)
                 = set_tokens self access_token ae refresh_token re).
Proof.
  unfold _process_auth_request.
  destruct json as [data|e0].
  - destruct (extract_auth_data B data) as [[[[a ae] r] re]|e1] eqn:E.
    + destruct (negb (truthy a || truthy r)); [left; reflexivity|].
      destruct (Z_lt_Q ae now); [left; reflexivity|].
      destruct (Z_lt_Q re now); [left; reflexivity|].
      destruct (seconds_left ae) as [[]|e1] eqn:Hae.
      * destruct (seconds_left re) as [[]|e2] eqn:Hre; [discriminate|].
        intros [= <-]. pose proof (seconds_left_raises _ _ Hre) as ->.
        right. exists data, a, ae, r, re.
        do 3 (split; [first [reflexivity | exact E]|]). right. auto.
      * intros [= <-]. pose proof (seconds_left_raises _ _ Hae) as ->.
        right. exists data, a, ae, r, re.
        do 3 (split; [first [reflexivity | exact E]|]). left. auto.
    + intros _. left. destruct e1; try reflexivity;
        destruct (is_ValueError_or_TypeError _); reflexivity.
  - intros _. left. destruct e0; reflexivity.
Qed.

(** The same, for a failure that is not an [OverflowError]. *)
Lemma process_auth_request_failure_keeps (self : t) (json : result PyVal) (now : Q)
    (e : exn) :
  fst (_process_auth_request B self json now) = Raise e ->
  e <> OverflowError ->
  snd (_process_auth_request B self json now) = self.
Proof.
  intros Hf Hne.
  destruct (process_auth_request_failure self json now e Hf)
    as [H | (d & a & ae & r & re & _ & _ & He & _)]; [exact H | contradiction].
Qed.

(** Whatever it raises, [_process_auth_request] changes the four token
    fields only. *)
Lemma process_auth_request_same_account (self : t) (json : result PyVal) (now : Q) :
  same_account self (snd (_process_auth_request B self json now)).
Proof.
  unfold _process_auth_request.
  destruct json as [data|e0].
  - destruct (extract_auth_data B data) as [[[[a ae] r] re]|e1].
    + destruct (negb (truthy a || truthy r)); [repeat split|].
      destruct (Z_lt_Q ae now); [repeat split|].
      destruct (Z_lt_Q re now); [repeat split|].
      destruct (seconds_left ae); [|repeat split].
      destruct (seconds_left re); repeat split.
    + destruct e1; try (repeat split; fail);
        destruct (is_ValueError_or_TypeError _); repeat split.
  - destruct e0; repeat split.
Qed.

Lemma process_auth_request_success (self : t) (json : result PyVal) (now : Q) :
  fst (_process_auth_request B self json now) = Ok tt ->
  exists data access_token ae refresh_token re,
    json = Ok data
    /\ extract_auth_data B data = Ok (access_token, ae, refresh_token, re)
    /\ snd (_process_auth_request B self json now)
       = set_tokens self access_token ae refresh_token re.
Proof.
  unfold _process_auth_request.
  destruct json as [data|e0].
  - destruct (extract_auth_data B data) as [[[[a ae] r] re]|e1] eqn:E.
    + destruct (negb (truthy a || truthy r)); [discriminate|].
      destruct (Z_lt_Q ae now); [discriminate|].
      destruct (Z_lt_Q re now); [discriminate|].
      destruct (seconds_left ae); [|discriminate].
      destruct (seconds_left re); [|discriminate].
      intros _. exists data, a, ae, r, re.
      split; [reflexivity | split; [exact E | reflexivity]].
    + destruct e1; simpl; try discriminate;
        destruct (is_ValueError_or_TypeError _); discriminate.
  - destruct e0; discriminate.
Qed.

Lemma authenticate_with_email_failure (self : t) (user_email password : option string)
    (x : exchange) (e : exn) :
  fst (authenticate_with_email B self user_email password x) = Raise e ->
  e <> OverflowError ->
  snd (authenticate_with_email B self user_email password x) = self.
Proof.
  unfold authenticate_with_email.
  destruct (negb _); [reflexivity|].
  destruct (formats self); [|reflexivity].
  destruct (answer x _) as [e0|status etag json]; [reflexivity|].
  apply process_auth_request_failure_keeps.
Qed.

Lemma authenticate_with_token_failure (self : t) (refresh_token : PyVal) (now : Q)
    (x : exchange) (e : exn) :
  fst (authenticate_with_token B self refresh_token now x) = Raise e ->
  e <> OverflowError ->
  snd (authenticate_with_token B self refresh_token now x) = self.
Proof.
  unfold authenticate_with_token.
  destruct (negb (truthy refresh_token)).
  - destruct (refresh_token_needs_update self now); [reflexivity|].
    destruct (formats self); [|reflexivity].
    destruct (answer x _) as [e0|status etag json]; [reflexivity|].
    apply process_auth_request_failure_keeps.
  - destruct (formats self); [|reflexivity].
    destruct (answer x _) as [e0|status etag json]; [reflexivity|].
    apply process_auth_request_failure_keeps.
Qed.

(** C8: the claim holds of every failure but one, which the code lets
    through. A sign-in or refresh response that passes the validation
    with an access-token expiry past the largest float (here [2 ^ 1024])
    has its access token, its refresh token and its access-token expiry
    stored; the log line that follows computes the seconds left to the
    token, which raises [OverflowError]; the exchange fails with three
    fields new and the refresh-token expiry old. This holds whatever the
    built-ins, of [_process_auth_request] and of the two exchanges built
    on it. Every failure of theirs that is not an [OverflowError]
    (transport, decoding, missing fields, validation) leaves the session
    as it was. *)
Theorem failed_exchange_leaves_three_fields :
  let stored :=
    set_access Examples.session_1060 (VStr "access-1") (VStr "refresh-1") (2 ^ 1024) in
  ((fun B => _process_auth_request B Examples.session_1060
               (Ok Examples.envelope_overflow) 1000)
   = (fun _ => (Raise OverflowError, stored))
   /\ (fun B => authenticate_with_email B Examples.session_1060 None None
                  (Examples.grants Examples.envelope_overflow))
      = (fun _ => (Raise OverflowError, stored))
   /\ (fun B => authenticate_with_token B Examples.session_1060 VNone 1000
                  (Examples.grants Examples.envelope_overflow))
      = (fun _ => (Raise OverflowError, stored))
   /\ _access_token stored = VStr "access-1"
   /\ _refresh_token stored = VStr "refresh-1"
   /\ _access_token_expires_at stored = Some (2 ^ 1024)
   /\ _refresh_token_expires_at stored = Some 1060)
  /\ (forall self json now e,
        fst (_process_auth_request B self json now) = Raise e ->
        e <> OverflowError ->
        snd (_process_auth_request B self json now) = self)
  /\ (forall self user_email password x e,
        fst (authenticate_with_email B self user_email password x) = Raise e ->
        e <> OverflowError ->
        snd (authenticate_with_email B self user_email password x) = self)
  /\ (forall self refresh_token now x e,
        fst (authenticate_with_token B self refresh_token now x) = Raise e ->
        e <> OverflowError ->
        snd (authenticate_with_token B self refresh_token now x) = self).
Proof.
  split; [vm_compute; repeat split|].
  split; [exact process_auth_request_failure_keeps|].
  split; [exact authenticate_with_email_failure | exact authenticate_with_token_failure].
Qed.

End TokenAtomicity.

(** ** Local-then-cloud dispatch *)

Section Dispatch.

Import TurkovDevice.

Lemma get_state_local_sends (net : Network) (self : t) :
  truthy_str (host self) = true ->
  _api self || _session self = true ->
  get_state_local net self = (local_state net, [LocalState]).
Proof.
  intros Hh Hs. unfold get_state_local, session. rewrite Hh. simpl.
  destruct (_session self); [reflexivity|].
  destruct (_api self); [reflexivity | discriminate].
Qed.

(** C6: [get_state] asks the local endpoint first exactly when a host is
    configured. When the local request fails in transport or decoding, a
    device that holds an API reference makes one cloud request and returns
    its outcome, and a device that holds none lets the local error
    through as it is; a local failure of another kind goes through too.
    With no host the cloud is asked at once, and with neither a host nor
    an API reference the call fails with [TurkovAPIError] and sends
    nothing. (The device holds an API reference or a session of its own,
    as [__init__] requires.) *)
Theorem get_state_local_then_cloud (net : Network) (self : t) (force : bool)
    (Hinit : _api self || _session self = true) :
  (truthy_str (host self) = true <->
     exists rest, snd (get_state net self force) = LocalState :: rest)
  /\ (truthy_str (host self) = true ->
      forall data, local_state net = Ok data ->
        get_state net self force = (Ok data, [LocalState]))
  /\ (truthy_str (host self) = true ->
      forall e, local_state net = Raise e -> is_transport_or_decode_error e = true ->
        (_api self = true ->
           get_state net self force
           = (cloud_state net (_id self) force, [LocalState; CloudState (_id self) force]))
        /\ (_api self = false -> get_state net self force = (Raise e, [LocalState])))
  /\ (truthy_str (host self) = true ->
      forall e, local_state net = Raise e -> is_transport_or_decode_error e = false ->
        get_state net self force = (Raise e, [LocalState]))
  /\ (truthy_str (host self) = false -> _api self = true ->
        get_state net self force
        = (cloud_state net (_id self) force, [CloudState (_id self) force]))
  /\ (truthy_str (host self) = false -> _api self = false ->
        get_state net self force
        = (Raise (TurkovAPIError "No method to fetch device state"), [])).
Proof.
  assert (Hl : truthy_str (host self) = true ->
               get_state_local net self = (local_state net, [LocalState])).
  { intros Hh. apply get_state_local_sends; assumption. }
  split; [|split; [|split; [|split; [|split]]]].
  - split.
    + intros Hh. unfold get_state. rewrite Hh, (Hl Hh).
      destruct (local_state net) as [data|e]; [eexists; reflexivity|].
      destruct (is_transport_or_decode_error e); [|eexists; reflexivity].
      destruct (_api self); eexists; reflexivity.
    + intros [rest Hrest]. destruct (truthy_str (host self)) eqn:Hh; [reflexivity|].
      unfold get_state in Hrest. rewrite Hh in Hrest.
      destruct (_api self); discriminate.
  - intros Hh data Hd. unfold get_state. rewrite Hh, (Hl Hh), Hd. reflexivity.
  - intros Hh e He Ht. unfold get_state. rewrite Hh, (Hl Hh), He, Ht.
    split; intros ->; reflexivity.
  - intros Hh e He Ht. unfold get_state. rewrite Hh, (Hl Hh), He, Ht. reflexivity.
  - intros Hh Ha. unfold get_state. rewrite Hh, Ha. reflexivity.
  - intros Hh Ha. unfold get_state. rewrite Hh, Ha. reflexivity.
Qed.

Lemma set_value_requests (net : Network) (self : t) (key : string) (value : PyVal) :
  Forall (fun r => command_of r = Some (key, value)) (snd (set_value net self key value)).
Proof.
  unfold set_value, set_value_local, session.
  destruct (truthy_str (host self)), (_session self), (_api self); simpl;
    try (destruct (local_command net key value) as [data|e]; simpl;
         try destruct (is_transport_or_decode_error e); simpl);
    repeat constructor.
Qed.


End Dispatch.

(** C6, witness: a device with a host and a session of its own, whose
    local endpoint times out, lets the timeout through. *)
Lemma get_state_local_then_cloud_witness :
  TurkovDevice.get_state (Examples.cloud_answers VNone) Examples.local_device true
  = (Raise TimeoutError, [TurkovDevice.LocalState]).
Proof.
  exact (proj2 (proj1 (proj2 (proj2
           (get_state_local_then_cloud (Examples.cloud_answers VNone)
              Examples.local_device true eq_refl)))
           eq_refl TimeoutError eq_refl eq_refl) eq_refl).
Defined.

(** ** The doubly encoded device state *)

Section DeviceState.

Import TurkovAPI.

Variable B : Builtins.

Lemma decode_device_data_spec (device_data_list v : PyVal) :
  decode_device_data B device_data_list = Ok v <->
  exists d, wraps_object B (Ok device_data_list) d /\ v = VDict d.
Proof.
  unfold decode_device_data, last_item, py_loads, wraps_object. split.
  - destruct device_data_list as [|b|n|x|s|items|items]; try discriminate.
    destruct (last items) as [text|] eqn:El; [|discriminate].
    destruct text as [|b|n|x|s|l|l]; try discriminate.
    destruct (loads B s) as [w|] eqn:Ew; [|discriminate].
    destruct w as [|b|n|x|s'|l|l]; try discriminate.
    intros [= <-]. exists l. split; [|reflexivity].
    exists items, s. repeat split; assumption.
  - intros [d [[items [text [Hp [Hl Hw]]]] ->]].
    injection Hp as ->. rewrite Hl, Hw. reflexivity.
Qed.

Lemma decode_device_data_total (device_data_list : PyVal) :
  (exists v, decode_device_data B device_data_list = Ok v)
  \/ (exists e, decode_device_data B device_data_list = Raise e).
Proof.
  destruct (decode_device_data B device_data_list) as [v|e]; eauto.
Qed.

(** C7: for a fetch that the server answers (and that is not cut short by
    a 304 to an unforced request), [get_device_state] returns a value
    only if the payload is an array whose last element is a text that
    decodes to an object, and the value is that object; on any other
    payload, and when the body does not decode at all, it raises. A
    session whose label the log line can format returns the object of
    every such payload; one whose label it cannot format raises at the
    log line. *)
Theorem get_device_state_accepts_wrapped_object_only (self : t) (device_id : string)
    (force : bool) (send : request -> http_outcome PyVal)
    (status : Z) (etag : option string) (json : result PyVal)
    (Hsend : send (device_state_request self device_id force) = Responds status etag json)
    (Hfresh : negb force && (status =? 304) = false) :
  (forall v,
     fst (fst (get_device_state B self device_id force send)) = Ok v ->
     exists d, wraps_object B json d /\ v = VDict d)
  /\ ((forall d, ~ wraps_object B json d) ->
      exists e, fst (fst (get_device_state B self device_id force send)) = Raise e)
  /\ (forall label d,
        __str__ self = Ok label -> wraps_object B json d ->
        fst (fst (get_device_state B self device_id force send)) = Ok (VDict d))
  /\ (forall e,
        __str__ self = Raise e ->
        get_device_state B self device_id force send = (Raise e, self, [])).
Proof.
  unfold get_device_state. fold (device_state_request self device_id force).
  destruct (formats self) as [[]|e0] eqn:Hf.
  - rewrite Hsend, Hfresh.
    assert (Hno : forall e, __str__ self <> Raise e).
    { intros e He. apply formats_raises in He. congruence. }
    destruct json as [device_data_list|e].
    + pose proof (decode_device_data_spec device_data_list) as Hspec.
      destruct (decode_device_data B device_data_list) as [w|e] eqn:Ew; simpl.
      * repeat split.
        -- intros v [= <-]. apply Hspec. reflexivity.
        -- intros Hn. destruct (proj1 (Hspec w) eq_refl) as [d [Hd _]].
           destruct (Hn d Hd).
        -- intros _ d _ Hd. apply Hspec. exists d. split; [exact Hd | reflexivity].
        -- intros e He. destruct (Hno e He).
      * repeat split.
        -- discriminate.
        -- intros _. eexists. reflexivity.
        -- intros _ d _ Hd.
           assert (Hv : @Raise PyVal e = Ok (VDict d)).
           { apply Hspec. exists d. split; [exact Hd | reflexivity]. }
           discriminate Hv.
        -- intros e' He. destruct (Hno e' He).
    + repeat split.
      * intros v. destruct e; discriminate.
      * intros _. destruct e; eexists; reflexivity.
      * intros _ d _ [items [text [Hp _]]]. discriminate.
      * intros e' He. destruct (Hno e' He).
  - apply formats_raises in Hf. repeat split.
    + discriminate.
    + intros _. eexists. reflexivity.
    + intros label d Hl. congruence.
    + intros e He. congruence.
Qed.

End DeviceState.

(** C7, witness: the array holding the text of the empty object yields
    the empty object. *)
Lemma get_device_state_accepts_wrapped_object_only_witness :
  fst (fst (TurkovAPI.get_device_state Examples.example_builtins Examples.session_1060
              "dev1" true (fun _ => TurkovAPI.Responds 200 None (Ok (VList [VStr "{}"])))))
  = Ok (VDict []).
Proof.
  apply (proj1 (proj2 (proj2
           (get_device_state_accepts_wrapped_object_only Examples.example_builtins
              Examples.session_1060 "dev1" true
              (fun _ => TurkovAPI.Responds 200 None (Ok (VList [VStr "{}"])))
              200 None (Ok (VList [VStr "{}"])) eq_refl eq_refl)))
           "TurkovAPI[u**@**e**]" [] eq_refl).
  exists [VStr "{}"], "{}". repeat split.
Defined.

(** ** Reconciliation of a state payload *)

Section Reconciliation.

Import TurkovDevice.

Variable B : Builtins.
Variable mark_as_none_if_not_present : bool.
Variable device_data : PyVal.

Abbreviation entry := (string * (string * converter))%type.
Abbreviation update_of := (entry_update B mark_as_none_if_not_present device_data).
Abbreviation passes := (entry_passes B mark_as_none_if_not_present device_data).

Lemma getattr_setattr (self : t) (a a' : string) (v : PyVal) :
  getattr (setattr self a v) a' = if decide (a = a') then v else getattr self a'.
Proof.
  unfold getattr, setattr. simpl. rewrite lookup_insert.
  destruct (decide (a = a')); reflexivity.
Qed.

Lemma setattr_with_attrs (self : t) (a : string) (v : PyVal) :
  setattr self a v = with_attrs self (<[a := v]> (attrs self)).
Proof. reflexivity. Qed.

Lemma with_attrs_id (self : t) : with_attrs self (attrs self) = self.
Proof. destruct self; reflexivity. Qed.

Lemma with_attrs_twice (self : t) (m m' : gmap string PyVal) :
  with_attrs (with_attrs self m) m' = with_attrs self m'.
Proof. reflexivity. Qed.

Lemma generic_pass_cons (a key : string) (c : converter) (rest : list entry)
    (changed : gset string) (self : t) :
  generic_pass B mark_as_none_if_not_present device_data ((a, (key, c)) :: rest)
    changed self
  = if is_skipped c
    then generic_pass B mark_as_none_if_not_present device_data rest changed self
    else match wire_value B mark_as_none_if_not_present device_data key c with
         | Raise e => (Raise e, self)
         | Ok None =>
             generic_pass B mark_as_none_if_not_present device_data rest changed self
         | Ok (Some value) =>
             if py_ne value (getattr self a)
             then generic_pass B mark_as_none_if_not_present device_data rest
                    ({[ a ]} ∪ changed) (setattr self a value)
             else generic_pass B mark_as_none_if_not_present device_data rest
                    changed self
         end.
Proof. destruct c; reflexivity. Qed.

Lemma entry_update_setattr (self : t) (a : string) (v : PyVal) (e : entry) :
  e.1 <> a -> update_of (setattr self a v) e = update_of self e.
Proof.
  intros Hne. unfold entry_update. rewrite getattr_setattr.
  destruct (decide (a = e.1)) as [->|_]; [contradiction | reflexivity].
Qed.

(** A turn that assigns nothing leaves the loop state as it is. *)
Ltac no_assignment :=
  split; [assumption|];
  split; [symmetry; apply with_attrs_id|];
  split; [reflexivity|];
  split; [reflexivity|];
  split; [reflexivity|];
  split; [intros ?; split;
          [auto | intros [?|[_ [? ?]]]; [assumption | discriminate]]|].

(** The generic pass, turn by turn: every attribute of the mapping ends
    with the value of its turn, is recorded exactly when its turn
    assigns, and nothing else is touched. *)
Lemma generic_pass_spec (mapping : list entry) :
  NoDup mapping.*1 ->
  forall (changed : gset string) (self : t) (changed' : gset string) (self' : t),
  generic_pass B mark_as_none_if_not_present device_data mapping changed self
  = (Ok changed', self') ->
  self' = with_attrs self (attrs self')
  /\ (forall e, e ∈ mapping ->
        getattr self' e.1 = default (getattr self e.1) (update_of self e)
        /\ (e.1 ∈ changed' <-> e.1 ∈ changed \/ is_Some (update_of self e))
        /\ passes e)
  /\ (forall a, a ∉ mapping.*1 ->
        getattr self' a = getattr self a /\ (a ∈ changed' <-> a ∈ changed)).
Proof.
  induction mapping as [|[a [key c]] rest IH]; intros Hnd changed self changed' self' Hrun.
  - simpl in Hrun. injection Hrun as <- <-.
    split; [symmetry; apply with_attrs_id|].
    split; [intros e He; inversion He|].
    intros a _. split; [reflexivity | tauto].
  - rewrite fmap_cons in Hnd. apply NoDup_cons in Hnd as [Hfresh Hnd].
    simpl in Hfresh. rewrite generic_pass_cons in Hrun.
    assert (Hstep : exists changed1 self1,
      generic_pass B mark_as_none_if_not_present device_data rest changed1 self1
      = (Ok changed', self')
      /\ self1 = with_attrs self (attrs self1)
      /\ getattr self1 a = default (getattr self a) (update_of self (a, (key, c)))
      /\ (forall a', a' <> a -> getattr self1 a' = getattr self a')
      /\ (forall e, e.1 <> a -> update_of self1 e = update_of self e)
      /\ (forall a', a' ∈ changed1 <->
            a' ∈ changed \/ (a' = a /\ is_Some (update_of self (a, (key, c)))))
      /\ passes (a, (key, c))).
    { unfold entry_update, entry_passes. cbn [fst snd].
      destruct (is_skipped c) eqn:Hc.
      - exists changed, self. no_assignment. intros H; discriminate.
      - destruct (wire_value B mark_as_none_if_not_present device_data key c)
          as [[value|]|e] eqn:Hw; [| |discriminate].
        + destruct (py_ne value (getattr self a)) eqn:Hne.
          * exists ({[ a ]} ∪ changed), (setattr self a value).
            split; [exact Hrun|]. split; [reflexivity|].
            split; [rewrite getattr_setattr; destruct (decide (a = a)); done|].
            split; [intros a' Ha'; rewrite getattr_setattr;
                    destruct (decide (a = a')); [congruence | reflexivity]|].
            split; [intros e He; apply entry_update_setattr; exact He|].
            split; [|eauto].
            intros a'. rewrite elem_of_union, elem_of_singleton.
            split; [intros [-> | H]; [right; split; [reflexivity | eauto] | left; exact H]
                   | intros [H | [-> _]]; [right; exact H | left; reflexivity]].
          * exists changed, self. no_assignment. intros _; eauto.
        + exists changed, self. no_assignment. intros _; eauto. }
    destruct Hstep as (changed1 & self1 & Hrest & Hid1 & Hval & Hother & Hupd & Hch & Hpass).
    destruct (IH Hnd changed1 self1 changed' self' Hrest) as (Hid & Hin & Hout).
    split; [rewrite Hid, Hid1; reflexivity|].
    split.
    + intros e He. apply elem_of_cons in He as [-> | He].
      * simpl. destruct (Hout a Hfresh) as [Hv Hc]. rewrite Hv, Hval.
        split; [reflexivity|]. split; [|exact Hpass].
        rewrite Hc, Hch. intuition congruence.
      * assert (Hne : e.1 <> a).
        { intros Heq. apply Hfresh. rewrite <- Heq. apply list_elem_of_fmap.
          exists e. split; [reflexivity | exact He]. }
        destruct (Hin e He) as (Hv & Hc & Hp).
        rewrite Hv, (Hother _ Hne), (Hupd _ Hne).
        split; [reflexivity|]. split; [|exact Hp].
        rewrite Hc, Hch. rewrite (Hupd _ Hne). intuition congruence.
    + intros a' Ha'. rewrite fmap_cons, not_elem_of_cons in Ha'.
      destruct Ha' as [Hne Ha']. simpl in Hne.
      destruct (Hout a' Ha') as [Hv Hc].
      rewrite Hv, (Hother _ Hne). split; [reflexivity|].
      rewrite Hc, Hch. intuition congruence.
Qed.

(** A pass whose turns all pass and assign nothing changes nothing. *)
Lemma generic_pass_settled (mapping : list entry) (changed : gset string) (self : t) :
  (forall e, e ∈ mapping -> passes e /\ update_of self e = None) ->
  generic_pass B mark_as_none_if_not_present device_data mapping changed self
  = (Ok changed, self).
Proof.
  induction mapping as [|[a [key c]] rest IH]; intros Hall; [reflexivity|].
  rewrite generic_pass_cons.
  assert (Hrest : generic_pass B mark_as_none_if_not_present device_data rest changed self
                  = (Ok changed, self)).
  { apply IH. intros e He. apply Hall. apply elem_of_cons. right. exact He. }
  destruct (Hall (a, (key, c))) as [Hp Hu]; [apply elem_of_cons; left; reflexivity|].
  unfold entry_passes, entry_update in Hp, Hu. cbn [fst snd] in Hp, Hu.
  destruct (is_skipped c); [exact Hrest|].
  destruct (Hp eq_refl) as [o Ho]. rewrite Ho in Hu |- *.
  destruct o as [value|]; [|exact Hrest].
  destruct (py_ne value (getattr self a)); [discriminate | exact Hrest].
Qed.

Lemma mapping_names_distinct : NoDup ATTRIBUTE_KEY_MAPPING.*1.
Proof. apply (bool_decide_unpack _). vm_compute. reflexivity. Qed.

(** [image_url] is the one attribute the generic pass skips. *)
Lemma mapping_skips_image_url (e : entry) :
  e ∈ ATTRIBUTE_KEY_MAPPING -> (is_skipped e.2.2 = true <-> e.1 = "image_url").
Proof.
  revert e. apply Forall_forall. unfold ATTRIBUTE_KEY_MAPPING.
  repeat (apply Forall_cons; split;
          [cbn; split; intros H; first [reflexivity | discriminate H]|]).
  apply Forall_nil_2.
Qed.

Lemma is_skipped_false (c : converter) : is_skipped c = false <-> c <> conv_False.
Proof. destruct c; simpl; split; congruence. Qed.

Lemma resolve_image_url_with_attrs (self : t) (m : gmap string PyVal) :
  resolve_image_url B (with_attrs self m) device_data = resolve_image_url B self device_data.
Proof. reflexivity. Qed.

Lemma get_state_with_attrs (net : Network) (self : t) (m : gmap string PyVal) (force : bool) :
  get_state net (with_attrs self m) force = get_state net self force.
Proof. reflexivity. Qed.

(** [apply_state], step by step. *)
Lemma apply_state_spec (self : t) (changes : gset string) (self' : t) :
  is_none device_data = false ->
  apply_state B mark_as_none_if_not_present self device_data = (Ok changes, self') ->
  exists changed1 self1 image_url,
    generic_pass B mark_as_none_if_not_present device_data ATTRIBUTE_KEY_MAPPING ∅ self
    = (Ok changed1, self1)
    /\ resolve_image_url B self device_data = Ok image_url
    /\ getattr self1 "image_url" = getattr self "image_url"
    /\ ("image_url" ∉ changed1)
    /\ (changes, self')
       = (if image_url_changed mark_as_none_if_not_present self image_url
          then ({[ "image_url" ]} ∪ changed1, setattr self1 "image_url" image_url)
          else (changed1, self1)).
Proof.
  intros Hd Hrun. unfold apply_state in Hrun. rewrite Hd in Hrun.
  destruct (generic_pass B mark_as_none_if_not_present device_data
              ATTRIBUTE_KEY_MAPPING ∅ self) as [[changed1|e] self1] eqn:Hg;
    [|discriminate].
  destruct (generic_pass_spec _ mapping_names_distinct _ _ _ _ Hg) as (Hid & Hin & _).
  assert (Himg : getattr self1 "image_url" = getattr self "image_url"
                 /\ ("image_url" ∉ changed1)).
  { destruct (Hin ("image_url", ("image", conv_False))) as (Hv & Hc & _).
    - unfold ATTRIBUTE_KEY_MAPPING. rewrite !elem_of_cons. do 9 right. left. reflexivity.
    - split; [exact Hv|]. rewrite Hc. intros [H | [x Hx]].
      + exact (not_elem_of_empty (C := gset string) _ H).
      + unfold entry_update in Hx. cbn [fst snd is_skipped] in Hx. discriminate Hx. }
  destruct Himg as [Hv Hc].
  rewrite Hid, resolve_image_url_with_attrs in Hrun.
  destruct (resolve_image_url B self device_data) as [image_url|e] eqn:Hr; [|discriminate].
  exists changed1, self1, image_url.
  split; [reflexivity|]. split; [reflexivity|]. split; [exact Hv|]. split; [exact Hc|].
  rewrite <- Hid in Hrun.
  assert (Hsame : image_url_changed mark_as_none_if_not_present self1 image_url
                  = image_url_changed mark_as_none_if_not_present self image_url).
  { unfold image_url_changed. rewrite Hv. reflexivity. }
  rewrite Hsame in Hrun.
  destruct (image_url_changed mark_as_none_if_not_present self image_url);
    cbn in Hrun; congruence.
Qed.

End Reconciliation.

Section ChangeSet.

Import TurkovDevice.

Variable B : Builtins.

Lemma update_state_ok (net : Network) (self : t) (mark force : bool)
    (changes : gset string) (self' : t) (sent : list request) :
  update_state B net self mark force = (Ok changes, self', sent) ->
  exists device_data,
    get_state net self force = (Ok device_data, sent)
    /\ apply_state B mark self device_data = (Ok changes, self').
Proof.
  unfold update_state.
  destruct (get_state net self force) as [[device_data|e] sent0]; [|discriminate].
  intros H. exists device_data.
  destruct (apply_state B mark self device_data) as [r s0].
  injection H as -> -> ->. split; reflexivity.
Qed.

Lemma none_replaces_stored (image_url stored : PyVal) :
  is_none image_url && negb (is_none stored) = true <->
  image_url = VNone /\ stored <> VNone.
Proof.
  destruct image_url, stored; cbn [is_none negb andb];
    split; try discriminate; try (intros [H1 H2]; congruence);
    intros _; split; congruence.
Qed.

(** The image step of a call that returns. *)
Lemma image_url_of_run (net : Network) (self : t)
    (mark force : bool) (device_data : PyVal) (changes : gset string) (self' : t)
    (sent : list request)
    (Hfetch : get_state net self force = (Ok device_data, sent))
    (Hdata : is_none device_data = false)
    (Hrun : update_state B net self mark force = (Ok changes, self', sent)) :
  exists image_url,
    resolve_image_url B self device_data = Ok image_url
    /\ (mark = false ->
          ("image_url" ∈ changes <-> py_ne (getattr self "image_url") image_url = true))
    /\ (mark = true ->
          ("image_url" ∈ changes <->
           image_url = VNone /\ getattr self "image_url" <> VNone))
    /\ ("image_url" ∈ changes -> getattr self' "image_url" = image_url)
    /\ ("image_url" ∉ changes -> getattr self' "image_url" = getattr self "image_url").
Proof.
  destruct (update_state_ok _ _ _ _ _ _ _ Hrun) as (data' & Hfetch' & Happly).
  rewrite Hfetch in Hfetch'. injection Hfetch' as <-.
  destruct (apply_state_spec B mark device_data self changes self' Hdata Happly)
    as (changed1 & self1 & image_url & _ & Hres & Hstored & Hnot & Hfinal).
  exists image_url. split; [exact Hres|].
  assert (Hmem : "image_url" ∈ changes <-> image_url_changed mark self image_url = true).
  { destruct (image_url_changed mark self image_url); injection Hfinal as -> ->.
    - split; [reflexivity | intros _; set_solver].
    - split; [intros H; contradiction | discriminate]. }
  split; [|split; [|split]].
  - intros ->. exact Hmem.
  - intros ->. rewrite Hmem. apply none_replaces_stored.
  - intros Hin. apply Hmem in Hin. rewrite Hin in Hfinal. injection Hfinal as -> ->.
    rewrite getattr_setattr. destruct (decide ("image_url" = "image_url")); done.
  - intros Hnin. destruct (image_url_changed mark self image_url) eqn:E.
    + exfalso. apply Hnin, Hmem. reflexivity.
    + injection Hfinal as -> ->. exact Hstored.
Qed.

(** The change set of a call that returns, and the call repeated. *)
Lemma change_set_of_run (net : Network) (self : t) (mark force : bool)
    (device_data : PyVal) (changes : gset string) (self' : t) (sent : list request)
    (Hfetch : get_state net self force = (Ok device_data, sent))
    (Hrun : update_state B net self mark force = (Ok changes, self', sent)) :
  (forall a key c, (a, (key, c)) ∈ ATTRIBUTE_KEY_MAPPING -> c <> conv_False ->
     (a ∈ changes <->
      exists value, wire_value B mark device_data key c = Ok (Some value)
                    /\ py_ne value (getattr self a) = true))
  /\ ((forall a key c value, (a, (key, c)) ∈ ATTRIBUTE_KEY_MAPPING -> c <> conv_False ->
         wire_value B mark device_data key c = Ok (Some value) ->
         py_eq value value = true) ->
      (forall image_url, resolve_image_url B self device_data = Ok image_url ->
         py_eq image_url image_url = true) ->
      update_state B net self' mark force = (Ok ∅, self', sent)).
Proof.
  destruct (update_state_ok _ _ _ _ _ _ _ Hrun) as (data' & Hfetch' & Happly).
  rewrite Hfetch in Hfetch'. injection Hfetch' as <-.
  destruct (is_none device_data) eqn:Hd.
  { (* the fetch reported no change *)
    destruct device_data; try discriminate.
    unfold apply_state in Happly. cbn [is_none] in Happly. injection Happly as <- <-.
    split.
    - intros a key c _ _. split.
      + intros H. destruct (not_elem_of_empty (C := gset string) _ H).
      + intros [value [H _]]. discriminate H.
    - intros _ _. exact Hrun. }
  destruct (apply_state_spec B mark device_data self changes self' Hd Happly)
    as (changed1 & self1 & image_url & Hg & Hres & Hstored & Hnot & Hfinal).
  destruct (generic_pass_spec B mark device_data _ mapping_names_distinct _ _ _ _ Hg)
    as (Hid & Hin & _).
  assert (Hturn : forall a key c, (a, (key, c)) ∈ ATTRIBUTE_KEY_MAPPING -> c <> conv_False ->
            a <> "image_url"
            /\ (a ∈ changes <-> is_Some (entry_update B mark device_data self (a, (key, c))))
            /\ getattr self' a
               = default (getattr self a) (entry_update B mark device_data self (a, (key, c)))
            /\ entry_passes B mark device_data (a, (key, c))).
  { intros a key c He Hc. destruct (Hin _ He) as (Hv & Hm & Hp). cbn [fst] in Hv, Hm.
    assert (Hne : a <> "image_url").
    { intros ->. apply is_skipped_false in Hc.
      pose proof (proj2 (mapping_skips_image_url _ He) eq_refl) as Hs.
      cbn [snd] in Hs. congruence. }
    split; [exact Hne|].
    destruct (image_url_changed mark self image_url); injection Hfinal as -> ->.
    - split; [|split; [|exact Hp]].
      + rewrite elem_of_union, elem_of_singleton, Hm.
        split; [intros [H | [H | H]]; [contradiction | | exact H]
               | intros H; right; right; exact H].
        destruct (not_elem_of_empty (C := gset string) _ H).
      + rewrite getattr_setattr.
        destruct (decide ("image_url" = a)) as [E|_]; [congruence | exact Hv].
    - split; [|split; [exact Hv | exact Hp]].
      rewrite Hm. split; [intros [H | H]; [|exact H] | intros H; right; exact H].
      destruct (not_elem_of_empty (C := gset string) _ H). }
  split.
  - intros a key c He Hc. destruct (Hturn a key c He Hc) as (_ & Hm & _ & _).
    rewrite Hm. unfold entry_update. cbn [fst snd].
    rewrite (proj2 (is_skipped_false c) Hc).
    destruct (wire_value B mark device_data key c) as [[value|]|e].
    + destruct (py_ne value (getattr self a)) eqn:Hne.
      * split; [intros _; exists value; split; [reflexivity | exact Hne]
               | intros _; eexists; reflexivity].
      * split; [intros [x Hx]; discriminate Hx | intros [v [[= <-] Hv]]; congruence].
    + split; [intros [x Hx]; discriminate Hx | intros [v [H _]]; discriminate H].
    + split; [intros [x Hx]; discriminate Hx | intros [v [H _]]; discriminate H].
  - intros Hvalues Himage.
    assert (Hid' : self' = with_attrs self (attrs self')).
    { destruct (image_url_changed mark self image_url); injection Hfinal as -> ->.
      - rewrite Hid at 1. reflexivity.
      - exact Hid. }
    assert (Hsettled : generic_pass B mark device_data ATTRIBUTE_KEY_MAPPING ∅ self'
                       = (Ok ∅, self')).
    { apply generic_pass_settled. intros [a [key c]] He.
      destruct (is_skipped c) eqn:Hc.
      - split; [intros H; cbn [snd] in H; congruence|].
        unfold entry_update. cbn [snd]. rewrite Hc. reflexivity.
      - apply is_skipped_false in Hc.
        destruct (Hturn a key c He Hc) as (_ & _ & Hv & Hp).
        split; [exact Hp|].
        unfold entry_update in Hv |- *. cbn [fst snd] in Hv |- *.
        rewrite (proj2 (is_skipped_false c) Hc) in Hv |- *.
        destruct (wire_value B mark device_data key c) as [[value|]|e] eqn:Hw;
          [|reflexivity|reflexivity].
        pose proof (Hvalues a key c value He Hc Hw) as Hrefl.
        destruct (py_ne value (getattr self a)) eqn:Hne.
        + change (getattr self' a = value) in Hv. rewrite Hv.
          unfold py_ne. rewrite Hrefl. reflexivity.
        + change (getattr self' a = getattr self a) in Hv. rewrite Hv, Hne.
          reflexivity. }
    assert (Hkeep : image_url_changed mark self' image_url = false).
    { pose proof (Himage image_url Hres) as Hrefl.
      unfold image_url_changed in Hfinal |- *.
      destruct mark.
      - destruct (is_none image_url && negb (is_none (getattr self "image_url"))) eqn:E;
          injection Hfinal as -> ->.
        + rewrite getattr_setattr. destruct (decide ("image_url" = "image_url")); [|done].
          destruct image_url; reflexivity.
        + rewrite Hstored. exact E.
      - destruct (py_ne (getattr self "image_url") image_url) eqn:E;
          injection Hfinal as -> ->.
        + rewrite getattr_setattr. destruct (decide ("image_url" = "image_url")); [|done].
          unfold py_ne. rewrite Hrefl. reflexivity.
        + rewrite Hstored. exact E. }
    unfold update_state. rewrite Hid', get_state_with_attrs, Hfetch, <- Hid'.
    unfold apply_state. rewrite Hd, Hsettled.
    rewrite Hid', resolve_image_url_with_attrs, Hres, <- Hid', Hkeep. reflexivity.
Qed.

Lemma generic_pass_returns (mark : bool) (device_data : PyVal)
    (mapping : list (string * (string * converter))) :
  (forall e, e ∈ mapping -> entry_passes B mark device_data e) ->
  forall (changed : gset string) (self : t),
  exists changed' self',
    generic_pass B mark device_data mapping changed self = (Ok changed', self').
Proof.
  induction mapping as [|[a [key c]] rest IH]; intros Hall changed self.
  - eexists _, _. reflexivity.
  - assert (Hrest : forall e, e ∈ rest -> entry_passes B mark device_data e).
    { intros e He. apply Hall. apply elem_of_cons. right. exact He. }
    rewrite generic_pass_cons.
    pose proof (Hall (a, (key, c))) as Hhead. unfold entry_passes in Hhead.
    cbn [fst snd] in Hhead.
    destruct (is_skipped c); [apply (IH Hrest)|].
    destruct Hhead as [o Ho]; [apply elem_of_cons; left; reflexivity | reflexivity|].
    rewrite Ho. destruct o as [value|]; [|apply (IH Hrest)].
    destruct (py_ne value (getattr self a)); apply (IH Hrest).
Qed.

Lemma convertible_dict (mark : bool) (device_data : PyVal) :
  convertible B mark device_data -> exists d, device_data = VDict d.
Proof.
  intros Hconv. destruct (Hconv ("is_on", ("on", conv_None))) as [o Ho].
  - apply elem_of_cons. left. reflexivity.
  - reflexivity.
  - destruct device_data as [|b|n|x|s|l|d]; try discriminate Ho. exists d. reflexivity.
Qed.

Lemma resolve_image_url_returns (self : t) (d : list (string * PyVal)) :
  exists image_url, resolve_image_url B self (VDict d) = Ok image_url.
Proof.
  unfold resolve_image_url. cbn [py_get bind].
  destruct (truthy _ && truthy_str (_id self)); [eexists; reflexivity|].
  destruct (image_by_device_type self); eexists; reflexivity.
Qed.

(** [update_state] returns whenever the fetch does and the payload
    converts. *)
Lemma update_state_returns (net : Network) (self : t) (mark force : bool)
    (device_data : PyVal) (sent : list request) :
  get_state net self force = (Ok device_data, sent) ->
  is_none device_data = true \/ convertible B mark device_data ->
  exists changes self', update_state B net self mark force = (Ok changes, self', sent).
Proof.
  intros Hfetch Hconv. unfold update_state, apply_state. rewrite Hfetch.
  destruct (is_none device_data) eqn:Hd; [eexists _, _; reflexivity|].
  destruct Hconv as [Hnone | Hconv]; [discriminate Hnone|].
  destruct (generic_pass_returns mark device_data _ Hconv ∅ self)
    as (changed1 & self1 & Hg).
  rewrite Hg. destruct (convertible_dict _ _ Hconv) as [d ->].
  destruct (resolve_image_url_returns self1 d) as [image_url Hr]. rewrite Hr.
  destruct (image_url_changed mark self1 image_url); eexists _, _; reflexivity.
Qed.

(** C9 (as the code has it): for a payload that converts, [update_state]
    returns, and the image URL computed from the payload (upload URL of a
    custom image, default of the device type, or none) is assigned, and
    [image_url] recorded in the change set, under a test that depends on
    [mark_as_none_if_not_present]: without the flag, exactly when the
    computed URL differs from the stored one; with the flag, exactly when
    the computed URL is [None] and the stored one is not. With the flag a
    computed URL that is not [None] is never assigned. *)
Theorem image_url_recorded_under_flag_test (net : Network) (self : t)
    (mark force : bool) (device_data : PyVal) (sent : list request)
    (Hfetch : get_state net self force = (Ok device_data, sent))
    (Hdata : is_none device_data = false)
    (Hconv : convertible B mark device_data) :
  exists changes self' image_url,
    update_state B net self mark force = (Ok changes, self', sent)
    /\ resolve_image_url B self device_data = Ok image_url
    /\ (mark = false ->
          ("image_url" ∈ changes <-> py_ne (getattr self "image_url") image_url = true))
    /\ (mark = true ->
          ("image_url" ∈ changes <->
           image_url = VNone /\ getattr self "image_url" <> VNone))
    /\ ("image_url" ∈ changes -> getattr self' "image_url" = image_url)
    /\ ("image_url" ∉ changes -> getattr self' "image_url" = getattr self "image_url").
Proof.
  destruct (update_state_returns net self mark force device_data sent Hfetch
              (or_intror Hconv)) as (changes & self' & Hrun).
  destruct (image_url_of_run net self mark force device_data changes self' sent
              Hfetch Hdata Hrun) as (image_url & H).
  exists changes, self', image_url. split; [exact Hrun | exact H].
Qed.

(** C1 (as the code has it): for a payload that converts (or a fetch that
    reports no change), [update_state] returns, and an attribute of the
    generic pass is in the change set if and only if its wire value,
    converted, differs from the value stored before the call. If moreover
    every converted value and the computed image URL are equal to
    themselves (which only a NaN is not), the call repeated at once on the
    resulting state, the network answering as before, returns the empty
    change set and leaves the state as it is. *)
Theorem update_state_change_set (net : Network) (self : t) (mark force : bool)
    (device_data : PyVal) (sent : list request)
    (Hfetch : get_state net self force = (Ok device_data, sent))
    (Hconv : is_none device_data = true \/ convertible B mark device_data) :
  exists changes self',
    update_state B net self mark force = (Ok changes, self', sent)
    /\ (forall a key c, (a, (key, c)) ∈ ATTRIBUTE_KEY_MAPPING -> c <> conv_False ->
          (a ∈ changes <->
           exists value, wire_value B mark device_data key c = Ok (Some value)
                         /\ py_ne value (getattr self a) = true))
    /\ ((forall a key c value,
            (a, (key, c)) ∈ ATTRIBUTE_KEY_MAPPING -> c <> conv_False ->
            wire_value B mark device_data key c = Ok (Some value) ->
            py_eq value value = true) ->
        (forall image_url, resolve_image_url B self device_data = Ok image_url ->
           py_eq image_url image_url = true) ->
        update_state B net self' mark force = (Ok ∅, self', sent)).
Proof.
  destruct (update_state_returns net self mark force device_data sent Hfetch Hconv)
    as (changes & self' & Hrun).
  exists changes, self'. split; [exact Hrun|].
  exact (change_set_of_run net self mark force device_data changes self' sent
           Hfetch Hrun).
Qed.

End ChangeSet.

(** C1, the claim as stated fails: a payload whose target temperature is
    a NaN is recorded as a change by the first call and again by the call
    repeated on the resulting state, whatever the built-ins. *)
Lemma update_state_repeats_nan_change :
  (fun B => TurkovDevice.update_state B (Examples.cloud_answers Examples.payload_nan)
              (Examples.cloud_device ∅) false false)
  = (fun _ => (Ok {[ "target_temperature" ]},
               Examples.cloud_device {[ "target_temperature" := VFloat nan ]},
               [TurkovDevice.CloudState (Some "dev1") false]))
  /\ (fun B => TurkovDevice.update_state B (Examples.cloud_answers Examples.payload_nan)
                 (Examples.cloud_device {[ "target_temperature" := VFloat nan ]})
                 false false)
     = (fun _ => (Ok {[ "target_temperature" ]},
                  Examples.cloud_device {[ "target_temperature" := VFloat nan ]},
                  [TurkovDevice.CloudState (Some "dev1") false])).
Proof. split; vm_compute; reflexivity. Qed.

(** C9, the claim as stated fails: with [mark_as_none_if_not_present] a
    custom image gives an upload URL that differs from the stored [None],
    and the call neither assigns it nor records [image_url], whatever the
    built-ins. *)
Lemma update_state_flag_ignores_new_image :
  (fun B => TurkovDevice.resolve_image_url B (Examples.cloud_device ∅)
              Examples.payload_image)
  = (fun _ => Ok Examples.upload_url)
  /\ py_ne (TurkovDevice.getattr (Examples.cloud_device ∅) "image_url")
        Examples.upload_url = true
  /\ (fun B => TurkovDevice.update_state B (Examples.cloud_answers Examples.payload_image)
                 (Examples.cloud_device ∅) true false)
     = (fun _ => (Ok ∅, Examples.cloud_device ∅,
                  [TurkovDevice.CloudState (Some "dev1") false])).
Proof. repeat split; vm_compute; reflexivity. Qed.

(** Every entry of the mapping, one by one. *)
Ltac each_entry He tac :=
  unfold TurkovDevice.ATTRIBUTE_KEY_MAPPING in He;
  repeat (apply elem_of_cons in He as [He|He]; [subst; tac|]);
  destruct (not_elem_of_nil _ He).

(** C9, witness: without the flag the upload URL of a custom image is
    assigned and recorded. *)
Lemma image_url_recorded_under_flag_test_witness :
  exists changes self',
    TurkovDevice.update_state Examples.example_builtins
      (Examples.cloud_answers Examples.payload_image) (Examples.cloud_device ∅)
      false false
    = (Ok changes, self', [TurkovDevice.CloudState (Some "dev1") false])
    /\ ("image_url" ∈ changes <->
        py_ne (TurkovDevice.getattr (Examples.cloud_device ∅) "image_url")
          Examples.upload_url = true).
Proof.
  destruct (image_url_recorded_under_flag_test Examples.example_builtins
              (Examples.cloud_answers Examples.payload_image) (Examples.cloud_device ∅)
              false false Examples.payload_image
              [TurkovDevice.CloudState (Some "dev1") false] eq_refl eq_refl)
    as (changes & self' & image_url & Hrun & Hres & Hoff & _).
  - intros e He _. each_entry He ltac:(eexists; reflexivity).
  - exists changes, self'. split; [exact Hrun|].
    injection Hres as <-. exact (Hoff eq_refl).
Defined.

(** C1, witness: for a device that reports [on], the call returns and
    [is_on] is recorded exactly when the stored value differs from
    [True]. *)
Lemma update_state_change_set_witness :
  exists changes self',
    TurkovDevice.update_state Examples.example_builtins
      (Examples.cloud_answers Examples.payload_on) (Examples.cloud_device ∅) false false
    = (Ok changes, self', [TurkovDevice.CloudState (Some "dev1") false])
    /\ ("is_on" ∈ changes <->
        exists value,
          TurkovDevice.wire_value Examples.example_builtins false Examples.payload_on
            "on" TurkovDevice.conv_None = Ok (Some value)
          /\ py_ne value (TurkovDevice.getattr (Examples.cloud_device ∅) "is_on") = true)
    /\ TurkovDevice.update_state Examples.example_builtins
         (Examples.cloud_answers Examples.payload_on) self' false false
       = (Ok ∅, self', [TurkovDevice.CloudState (Some "dev1") false]).
Proof.
  destruct (update_state_change_set Examples.example_builtins
              (Examples.cloud_answers Examples.payload_on) (Examples.cloud_device ∅)
              false false Examples.payload_on
              [TurkovDevice.CloudState (Some "dev1") false] eq_refl)
    as (changes & self' & Hrun & Hiff & Hagain).
  - right. intros e He _. each_entry He ltac:(eexists; reflexivity).
  - exists changes, self'. split; [exact Hrun|]. split.
    + apply Hiff; [|discriminate]. apply elem_of_cons. left. reflexivity.
    + apply Hagain.
      * intros a key c value He Hc Hw.
        each_entry He ltac:(injection He as -> -> ->; cbv in Hw;
                            first [discriminate Hw | injection Hw as <-; reflexivity]).
      * intros image_url H. cbv in H. injection H as <-. reflexivity.
Defined.

(** ** Synchronisation of the device list *)

Section DeviceList.

Import TurkovAPI.

Lemma same_device_refl (device : TurkovDevice.t) : same_device device device.
Proof. repeat split. Qed.

Lemma same_device_trans (d1 d2 d3 : TurkovDevice.t) :
  same_device d1 d2 -> same_device d2 d3 -> same_device d1 d3.
Proof. unfold same_device. intuition congruence. Qed.

Lemma same_device_apply (device : TurkovDevice.t) (device_data : DeviceDataResponseDict) :
  same_device device (apply_device_data device device_data).
Proof. repeat split. Qed.

Lemma init_new_device (id_ : string) :
  non_empty id_ = true ->
  TurkovDevice.__init__ (Some id_) true false None 80 = Ok (new_device id_).
Proof.
  intros H. unfold TurkovDevice.__init__. cbn [truthy_str andb orb negb].
  unfold non_empty in H. rewrite H. reflexivity.
Qed.

Lemma reported_id_spec (device_data : DeviceDataResponseDict) (id_ : string) :
  reported_id device_data = Some id_ <->
  device_data !! "_id" = Some (Some id_) /\ non_empty id_ = true.
Proof.
  unfold reported_id. destruct (device_data !! "_id") as [[i|]|].
  - destruct (non_empty i) eqn:E; split;
      [intros [= ->]; split; [reflexivity | exact E]
      | intros [[= ->] _]; reflexivity
      | discriminate
      | intros [[= ->] H]; congruence].
  - split; [discriminate | intros [H _]; discriminate H].
  - split; [discriminate | intros [H _]; discriminate H].
Qed.

(** A turn whose log line cannot format the session raises there. *)
Lemma sync_device_raises (e : exn) (st : sync_state) (device_data : DeviceDataResponseDict) :
  sync_device (Raise e) st device_data = Raise e.
Proof.
  unfold sync_device. destruct (device_data !! "_id") as [id_|]; [|reflexivity].
  destruct (negb (truthy_str id_)); [reflexivity|].
  destruct (existing_devices st !! default "" id_); reflexivity.
Qed.

Lemma sync_device_label (label : result unit) (st st' : sync_state)
    (device_data : DeviceDataResponseDict) :
  sync_device label st device_data = Ok st' -> label = Ok tt.
Proof.
  destruct label as [[]|e]; [reflexivity|]. rewrite sync_device_raises. discriminate.
Qed.

(** What one turn of the loop does, by the id the entry reports. *)
Lemma sync_device_spec (st : sync_state) (device_data : DeviceDataResponseDict) :
  leftover_devices st ⊆ dom (existing_devices st) ->
  exists st' new,
    sync_device (Ok tt) st device_data = Ok st'
    /\ logged st' = logged st ++ [new]
    /\ leftover_devices st' ⊆ dom (existing_devices st')
    /\ (forall id_ device, existing_devices st !! id_ = Some device ->
          exists device', existing_devices st' !! id_ = Some device'
                          /\ same_device device device')
    /\ match reported_id device_data with
       | None =>
           existing_devices st' = existing_devices st
           /\ leftover_devices st' = leftover_devices st
           /\ new = match device_data !! "_id" with
                    | Some _ => WarningEmptyId device_data
                    | None => WarningNoId device_data
                    end
       | Some id_ =>
           dom (existing_devices st') = {[ id_ ]} ∪ dom (existing_devices st)
           /\ leftover_devices st' = leftover_devices st ∖ {[ id_ ]}
           /\ new = match existing_devices st !! id_ with
                    | Some _ => InfoFoundExisting id_
                    | None => InfoCreatingNew id_
                    end
       end.
Proof.
  intros Hinv. unfold sync_device, reported_id.
  destruct (device_data !! "_id") as [[id_|]|] eqn:Hid; cbn [truthy_str negb bind].
  - unfold non_empty. destruct (String.eqb id_ "") eqn:He; cbn [negb].
    + eexists _, _. split; [reflexivity|]. cbn.
      repeat split; eauto using same_device_refl.
    + change (default "" (Some id_)) with id_.
      destruct (existing_devices st !! id_) as [device|] eqn:Hex.
      * eexists _, _. split; [reflexivity|]. cbn.
        split; [reflexivity|]. split; [rewrite dom_insert_L; set_solver|].
        split; [|split; [apply dom_insert_L | split; reflexivity]].
        intros id' device' Hd. destruct (decide (id_ = id')) as [<-|Hne].
        -- rewrite lookup_insert_eq. eexists. split; [reflexivity|].
           replace device' with device by congruence. apply same_device_apply.
        -- rewrite lookup_insert_ne by exact Hne. eauto using same_device_refl.
      * assert (Hnew : id_ ∉ leftover_devices st).
        { intros Hin. apply Hinv, elem_of_dom in Hin as [x Hx]. congruence. }
        unfold TurkovDevice.__init__. cbn [truthy_str andb orb negb].
        rewrite He. cbn [negb bind].
        eexists _, _. split; [reflexivity|]. cbn.
        split; [reflexivity|]. split; [rewrite dom_insert_L; set_solver|].
        split; [|split; [apply dom_insert_L | split; [set_solver | reflexivity]]].
        intros id' device' Hd. destruct (decide (id_ = id')) as [<-|Hne]; [congruence|].
        rewrite lookup_insert_ne by exact Hne. eauto using same_device_refl.
  - eexists _, _. split; [reflexivity|]. cbn.
    repeat split; eauto using same_device_refl.
  - eexists _, _. split; [reflexivity|]. cbn.
    repeat split; eauto using same_device_refl.
Qed.

(** One turn of the loop, as a function of the registry. *)
Lemma sync_device_registry (st st' : sync_state) (device_data : DeviceDataResponseDict) :
  sync_device (Ok tt) st device_data = Ok st' ->
  existing_devices st'
  = match reported_id device_data with
    | Some id_ =>
        <[ id_ := apply_device_data (default (new_device id_) (existing_devices st !! id_))
                    device_data ]> (existing_devices st)
    | None => existing_devices st
    end.
Proof.
  unfold sync_device, reported_id.
  destruct (device_data !! "_id") as [[id_|]|]; cbn [truthy_str negb bind].
  - unfold non_empty. destruct (String.eqb id_ "") eqn:He; cbn [negb].
    + intros [= <-]. reflexivity.
    + change (default "" (Some id_)) with id_.
      destruct (existing_devices st !! id_) as [device|].
      * intros [= <-]. reflexivity.
      * rewrite init_new_device by (unfold non_empty; rewrite He; reflexivity).
        cbn [bind]. intros [= <-]. reflexivity.
  - intros [= <-]. reflexivity.
  - intros [= <-]. reflexivity.
Qed.

Lemma reported_ids_cons (device_data : DeviceDataResponseDict)
    (rest : list DeviceDataResponseDict) :
  reported_ids (device_data :: rest)
  = match reported_id device_data with
    | Some id_ => {[ id_ ]} ∪ reported_ids rest
    | None => reported_ids rest
    end.
Proof.
  unfold reported_ids. cbn [omap list_omap].
  destruct (reported_id device_data); reflexivity.
Qed.

(** The loop over the device list, when its log lines format the session. *)
Lemma sync_devices_spec (device_datum : list DeviceDataResponseDict) :
  forall st : sync_state,
  leftover_devices st ⊆ dom (existing_devices st) ->
  exists st' news,
    sync_devices (Ok tt) st device_datum = (Ok tt, st')
    /\ logged st' = logged st ++ news
    /\ dom (existing_devices st') = dom (existing_devices st) ∪ reported_ids device_datum
    /\ leftover_devices st' = leftover_devices st ∖ reported_ids device_datum
    /\ (forall id_ device, existing_devices st !! id_ = Some device ->
          exists device', existing_devices st' !! id_ = Some device'
                          /\ same_device device device')
    /\ (forall device_data, device_data ∈ device_datum ->
          device_data !! "_id" = None -> WarningNoId device_data ∈ news)
    /\ (forall device_data id_, device_data ∈ device_datum ->
          device_data !! "_id" = Some id_ -> truthy_str id_ = false ->
          WarningEmptyId device_data ∈ news)
    /\ (forall id_, InfoCreatingNew id_ ∈ news ->
          (id_ ∉ dom (existing_devices st)) /\ id_ ∈ reported_ids device_datum).
Proof.
  induction device_datum as [|device_data rest IH]; intros st Hinv.
  - exists st, []. cbn [sync_devices]. rewrite app_nil_r.
    split; [reflexivity|]. split; [reflexivity|].
    split; [unfold reported_ids; cbn; set_solver|].
    split; [unfold reported_ids; cbn; set_solver|].
    split; [eauto using same_device_refl|].
    repeat split; intros; exfalso; eapply not_elem_of_nil; eassumption.
  - destruct (sync_device_spec st device_data Hinv)
      as (st1 & new & Hrun1 & Hlog1 & Hinv1 & Hsame1 & Hcase).
    destruct (IH st1 Hinv1)
      as (st' & news & Hrun & Hlog & Hdom & Hleft & Hsame & Hno & Hempty & Hnew).
    exists st', (new :: news). cbn [sync_devices]. rewrite Hrun1.
    split; [exact Hrun|].
    split; [rewrite Hlog, Hlog1, <- app_assoc; reflexivity|].
    rewrite reported_ids_cons.
    assert (Hgrow : dom (existing_devices st) ⊆ dom (existing_devices st1)).
    { destruct (reported_id device_data); destruct Hcase as (Hd & _ & _).
      - rewrite Hd. set_solver.
      - rewrite Hd. reflexivity. }
    split; [|split; [|split; [|split; [|split]]]].
    + rewrite Hdom. destruct (reported_id device_data); destruct Hcase as (Hd & _ & _).
      * rewrite Hd. set_solver.
      * rewrite Hd. reflexivity.
    + rewrite Hleft. destruct (reported_id device_data); destruct Hcase as (_ & Hl & _).
      * rewrite Hl. set_solver.
      * rewrite Hl. reflexivity.
    + intros id_ device Hd. destruct (Hsame1 id_ device Hd) as (d1 & Hd1 & Hs1).
      destruct (Hsame id_ d1 Hd1) as (d2 & Hd2 & Hs2).
      exists d2. split; [exact Hd2 | exact (same_device_trans _ _ _ Hs1 Hs2)].
    + intros d Hin Hid. apply elem_of_cons in Hin as [-> | Hin].
      * unfold reported_id in Hcase. rewrite Hid in Hcase.
        destruct Hcase as (_ & _ & ->). apply elem_of_cons. left. reflexivity.
      * apply elem_of_cons. right. exact (Hno d Hin Hid).
    + intros d id_ Hin Hid Hfalsy. apply elem_of_cons in Hin as [-> | Hin].
      * unfold reported_id in Hcase. rewrite Hid in Hcase.
        assert (Hc : (match id_ with
                      | Some id_0 => if non_empty id_0 then Some id_0 else None
                      | None => None
                      end) = None).
        { destruct id_ as [i|]; [|reflexivity]. unfold non_empty.
          cbn in Hfalsy. rewrite Hfalsy. reflexivity. }
        rewrite Hc in Hcase. destruct Hcase as (_ & _ & ->).
        apply elem_of_cons. left. reflexivity.
      * apply elem_of_cons. right. exact (Hempty d id_ Hin Hid Hfalsy).
    + intros id_ Hin. apply elem_of_cons in Hin as [Heq | Hin].
      * destruct (reported_id device_data) as [i|]; destruct Hcase as (_ & _ & Hn);
          rewrite Hn in Heq.
        -- destruct (existing_devices st !! i) eqn:Hex; [discriminate|].
           injection Heq as ->. split; [apply not_elem_of_dom; exact Hex|].
           apply elem_of_union. left. apply elem_of_singleton. reflexivity.
        -- destruct (device_data !! "_id"); discriminate.
      * destruct (Hnew id_ Hin) as [Hfresh Hrep]. split.
        -- intros Hd. exact (Hfresh (Hgrow _ Hd)).
        -- destruct (reported_id device_data); [apply elem_of_union; right|]; exact Hrep.
Qed.

(** A loop whose log lines cannot format the session ends in its first
    turn, with nothing changed; it succeeds on the empty list only. *)
Lemma sync_devices_raises (e : exn) (st : sync_state)
    (device_data : DeviceDataResponseDict) (rest : list DeviceDataResponseDict) :
  sync_devices (Raise e) st (device_data :: rest) = (Raise e, st).
Proof. cbn [sync_devices]. rewrite sync_device_raises. reflexivity. Qed.

Lemma sync_devices_ok (label : result unit) (device_datum : list DeviceDataResponseDict)
    (st st' : sync_state) :
  sync_devices label st device_datum = (Ok tt, st') ->
  sync_devices (Ok tt) st device_datum = (Ok tt, st')
  /\ (label = Ok tt \/ device_datum = []).
Proof.
  destruct label as [[]|e]; [intros H; split; [exact H | left; reflexivity]|].
  destruct device_datum as [|device_data rest].
  - intros H. split; [exact H | right; reflexivity].
  - rewrite sync_devices_raises. discriminate.
Qed.

(** The loop, as a function of the registry: a device is what the
    entries that report its id make of it, one after the other. *)
Lemma sync_devices_registry (device_datum : list DeviceDataResponseDict) :
  forall (st st' : sync_state),
  sync_devices (Ok tt) st device_datum = (Ok tt, st') ->
  forall id_,
    existing_devices st' !! id_
    = match entries_of id_ device_datum with
      | [] => existing_devices st !! id_
      | entries => Some (synchronised (existing_devices st) id_ entries)
      end.
Proof.
  induction device_datum as [|device_data rest IH]; intros st st' Hrun id_.
  - injection Hrun as <-. reflexivity.
  - cbn [sync_devices] in Hrun.
    destruct (sync_device (Ok tt) st device_data) as [st1|e] eqn:Hstep;
      [|discriminate Hrun].
    specialize (IH st1 st' Hrun id_).
    apply sync_device_registry in Hstep.
    unfold entries_of in IH |- *. rewrite filter_cons.
    destruct (decide (reported_id device_data = Some id_)) as [Hrep|Hrep].
    + rewrite Hrep in Hstep.
      assert (Hnow : existing_devices st1 !! id_
                     = Some (apply_device_data
                               (default (new_device id_) (existing_devices st !! id_))
                               device_data)).
      { rewrite Hstep. apply lookup_insert_eq. }
      rewrite IH. unfold synchronised. cbn [fold_left]. rewrite Hnow.
      destruct (filter _ rest); reflexivity.
    + assert (Hnow : existing_devices st1 !! id_ = existing_devices st !! id_).
      { rewrite Hstep. destruct (reported_id device_data) as [i|]; [|reflexivity].
        apply lookup_insert_ne. congruence. }
      rewrite IH. unfold synchronised. rewrite Hnow. reflexivity.
Qed.

Lemma entries_of_reported (id_ : string) (device_datum : list DeviceDataResponseDict) :
  id_ ∈ reported_ids device_datum <-> entries_of id_ device_datum <> [].
Proof.
  unfold reported_ids, entries_of. rewrite elem_of_list_to_set, list_elem_of_omap.
  split.
  - intros (d & Hin & Hrep) Hnil.
    assert (Hd : d ∈ filter (fun device_data => reported_id device_data = Some id_)
                       device_datum).
    { apply list_elem_of_filter. split; assumption. }
    rewrite Hnil in Hd. exact (not_elem_of_nil _ Hd).
  - intros Hne.
    destruct (filter (fun device_data => reported_id device_data = Some id_) device_datum)
      as [|d rest] eqn:Hf; [congruence|].
    assert (Hd : d ∈ filter (fun device_data => reported_id device_data = Some id_)
                       device_datum).
    { rewrite Hf. apply elem_of_cons. left. reflexivity. }
    apply list_elem_of_filter in Hd as [Hrep Hin]. exists d. split; assumption.
Qed.

Lemma synchronised_same_device (entries : list DeviceDataResponseDict) :
  forall device, same_device device (fold_left apply_device_data entries device).
Proof.
  induction entries as [|d rest IH]; intros device; [apply same_device_refl|].
  cbn [fold_left]. eapply same_device_trans; [apply same_device_apply | apply IH].
Qed.

Lemma apply_device_data_field (device : TurkovDevice.t) (device_data : DeviceDataResponseDict)
    (key : string) (field : TurkovDevice.t -> option string) :
  (key, field) ∈ descriptive_fields ->
  field (apply_device_data device device_data)
  = match device_data !! key with
    | Some value => value
    | None => field device
    end.
Proof.
  unfold descriptive_fields. intros Hin.
  repeat (apply elem_of_cons in Hin as [[= -> ->]|Hin]; [reflexivity|]).
  destruct (not_elem_of_nil _ Hin).
Qed.

Lemma synchronised_field_kept (entries : list DeviceDataResponseDict)
    (key : string) (field : TurkovDevice.t -> option string) :
  (key, field) ∈ descriptive_fields ->
  (forall d, d ∈ entries -> d !! key = None) ->
  forall device, field (fold_left apply_device_data entries device) = field device.
Proof.
  intros Hf. induction entries as [|d rest IH]; intros Hall device; [reflexivity|].
  cbn [fold_left]. rewrite IH.
  - rewrite (apply_device_data_field device d key field Hf).
    rewrite (Hall d); [reflexivity | apply elem_of_cons; left; reflexivity].
  - intros d' Hd'. apply Hall. apply elem_of_cons. right. exact Hd'.
Qed.

(** [del existing_devices[id_]] for every leftover id. *)
Lemma discard_leftover_lookup (existing : gmap string TurkovDevice.t)
    (leftover : gset string) (id_ : string) :
  (id_ ∈ leftover -> discard_leftover existing leftover !! id_ = None)
  /\ (id_ ∉ leftover -> discard_leftover existing leftover !! id_ = existing !! id_).
Proof.
  unfold discard_leftover.
  apply (set_fold_ind_L
           (fun m (X : gset string) =>
              (id_ ∈ X -> m !! id_ = None) /\ (id_ ∉ X -> m !! id_ = existing !! id_))).
  - split; [intros H; destruct (not_elem_of_empty (C := gset string) _ H) | reflexivity].
  - intros x X m Hx [Hin Hout]. destruct (decide (x = id_)) as [->|Hne].
    + rewrite lookup_delete_eq. split; [reflexivity | set_solver].
    + rewrite lookup_delete_ne by exact Hne. split.
      * intros H. apply Hin. set_solver.
      * intros H. apply Hout. set_solver.
Qed.

Lemma discard_leftover_dom (existing : gmap string TurkovDevice.t) (leftover : gset string) :
  dom (discard_leftover existing leftover) = dom existing ∖ leftover.
Proof.
  apply set_eq. intros id_.
  destruct (discard_leftover_lookup existing leftover id_) as [Hin Hout].
  rewrite elem_of_difference, !elem_of_dom.
  destruct (decide (id_ ∈ leftover)) as [H|H].
  - rewrite (Hin H). split; [intros [x Hx]; discriminate | intros [_ Hn]; contradiction].
  - rewrite (Hout H). split; [intros Hs; split; assumption | intros [Hs _]; exact Hs].
Qed.

Lemma discard_leftover_empty (existing : gmap string TurkovDevice.t) :
  discard_leftover existing ∅ = existing.
Proof. unfold discard_leftover. apply set_fold_empty. Qed.

(** The second loop: it deletes every leftover id, or raises at the log
    line of its first turn. *)
Lemma discard_leftover_devices_spec (label : result unit)
    (existing : gmap string TurkovDevice.t) (leftover : gset string) :
  (label = Ok tt \/ leftover = ∅ ->
   discard_leftover_devices label existing leftover
   = (Ok tt, discard_leftover existing leftover))
  /\ (forall e, label = Raise e -> leftover <> ∅ ->
        discard_leftover_devices label existing leftover = (Raise e, existing)).
Proof.
  unfold discard_leftover_devices. destruct (decide (leftover = ∅)) as [->|Hne].
  - split; [intros _; rewrite discard_leftover_empty; reflexivity|].
    intros e _ H. destruct (H eq_refl).
  - split.
    + intros [-> | H]; [reflexivity | contradiction].
    + intros e -> _. reflexivity.
Qed.

Lemma complete_fields (user_data : UserDataResponseDict)
    (device_datum : list DeviceDataResponseDict) :
  complete user_data device_datum <->
  exists user_email first_name last_name middle_name,
    devices user_data = Some device_datum
    /\ userEmail user_data = Some user_email
    /\ firstName user_data = Some first_name
    /\ lastName user_data = Some last_name
    /\ fathersName user_data = Some middle_name.
Proof.
  unfold complete. split.
  - intros (Hd & [ue Hue] & [fn Hfn] & [ln Hln] & [mn Hmn]).
    exists ue, fn, ln, mn. repeat split; assumption.
  - intros (ue & fn & ln & mn & Hd & Hue & Hfn & Hln & Hmn).
    repeat split; [exact Hd | | | |]; eexists; eassumption.
Qed.

(** How a call that the server answers with a complete document goes,
    by the label of the address the document gives. *)
Lemma update_user_data_run (self : t) (force : bool)
    (send : request -> http_outcome UserDataResponseDict)
    (status : Z) (etag : option string) (user_data : UserDataResponseDict)
    (device_datum : list DeviceDataResponseDict)
    (user_email first_name_ last_name_ middle_name_ : string) :
  send (user_data_request self force) = Responds status etag (Ok user_data) ->
  negb force && (status =? 304) = false ->
  devices user_data = Some device_datum ->
  userEmail user_data = Some user_email ->
  firstName user_data = Some first_name_ ->
  lastName user_data = Some last_name_ ->
  fathersName user_data = Some middle_name_ ->
  has_label (_user_email self) ->
  let self1 := set_profile self user_email first_name_ last_name_ middle_name_ in
  (has_label user_email \/ (device_datum = [] /\ _devices self = ∅) ->
   exists st,
     sync_devices (Ok tt) (sync_start self) device_datum = (Ok tt, st)
     /\ update_user_data self force send
        = (Ok tt,
           synchronised_session self user_email first_name_ last_name_ middle_name_
             etag st,
           logged st ++ (InfoDiscarding <$> elements (leftover_devices st))))
  /\ (~ has_label user_email -> device_datum <> [] ->
      update_user_data self force send = (Raise IndexError, self1, []))
  /\ (~ has_label user_email -> device_datum = [] -> _devices self <> ∅ ->
      update_user_data self force send
      = (Raise IndexError, remember_tag self1 "user_data" etag, [])).
Proof.
  intros Hsend Hfresh Hdev Hue Hfn Hln Hmn Hlabel self1.
  unfold update_user_data. fold (user_data_request self force).
  rewrite (formats_has_label self Hlabel), Hsend, Hfresh, Hdev, Hue, Hfn, Hln, Hmn.
  fold self1. change (_devices self1) with (_devices self).
  fold (sync_start self).
  destruct (formats_cases self1) as [[Hnew Hf] | [Hnew Hf]]; rewrite Hf.
  - split; [|split; [intros H; destruct (H Hnew) | intros H; destruct (H Hnew)]].
    intros _.
    destruct (sync_devices_spec device_datum (sync_start self))
      as (st & news & Hrun & _); [reflexivity|].
    exists st. split; [exact Hrun|]. rewrite Hrun.
    rewrite (proj1 (discard_leftover_devices_spec (Ok tt) (existing_devices st)
                      (leftover_devices st)) (or_introl eq_refl)).
    reflexivity.
  - split; [|split].
    + intros [H | [-> Hempty]]; [destruct (Hnew H)|].
      exists (sync_start self). split; [reflexivity|].
      cbn [sync_devices].
      rewrite (proj1 (discard_leftover_devices_spec (Raise IndexError)
                        (existing_devices (sync_start self))
                        (leftover_devices (sync_start self)))).
      * reflexivity.
      * right. cbn [leftover_devices sync_start]. rewrite Hempty. apply dom_empty_L.
    + intros _ Hne. destruct device_datum as [|device_data rest]; [congruence|].
      rewrite sync_devices_raises. cbn [existing_devices sync_start].
      destruct self; reflexivity.
    + intros _ -> Hne. cbn [sync_devices].
      rewrite (proj2 (discard_leftover_devices_spec (Raise IndexError)
                        (existing_devices (sync_start self))
                        (leftover_devices (sync_start self))) IndexError eq_refl).
      * cbn [existing_devices sync_start logged]. unfold remember_tag.
        destruct (truthy_str etag); destruct self; reflexivity.
      * cbn [leftover_devices sync_start]. intros H. apply Hne.
        apply dom_empty_iff_L. exact H.
Qed.

(** A call that succeeds, taken apart. *)
Lemma update_user_data_success (self self' : t) (force : bool)
    (send : request -> http_outcome UserDataResponseDict)
    (status : Z) (etag : option string) (json : result UserDataResponseDict)
    (log : list log_record) :
  send (user_data_request self force) = Responds status etag json ->
  negb force && (status =? 304) = false ->
  update_user_data self force send = (Ok tt, self', log) ->
  exists user_data device_datum user_email first_name_ last_name_ middle_name_ st,
    json = Ok user_data
    /\ devices user_data = Some device_datum
    /\ userEmail user_data = Some user_email
    /\ firstName user_data = Some first_name_
    /\ lastName user_data = Some last_name_
    /\ fathersName user_data = Some middle_name_
    /\ has_label (_user_email self)
    /\ (has_label user_email \/ (device_datum = [] /\ _devices self = ∅))
    /\ sync_devices (Ok tt) (sync_start self) device_datum = (Ok tt, st)
    /\ self' = synchronised_session self user_email first_name_ last_name_ middle_name_
                 etag st
    /\ log = logged st ++ (InfoDiscarding <$> elements (leftover_devices st)).
Proof.
  intros Hsend Hfresh Hrun.
  destruct (formats_cases self) as [[Hlabel Hf] | [Hlabel Hf]].
  2: { unfold update_user_data in Hrun. rewrite Hf in Hrun. discriminate Hrun. }
  destruct json as [user_data|e].
  2: { unfold update_user_data in Hrun. fold (user_data_request self force) in Hrun.
       rewrite Hf, Hsend, Hfresh in Hrun. destruct e; discriminate Hrun. }
  destruct (devices user_data) as [device_datum|] eqn:Hd,
           (userEmail user_data) as [user_email|] eqn:Hue,
           (firstName user_data) as [first_name_|] eqn:Hfn,
           (lastName user_data) as [last_name_|] eqn:Hln,
           (fathersName user_data) as [middle_name_|] eqn:Hmn;
    try (unfold update_user_data in Hrun; fold (user_data_request self force) in Hrun;
         rewrite Hf, Hsend, Hfresh, ?Hd, ?Hue, ?Hfn, ?Hln, ?Hmn in Hrun;
         discriminate Hrun).
  destruct (update_user_data_run self force send status etag user_data device_datum
              user_email first_name_ last_name_ middle_name_
              Hsend Hfresh Hd Hue Hfn Hln Hmn Hlabel) as (Hok & Hraise1 & Hraise2).
  assert (Hcase : has_label user_email \/ (device_datum = [] /\ _devices self = ∅)).
  { destruct (formats_cases (set_profile self user_email first_name_ last_name_
                               middle_name_)) as [[Hnew _] | [Hnew _]];
      [left; exact Hnew|].
    right. destruct device_datum as [|device_data rest].
    - split; [reflexivity|].
      destruct (decide (_devices self = ∅)) as [He|He]; [exact He|].
      rewrite (Hraise2 Hnew eq_refl He) in Hrun. discriminate Hrun.
    - rewrite (Hraise1 Hnew) in Hrun by discriminate. discriminate Hrun. }
  destruct (Hok Hcase) as (st & Hsync & Hrun').
  rewrite Hrun' in Hrun. injection Hrun as <- <-.
  exists user_data, device_datum, user_email, first_name_, last_name_, middle_name_, st.
  split; [reflexivity|]. do 5 (split; [assumption|]).
  split; [exact Hlabel|]. split; [exact Hcase|]. split; [exact Hsync|].
  split; reflexivity.
Qed.

(** What a call that succeeds leaves. *)
Lemma update_user_data_sync (self self' : t) (force : bool)
    (send : request -> http_outcome UserDataResponseDict)
    (status : Z) (etag : option string) (user_data : UserDataResponseDict)
    (device_datum : list DeviceDataResponseDict) (log : list log_record) :
  send (user_data_request self force) = Responds status etag (Ok user_data) ->
  negb force && (status =? 304) = false ->
  devices user_data = Some device_datum ->
  update_user_data self force send = (Ok tt, self', log) ->
  dom (_devices self') = reported_ids device_datum
  /\ (forall device_data, device_data ∈ device_datum ->
        device_data !! "_id" = None -> WarningNoId device_data ∈ log)
  /\ (forall device_data id_, device_data ∈ device_datum ->
        device_data !! "_id" = Some id_ -> truthy_str id_ = false ->
        WarningEmptyId device_data ∈ log)
  /\ (forall id_, InfoCreatingNew id_ ∈ log ->
        (id_ ∉ dom (_devices self)) /\ id_ ∈ reported_ids device_datum)
  /\ (forall id_,
        _devices self' !! id_
        = match entries_of id_ device_datum with
          | [] => None
          | entries => Some (synchronised (_devices self) id_ entries)
          end).
Proof.
  intros Hsend Hfresh Hdev Hrun.
  destruct (update_user_data_success self self' force send status etag (Ok user_data) log
              Hsend Hfresh Hrun)
    as (ud & dd & ue & fn & ln & mn & st & [= <-] & Hd & _ & _ & _ & _ & _ & _
        & Hsync & -> & ->).
  assert (dd = device_datum) as -> by congruence.
  destruct (sync_devices_spec device_datum (sync_start self))
    as (st' & news & Hrun' & Hlog & Hdom & Hleft & Hsame & Hno & Hempty & Hnew);
    [reflexivity|].
  assert (st' = st) as -> by congruence.
  cbn [logged existing_devices leftover_devices sync_start] in Hlog, Hdom, Hleft, Hnew.
  unfold synchronised_session. cbn [_devices set_devices]. rewrite Hlog. cbn [app].
  split; [|split; [|split; [|split]]].
  - rewrite discard_leftover_dom, Hdom, Hleft. apply set_eq. intros x.
    rewrite elem_of_difference, elem_of_union, elem_of_difference.
    destruct (decide (x ∈ reported_ids device_datum)); tauto.
  - intros d Hin Hid. apply elem_of_app. left. exact (Hno d Hin Hid).
  - intros d id_ Hin Hid Hf. apply elem_of_app. left. exact (Hempty d id_ Hin Hid Hf).
  - intros id_ Hin. apply elem_of_app in Hin as [Hin | Hin]; [exact (Hnew id_ Hin)|].
    apply list_elem_of_fmap in Hin as (y & Hy & _). discriminate Hy.
  - intros id_.
    pose proof (sync_devices_registry device_datum (sync_start self) st Hsync id_)
      as Hlook.
    cbn [existing_devices sync_start] in Hlook.
    destruct (discard_leftover_lookup (existing_devices st) (leftover_devices st) id_)
      as [Hin Hout].
    pose proof (entries_of_reported id_ device_datum) as Hrep.
    destruct (entries_of id_ device_datum) as [|d rest] eqn:He.
    + destruct (decide (id_ ∈ leftover_devices st)) as [Hl|Hl]; [exact (Hin Hl)|].
      rewrite (Hout Hl), Hlook. apply not_elem_of_dom. intros Hd'. apply Hl.
      rewrite Hleft. apply elem_of_difference. split; [exact Hd'|].
      intros H. apply Hrep in H. congruence.
    + rewrite Hout, Hlook; [reflexivity|].
      rewrite Hleft. rewrite elem_of_difference. intros [_ Hn]. apply Hn, Hrep.
      discriminate.
Qed.

(** A complete document whose address has a label is synchronised. *)
Lemma update_user_data_runs (self : t) (force : bool)
    (send : request -> http_outcome UserDataResponseDict)
    (status : Z) (etag : option string) (user_data : UserDataResponseDict)
    (device_datum : list DeviceDataResponseDict) :
  send (user_data_request self force) = Responds status etag (Ok user_data) ->
  negb force && (status =? 304) = false ->
  complete user_data device_datum ->
  has_label (_user_email self) ->
  labelled user_data ->
  exists self' log, update_user_data self force send = (Ok tt, self', log).
Proof.
  intros Hsend Hfresh Hc Hlabel (ue' & Hue' & Hnew).
  apply complete_fields in Hc as (ue & fn & ln & mn & Hd & Hue & Hfn & Hln & Hmn).
  assert (ue' = ue) as -> by congruence.
  destruct (proj1 (update_user_data_run self force send status etag user_data
                     device_datum ue fn ln mn Hsend Hfresh Hd Hue Hfn Hln Hmn Hlabel)
              (or_introl Hnew)) as (st & _ & Hrun).
  eexists _, _. exact Hrun.
Qed.

(** C5: take a synchronisation that the server answers (not with a 304
    to an unforced request) with a body of the declared type. Whenever
    it succeeds, the body is a complete document, every entry with no id
    or an empty one has been skipped with a warning, and the keys of the
    registry are exactly the non-empty ids of the response: a device
    known before and reported again is the same object, with the fields
    its entries carry written into it one entry after the other and
    every other field as it was; a device that is not reported is gone.
    A second synchronisation with the same device list that succeeds
    creates no device and keeps the same keys and the same objects. And
    the synchronisation does succeed, whatever entries lack an id, when
    the document is complete and the addresses of the session and of the
    document are ones the log lines can make a label of. *)
Theorem update_user_data_registry (self : t) (force : bool)
    (send : request -> http_outcome UserDataResponseDict)
    (status : Z) (etag : option string) (json : result UserDataResponseDict)
    (Hsend : send (user_data_request self force) = Responds status etag json)
    (Hfresh : negb force && (status =? 304) = false) :
  (forall self' log,
     update_user_data self force send = (Ok tt, self', log) ->
     exists user_data device_datum,
       json = Ok user_data
       /\ complete user_data device_datum
       /\ dom (_devices self') = reported_ids device_datum
       /\ (forall device_data, device_data ∈ device_datum ->
             device_data !! "_id" = None -> WarningNoId device_data ∈ log)
       /\ (forall device_data id_, device_data ∈ device_datum ->
             device_data !! "_id" = Some id_ -> truthy_str id_ = false ->
             WarningEmptyId device_data ∈ log)
       /\ (forall id_ device, _devices self !! id_ = Some device ->
             id_ ∈ reported_ids device_datum ->
             _devices self' !! id_
             = Some (fold_left apply_device_data (entries_of id_ device_datum) device)
             /\ same_device device
                  (fold_left apply_device_data (entries_of id_ device_datum) device))
       /\ (forall id_ device' key field,
             _devices self' !! id_ = Some device' ->
             (key, field) ∈ descriptive_fields ->
             ((forall d, d ∈ entries_of id_ device_datum -> d !! key = None) ->
              field device' = field (default (new_device id_) (_devices self !! id_)))
             /\ (forall earlier d value,
                   entries_of id_ device_datum = earlier ++ [d] ->
                   d !! key = Some value ->
                   field device' = value))
       /\ (forall id_, id_ ∈ dom (_devices self) -> id_ ∉ reported_ids device_datum ->
             _devices self' !! id_ = None)
       /\ (forall force2 send2 status2 etag2 user_data2 self'' log2,
             send2 (user_data_request self' force2)
             = Responds status2 etag2 (Ok user_data2) ->
             negb force2 && (status2 =? 304) = false ->
             devices user_data2 = Some device_datum ->
             update_user_data self' force2 send2 = (Ok tt, self'', log2) ->
             dom (_devices self'') = dom (_devices self')
             /\ (forall id_, InfoCreatingNew id_ ∉ log2)
             /\ (forall id_ device, _devices self' !! id_ = Some device ->
                   _devices self'' !! id_
                   = Some (fold_left apply_device_data (entries_of id_ device_datum)
                             device)
                   /\ same_device device
                        (fold_left apply_device_data (entries_of id_ device_datum)
                           device))))
  /\ (forall user_data device_datum,
        json = Ok user_data ->
        complete user_data device_datum ->
        has_label (_user_email self) ->
        labelled user_data ->
        exists self' log, update_user_data self force send = (Ok tt, self', log)).
Proof.
  assert (Hin_place : forall (a a' : t) dd id_ device,
            (forall i, _devices a' !! i
                       = match entries_of i dd with
                         | [] => None
                         | entries => Some (synchronised (_devices a) i entries)
                         end) ->
            _devices a !! id_ = Some device ->
            id_ ∈ reported_ids dd ->
            _devices a' !! id_ = Some (fold_left apply_device_data (entries_of id_ dd) device)
            /\ same_device device (fold_left apply_device_data (entries_of id_ dd) device)).
  { intros a a' dd id_ device Hlook Hd Hrep.
    split; [|apply synchronised_same_device].
    rewrite Hlook. apply entries_of_reported in Hrep.
    destruct (entries_of id_ dd) as [|d rest] eqn:He; [congruence|].
    unfold synchronised. rewrite Hd. reflexivity. }
  split.
  - intros self' log Hrun.
    destruct (update_user_data_success self self' force send status etag json log
                Hsend Hfresh Hrun)
      as (user_data & device_datum & ue & fn & ln & mn & st & -> & Hd & Hue & Hfn & Hln
          & Hmn & _).
    destruct (update_user_data_sync self self' force send status etag user_data
                device_datum log Hsend Hfresh Hd Hrun)
      as (Hdom & Hno & Hempty & Hnew & Hlook).
    exists user_data, device_datum. split; [reflexivity|].
    split; [apply complete_fields; eexists _, _, _, _; repeat split; eassumption|].
    split; [exact Hdom|]. split; [exact Hno|]. split; [exact Hempty|].
    split; [intros id_ device; apply (Hin_place self self'); exact Hlook|].
    split; [|split].
    + intros id_ device' key field Hdev Hf. rewrite Hlook in Hdev.
      assert (Hsyn : device'
                     = synchronised (_devices self) id_ (entries_of id_ device_datum)).
      { destruct (entries_of id_ device_datum); [discriminate Hdev | congruence]. }
      split.
      * intros Hnone. rewrite Hsyn. unfold synchronised.
        apply (synchronised_field_kept _ key field Hf Hnone).
      * intros earlier d value He Hv. rewrite Hsyn, He. unfold synchronised.
        rewrite fold_left_app. cbn [fold_left].
        rewrite (apply_device_data_field _ d key field Hf), Hv. reflexivity.
    + intros id_ _ Hnot. apply not_elem_of_dom. rewrite Hdom. exact Hnot.
    + intros force2 send2 status2 etag2 user_data2 self'' log2 Hsend2 Hfresh2 Hd2 Hrun2.
      destruct (update_user_data_sync self' self'' force2 send2 status2 etag2 user_data2
                  device_datum log2 Hsend2 Hfresh2 Hd2 Hrun2)
        as (Hdom2 & _ & _ & Hnew2 & Hlook2).
      split; [congruence|]. split.
      * intros id_ Hin. destruct (Hnew2 id_ Hin) as [Hfresh_id Hrep].
        apply Hfresh_id. rewrite Hdom. exact Hrep.
      * intros id_ device Hdev. apply (Hin_place self' self''); [exact Hlook2 | exact Hdev|].
        rewrite <- Hdom. apply elem_of_dom. eauto.
  - intros user_data device_datum -> Hc Hlabel Hnew.
    exact (update_user_data_runs self force send status etag user_data device_datum
             Hsend Hfresh Hc Hlabel Hnew).
Qed.

End DeviceList.

(** C5, witness: of three entries, one with an id, one without and one
    with an empty id, the first alone is registered, and the call
    succeeds. *)
Lemma update_user_data_registry_witness :
  exists self' log,
    TurkovAPI.update_user_data Examples.session_1060 false Examples.serves_user_document
    = (Ok tt, self', log)
    /\ dom (TurkovAPI._devices self') = reported_ids Examples.three_entries.
Proof.
  pose proof (update_user_data_registry Examples.session_1060 false
                Examples.serves_user_document 200 (Some "tag-1")
                (Ok Examples.user_document) eq_refl eq_refl) as [Hafter Hruns].
  destruct (Hruns Examples.user_document Examples.three_entries eq_refl)
    as (self' & log & Hrun).
  - split; [reflexivity|]. repeat split; eexists; reflexivity.
  - exists "user", "example.org". repeat split; discriminate.
  - exists "user@example.org". split; [reflexivity|].
    exists "user", "example.org". repeat split; discriminate.
  - destruct (Hafter self' log Hrun)
      as (user_data & device_datum & Hjson & Hc & Hdom & _).
    exists self', log. split; [exact Hrun|].
    injection Hjson as <-. destruct Hc as [Hd _]. injection Hd as <-. exact Hdom.
Defined.

Example three_entries_report_one : reported_ids Examples.three_entries = {[ "dev1" ]}.
Proof. vm_compute. reflexivity. Qed.

(** ** One re-authentication and one retry *)

Section BoundedReauth.

Import TurkovAPI.

Context {S A : Type}.
Variable handle_authentication_of : S -> bool.
Variable access_token_needs_update_of : S -> bool.
Variable authenticate_ : S -> result unit * S.
Variable fn : S -> result A * S.

Abbreviation run :=
  (_handle_preliminary_auth handle_authentication_of access_token_needs_update_of
     authenticate_ fn).

Lemma run_calls (self : S) :
  (run self).2 = [CallAuthenticate] \/ (run self).2 = [CallWrapped]
  \/ (run self).2 = [CallAuthenticate; CallWrapped]
  \/ (run self).2 = [CallWrapped; CallAuthenticate]
  \/ (run self).2 = [CallWrapped; CallAuthenticate; CallWrapped].
Proof.
  unfold _handle_preliminary_auth, perform, on_authorization_error.
  destruct (handle_authentication_of self && access_token_needs_update_of self).
  - destruct (authenticate_ self) as [[u|e] s1]; [|left; reflexivity].
    destruct (fn s1) as [[a|e1] s2]; [right; right; left; reflexivity|].
    destruct (is_authorization_error e1); [|right; right; left; reflexivity].
    cbn [orb]. destruct (is_TurkovAPIAuthenticationError e1);
      right; right; left; reflexivity.
  - destruct (fn self) as [[a|e1] s1]; [right; left; reflexivity|].
    destruct (is_authorization_error e1); [|right; left; reflexivity].
    destruct (false || negb (handle_authentication_of self)).
    + destruct (is_TurkovAPIAuthenticationError e1); right; left; reflexivity.
    + destruct (authenticate_ s1) as [[u|e] s2];
        [|right; right; right; left; reflexivity].
      destruct (fn s2) as [r s3]. right; right; right; right. reflexivity.
Qed.

(** C2 (as the code has it): with authentication handling enabled, a call
    never makes more than one [authenticate()] and never calls the
    wrapped operation more than twice. If the first call fails with an
    authorization-class error and no authentication was attempted before
    it, [authenticate()] is called once; if it succeeds the operation is
    retried once, and the value of the retry, or the
    [AuthenticationError] it raises, is the outcome; if it fails its
    exception is the outcome and there is no retry. If authentication was
    attempted before the failing call, an [AuthenticationError] is raised
    without another [authenticate()] or retry. *)
Theorem one_reauth_one_retry (self : S) (Hhandle : handle_authentication_of self = true) :
  (count CallAuthenticate (run self).2 <= 1 /\ count CallWrapped (run self).2 <= 2)%nat
  /\ (access_token_needs_update_of self = false ->
      forall e1 s1, fn self = (Raise e1, s1) -> is_authorization_error e1 = true ->
        (forall u s2, authenticate_ s1 = (Ok u, s2) ->
           (run self).2 = [CallWrapped; CallAuthenticate; CallWrapped]
           /\ (forall a s3, fn s2 = (Ok a, s3) ->
                 run self = (Ok a, s3, [CallWrapped; CallAuthenticate; CallWrapped]))
           /\ (forall msg s3, fn s2 = (Raise (TurkovAPIAuthenticationError msg), s3) ->
                 run self = (Raise (TurkovAPIAuthenticationError msg), s3,
                             [CallWrapped; CallAuthenticate; CallWrapped])))
        /\ (forall e s2, authenticate_ s1 = (Raise e, s2) ->
             run self = (Raise e, s2, [CallWrapped; CallAuthenticate])))
  /\ (access_token_needs_update_of self = true ->
      forall u s1, authenticate_ self = (Ok u, s1) ->
      forall e1 s2, fn s1 = (Raise e1, s2) -> is_authorization_error e1 = true ->
        exists msg,
          run self = (Raise (TurkovAPIAuthenticationError msg), s2,
                      [CallAuthenticate; CallWrapped])).
Proof.
  split; [|split].
  - destruct (run_calls self) as [H | [H | [H | [H | H]]]]; rewrite H; cbn; lia.
  - intros Hfresh e1 s1 Hfn Hauthz.
    unfold _handle_preliminary_auth, perform, on_authorization_error.
    rewrite Hhandle, Hfresh, Hfn, Hauthz. cbn [andb orb negb app].
    split.
    + intros u s2 Hauth. rewrite Hauth.
      split; [destruct (fn s2); reflexivity|].
      split; intros; rewrite H; reflexivity.
    + intros e s2 Hauth. rewrite Hauth. reflexivity.
  - intros Hstale u s1 Hauth e1 s2 Hfn Hauthz.
    unfold _handle_preliminary_auth, perform, on_authorization_error.
    rewrite Hhandle, Hstale, Hauth, Hfn, Hauthz. cbn [andb orb negb app].
    destruct e1; try discriminate Hauthz; cbn; eexists; reflexivity.
Qed.

End BoundedReauth.

(** C2, the claim as stated fails, whatever the built-ins. First: the
    user endpoint answers with a page that is not JSON, so the call fails
    with an [AuthenticationError]; [authenticate()] is called and fails,
    the server being unreachable: no retry is made and a [ClientError]
    comes out. Second: the request is refused with [HTTPUnauthorized],
    [authenticate()] succeeds, the retry is refused again: the
    [HTTPUnauthorized] of the retry comes out as it is. *)
Lemma retry_may_not_happen_or_surface_unwrapped :
  (fun B => TurkovAPI.decorated B 1000 Examples.unreachable Examples.unreachable
              (Examples.update_user_data_fn Examples.serves_html) Examples.session_1060)
  = (fun _ => (Raise ClientError, Examples.session_1060,
               [TurkovAPI.CallWrapped; TurkovAPI.CallAuthenticate]))
  /\ (fun B => TurkovAPI.decorated B 1000 (Examples.grants Examples.envelope_5000)
                 Examples.unreachable
                 (Examples.update_user_data_fn Examples.refuses) Examples.session_1060)
     = (fun _ => (Raise HTTPUnauthorized, Examples.session_5000,
                  [TurkovAPI.CallWrapped; TurkovAPI.CallAuthenticate;
                   TurkovAPI.CallWrapped])).
Proof. split; vm_compute; reflexivity. Qed.

(** C2, witness: the first scenario above, read off the theorem. *)
Lemma one_reauth_one_retry_witness :
  TurkovAPI.decorated Examples.example_builtins 1000 Examples.unreachable
    Examples.unreachable (Examples.update_user_data_fn Examples.serves_html)
    Examples.session_1060
  = (Raise ClientError, Examples.session_1060,
     [TurkovAPI.CallWrapped; TurkovAPI.CallAuthenticate]).
Proof.
  exact (proj2 (proj1 (proj2
           (one_reauth_one_retry TurkovAPI.handle_authentication
              (fun self => TurkovAPI.access_token_needs_update self 1000)
              (fun self => TurkovAPI.authenticate Examples.example_builtins self 1000 1000
                             Examples.unreachable Examples.unreachable)
              (Examples.update_user_data_fn Examples.serves_html)
              Examples.session_1060 eq_refl))
           eq_refl
           (TurkovAPIAuthenticationError "Server did not provide user and/or device datum")
           Examples.session_1060 eq_refl eq_refl)
           ClientError Examples.session_1060 eq_refl).
Defined.

(** ** Commands *)

(** Membership in a table written out in full. *)
Ltac in_mapping := solve [repeat constructor].

Section Commands.

Import TurkovDevice.

Lemma sends_only_set_value (net : Network) (self : t) (key : string) (value : PyVal)
    (accepts : PyVal -> Prop) :
  accepts value -> sends_only key accepts (set_value net self key value).
Proof.
  intros Hv. unfold sends_only.
  eapply Forall_impl; [apply set_value_requests|].
  intros r Hr. exists value. split; [exact Hr | exact Hv].
Qed.

Lemma set_value_local_sends (net : Network) (self : t) (key : string) (value : PyVal) :
  truthy_str (host self) = true ->
  _api self || _session self = true ->
  set_value_local net self key value
  = (local_command net key value, [LocalCommand key value]).
Proof.
  intros Hh Hs. unfold set_value_local, session. rewrite Hh. simpl.
  destruct (_session self); [reflexivity|].
  destruct (_api self); [reflexivity | discriminate].
Qed.

(** X1: [set_value] follows the same policy as [get_state]. The local
    endpoint is asked first exactly when a host is configured; a local
    answer is the outcome. When the local command fails in transport or
    decoding, a device that holds an API reference sends the command once
    through the cloud and returns that outcome, and a device that holds
    none lets the local error through; a local failure of another kind
    (a cancellation, say) goes through without a cloud attempt. With no
    host the cloud is asked at once, and with neither a host nor an API
    reference the call fails with [TurkovAPIError] and sends nothing. *)
Theorem set_value_local_then_cloud (net : Network) (self : t) (key : string)
    (value : PyVal) (Hinit : _api self || _session self = true) :
  (truthy_str (host self) = true <->
     exists rest, (set_value net self key value).2 = LocalCommand key value :: rest)
  /\ (truthy_str (host self) = true ->
      forall data, local_command net key value = Ok data ->
        set_value net self key value = (Ok data, [LocalCommand key value]))
  /\ (truthy_str (host self) = true ->
      forall e, local_command net key value = Raise e ->
        is_transport_or_decode_error e = true ->
        (_api self = true ->
           set_value net self key value
           = (cloud_command net (_id self) key value,
              [LocalCommand key value; CloudCommand (_id self) key value]))
        /\ (_api self = false ->
              set_value net self key value = (Raise e, [LocalCommand key value])))
  /\ (truthy_str (host self) = true ->
      forall e, local_command net key value = Raise e ->
        is_transport_or_decode_error e = false ->
        set_value net self key value = (Raise e, [LocalCommand key value]))
  /\ (truthy_str (host self) = false -> _api self = true ->
        set_value net self key value
        = (cloud_command net (_id self) key value, [CloudCommand (_id self) key value]))
  /\ (truthy_str (host self) = false -> _api self = false ->
        set_value net self key value
        = (Raise (TurkovAPIError "No method to set device values"), [])).
Proof.
  assert (Hl : truthy_str (host self) = true ->
               set_value_local net self key value
               = (local_command net key value, [LocalCommand key value])).
  { intros Hh. apply set_value_local_sends; assumption. }
  split; [|split; [|split; [|split; [|split]]]].
  - split.
    + intros Hh. unfold set_value. rewrite Hh, (Hl Hh).
      destruct (local_command net key value) as [data|e]; [eexists; reflexivity|].
      destruct (is_transport_or_decode_error e); [|eexists; reflexivity].
      destruct (_api self); eexists; reflexivity.
    + intros [rest Hrest]. destruct (truthy_str (host self)) eqn:Hh; [reflexivity|].
      unfold set_value in Hrest. rewrite Hh in Hrest.
      destruct (_api self); discriminate.
  - intros Hh data Hd. unfold set_value. rewrite Hh, (Hl Hh), Hd. reflexivity.
  - intros Hh e He Ht. unfold set_value. rewrite Hh, (Hl Hh), He, Ht.
    split; intros ->; reflexivity.
  - intros Hh e He Ht. unfold set_value. rewrite Hh, (Hl Hh), He, Ht. reflexivity.
  - intros Hh Ha. unfold set_value. rewrite Hh, Ha. reflexivity.
  - intros Hh Ha. unfold set_value. rewrite Hh, Ha. reflexivity.
Qed.

(** X2: the three validated commands never send a value outside their
    domain. Every request [set_fan_speed] sends carries [fan_speed] with
    one of ["auto"], ["0"], ["1"], ["2"], ["3"]; every request
    [set_target_temperature] sends carries [temp_sp] with an integer
    from 15 to 50; every request [set_target_humidity] sends carries
    [hum_sp] with an integer from 40 to 100. A value outside the domain
    is refused with [TurkovAPIValueError] before anything is sent. *)
Theorem validated_commands_stay_in_domain (net : Network) (self : t) :
  (forall fan_speed,
     sends_only "fan_speed"
       (fun value => exists s, value = VStr s /\ s ∈ ["auto"; "0"; "1"; "2"; "3"])
       (set_fan_speed net self fan_speed)
     /\ (fan_speed ∉ ["auto"; "0"; "1"; "2"; "3"] ->
         set_fan_speed net self fan_speed
         = (Raise (TurkovAPIValueError "valid fan speed not specified"), [])))
  /\ (forall n,
        sends_only "temp_sp" (fun value => exists v, value = VInt v /\ 15 <= v <= 50)
          (set_target_temperature net self n)
        /\ (~ 15 <= n <= 50 ->
            set_target_temperature net self n
            = (Raise (TurkovAPIValueError "target temperature out of bounds"), [])))
  /\ (forall n,
        sends_only "hum_sp" (fun value => exists v, value = VInt v /\ 40 <= v <= 100)
          (set_target_humidity net self n)
        /\ (~ 40 <= n <= 100 ->
            set_target_humidity net self n
            = (Raise (TurkovAPIValueError "target humidity out of bounds"), []))).
Proof.
  split; [|split].
  - intros fan_speed. unfold set_fan_speed.
    destruct (existsb (String.eqb fan_speed) ["auto"; "0"; "1"; "2"; "3"]) eqn:E.
    + apply existsb_exists in E as (x & Hin & Hx). apply String.eqb_eq in Hx. subst x.
      split.
      * apply sends_only_set_value. exists fan_speed. split; [reflexivity|].
        apply list_elem_of_In. exact Hin.
      * intros Hout. destruct Hout. apply list_elem_of_In. exact Hin.
    + split; [apply Forall_nil_2 | reflexivity].
  - intros n. unfold set_target_temperature.
    destruct ((15 <=? n) && (n <=? 50)) eqn:E.
    + apply andb_true_iff in E as [E1 E2]. split.
      * apply sends_only_set_value. exists n. split; [reflexivity | lia].
      * intros Hout. lia.
    + split; [apply Forall_nil_2 | reflexivity].
  - intros n. unfold set_target_humidity.
    destruct ((40 <=? n) && (n <=? 100)) eqn:E.
    + apply andb_true_iff in E as [E1 E2]. split.
      * apply sends_only_set_value. exists n. split; [reflexivity | lia].
      * intros Hout. lia.
    + split; [apply Forall_nil_2 | reflexivity].
Qed.

Lemma is_mode (v : PyVal) (mode : string) : py_eq v (VStr mode) = true <-> v = VStr mode.
Proof.
  destruct v as [|b|n|x|s|l|l]; cbn; split; try discriminate.
  - intros H. apply String.eqb_eq in H. congruence.
  - intros [= ->]. apply String.eqb_refl.
Qed.

(** X3: [toggle_heater()] and [toggle_cooler()] with no argument flip,
    which [toggle()] does not. When the stored [selected_mode] is
    ["heating"], every request of [toggle_heater()] sets [mode] to ["0"]
    (off); with any other stored mode, the cooler running included, it
    sets [mode] to ["1"]. [toggle_cooler()] does the same with
    ["cooling"] and ["2"]. With an argument, the argument decides. *)
Theorem hvac_toggles_flip (net : Network) (self : t) :
  (getattr self "selected_mode" = VStr "heating" ->
     sends_only "mode" (fun value => value = VStr "0") (toggle_heater net self None))
  /\ (getattr self "selected_mode" <> VStr "heating" ->
        sends_only "mode" (fun value => value = VStr "1") (toggle_heater net self None))
  /\ (getattr self "selected_mode" = VStr "cooling" ->
        sends_only "mode" (fun value => value = VStr "0") (toggle_cooler net self None))
  /\ (getattr self "selected_mode" <> VStr "cooling" ->
        sends_only "mode" (fun value => value = VStr "2") (toggle_cooler net self None))
  /\ (forall b : bool,
        sends_only "mode" (fun value => value = VStr (if b then "1" else "0"))
          (toggle_heater net self (Some b))
        /\ sends_only "mode" (fun value => value = VStr (if b then "2" else "0"))
             (toggle_cooler net self (Some b))).
Proof.
  unfold toggle_heater, toggle_cooler, is_heater_on, is_cooler_on,
    turn_on_heater, turn_on_cooler, turn_off_hvac.
  split; [|split; [|split; [|split]]].
  - intros H. rewrite (proj2 (is_mode _ _) H). cbn [negb].
    apply sends_only_set_value. reflexivity.
  - intros H. destruct (py_eq (getattr self "selected_mode") (VStr "heating")) eqn:E.
    + apply is_mode in E. contradiction.
    + cbn [negb]. apply sends_only_set_value. reflexivity.
  - intros H. rewrite (proj2 (is_mode _ _) H). cbn [negb].
    apply sends_only_set_value. reflexivity.
  - intros H. destruct (py_eq (getattr self "selected_mode") (VStr "cooling")) eqn:E.
    + apply is_mode in E. contradiction.
    + cbn [negb]. apply sends_only_set_value. reflexivity.
  - intros b. destruct b; split; apply sends_only_set_value; reflexivity.
Qed.


Lemma writes_reconciled_key_set_value (net : Network) (self : t) (key : string)
    (value : PyVal) :
  (exists attribute_name c,
     (attribute_name, (key, c)) ∈ ATTRIBUTE_KEY_MAPPING /\ c <> conv_False) ->
  Forall writes_reconciled_key (set_value net self key value).2.
Proof.
  intros (a & c & Hin & Hc).
  eapply Forall_impl; [apply set_value_requests|].
  intros r Hr. exists key, value, a, c. split; [exact Hr | split; [exact Hin | exact Hc]].
Qed.

(** X5: whatever command is called, with whatever arguments, on whatever
    device and network, every request it sends goes to a command endpoint
    (never to a state endpoint) and writes a wire key from which
    [update_state] reads an attribute; it sends at most two requests, the
    local one and the cloud one. *)
Theorem commands_write_reconciled_keys (net : Network) (self : t) (c : command) :
  Forall writes_reconciled_key (run_command net self c).2
  /\ (length (run_command net self c).2 <= 2)%nat.
Proof.
  assert (Hlen : forall key value, (length (set_value net self key value).2 <= 2)%nat).
  { intros key value. unfold set_value, set_value_local, session.
    destruct (truthy_str (host self)), (_session self), (_api self); simpl;
      try (destruct (local_command net key value) as [data|e]; simpl;
           try destruct (is_transport_or_decode_error e); simpl); lia. }
  split.
  - destruct c; cbn [run_command];
      unfold toggle, turn_on, turn_off, set_fan_speed, set_target_temperature,
        set_target_humidity, toggle_heater, toggle_cooler, turn_off_hvac,
        turn_on_heater, turn_on_cooler, turn_on_fireplace, turn_off_fireplace,
        toggle_fireplace, turn_on_humidifier, turn_off_humidifier, toggle_humidifier,
        turn_on_first_relay, turn_off_first_relay, toggle_first_relay,
        turn_on_second_relay, turn_off_second_relay, toggle_second_relay,
        set_first_relay_name, set_second_relay_name;
      repeat match goal with
             | |- context [if ?b then _ else _] => destruct b
             end;
      first [ apply Forall_nil_2
            | apply writes_reconciled_key_set_value;
              first [ exists "is_on", conv_None; split; [in_mapping | discriminate]
                    | exists "fan_speed", conv_str; split; [in_mapping | discriminate]
                    | exists "target_temperature", conv_float;
                      split; [in_mapping | discriminate]
                    | exists "target_humidity", conv_int; split; [in_mapping | discriminate]
                    | exists "selected_mode", conv_str; split; [in_mapping | discriminate]
                    | exists "fireplace", conv_bool; split; [in_mapping | discriminate]
                    | exists "humidifier", conv_bool; split; [in_mapping | discriminate]
                    | exists "first_relay", conv_bool; split; [in_mapping | discriminate]
                    | exists "first_relay_name", conv_str;
                      split; [in_mapping | discriminate]
                    | exists "second_relay", conv_bool; split; [in_mapping | discriminate]
                    | exists "second_relay_name", conv_str;
                      split; [in_mapping | discriminate] ] ].
  - destruct c; cbn [run_command];
      unfold toggle, turn_on, turn_off, set_fan_speed, set_target_temperature,
        set_target_humidity, toggle_heater, toggle_cooler, turn_off_hvac,
        turn_on_heater, turn_on_cooler, turn_on_fireplace, turn_off_fireplace,
        toggle_fireplace, turn_on_humidifier, turn_off_humidifier, toggle_humidifier,
        turn_on_first_relay, turn_off_first_relay, toggle_first_relay,
        turn_on_second_relay, turn_off_second_relay, toggle_second_relay,
        set_first_relay_name, set_second_relay_name;
      repeat match goal with
             | |- context [if ?b then _ else _] => destruct b
             end;
      first [ apply Hlen | cbn; lia ].
Qed.

End Commands.

(** X1, witness: a device with a host and an API reference whose local
    endpoint times out sends the command locally, then through the
    cloud. *)
Lemma set_value_local_then_cloud_witness :
  TurkovDevice.set_value (Examples.cloud_answers VNone) Examples.both_device "on" (VStr "true")
  = (Ok VNone,
     [TurkovDevice.LocalCommand "on" (VStr "true");
      TurkovDevice.CloudCommand (Some "dev1") "on" (VStr "true")]).
Proof.
  exact (proj1 (proj1 (proj2 (proj2
           (set_value_local_then_cloud (Examples.cloud_answers VNone)
              Examples.both_device "on" (VStr "true") eq_refl)))
           eq_refl TimeoutError eq_refl eq_refl) eq_refl).
Defined.

(** ** Reconciliation: what a call leaves behind *)

Section StateFrame.

Import TurkovDevice.

Variable B : Builtins.

Lemma image_url_is_mapped : "image_url" ∈ ATTRIBUTE_KEY_MAPPING.*1.
Proof. apply list_elem_of_In. vm_compute. tauto. Qed.

(** The generic pass touches attributes only, and only those its mapping
    names, however it ends. *)
Lemma generic_pass_frame (mark : bool) (device_data : PyVal)
    (mapping : list (string * (string * converter))) :
  forall (changed : gset string) (self : t) (r : result (gset string)) (self' : t),
  generic_pass B mark device_data mapping changed self = (r, self') ->
  self' = with_attrs self (attrs self')
  /\ (forall a, a ∉ mapping.*1 -> getattr self' a = getattr self a).
Proof.
  induction mapping as [|[a [key c]] rest IH]; intros changed self r self' Hrun.
  - simpl in Hrun. injection Hrun as <- <-.
    split; [symmetry; apply with_attrs_id | reflexivity].
  - rewrite generic_pass_cons in Hrun.
    assert (Hkeep : forall changed1,
              generic_pass B mark device_data rest changed1 self = (r, self') ->
              self' = with_attrs self (attrs self')
              /\ (forall a', a' ∉ ((a, (key, c)) :: rest).*1 ->
                    getattr self' a' = getattr self a')).
    { intros changed1 H. destruct (IH _ _ _ _ H) as [Hid Hout].
      split; [exact Hid|]. intros a' Ha'. apply Hout.
      rewrite fmap_cons, not_elem_of_cons in Ha'. apply Ha'. }
    destruct (is_skipped c); [exact (Hkeep _ Hrun)|].
    destruct (wire_value B mark device_data key c) as [[value|]|e].
    + destruct (py_ne value (getattr self a)); [|exact (Hkeep _ Hrun)].
      destruct (IH _ _ _ _ Hrun) as [Hid Hout].
      split; [rewrite Hid; reflexivity|].
      intros a' Ha'. rewrite fmap_cons, not_elem_of_cons in Ha'. destruct Ha' as [Hne Ha'].
      rewrite (Hout a' Ha'), getattr_setattr.
      destruct (decide (a = a')) as [E|_]; [|reflexivity].
      simpl in Hne. congruence.
    + exact (Hkeep _ Hrun).
    + injection Hrun as <- <-.
      split; [symmetry; apply with_attrs_id | reflexivity].
Qed.

(** A pass that raises does so in the turn of one of its entries. *)
Lemma generic_pass_raises (mark : bool) (device_data : PyVal)
    (mapping : list (string * (string * converter))) :
  forall (changed : gset string) (self : t) (e : exn) (self' : t),
  generic_pass B mark device_data mapping changed self = (Raise e, self') ->
  exists a key c,
    (a, (key, c)) ∈ mapping /\ c <> conv_False
    /\ wire_value B mark device_data key c = Raise e.
Proof.
  induction mapping as [|[a [key c]] rest IH]; intros changed self e self' Hrun.
  - discriminate Hrun.
  - rewrite generic_pass_cons in Hrun.
    assert (Hrest : forall changed1 self1,
              generic_pass B mark device_data rest changed1 self1 = (Raise e, self') ->
              exists a0 key0 c0,
                (a0, (key0, c0)) ∈ (a, (key, c)) :: rest /\ c0 <> conv_False
                /\ wire_value B mark device_data key0 c0 = Raise e).
    { intros changed1 self1 H. destruct (IH _ _ _ _ H) as (a0 & key0 & c0 & Hin & Hc & Hw).
      exists a0, key0, c0. split; [apply elem_of_cons; right; exact Hin|].
      split; [exact Hc | exact Hw]. }
    destruct (is_skipped c) eqn:Hc; [exact (Hrest _ _ Hrun)|].
    destruct (wire_value B mark device_data key c) as [[value|]|e0] eqn:Hw.
    + destruct (py_ne value (getattr self a)); exact (Hrest _ _ Hrun).
    + exact (Hrest _ _ Hrun).
    + injection Hrun as -> _. exists a, key, c.
      split; [apply elem_of_cons; left; reflexivity|].
      split; [apply is_skipped_false; exact Hc | exact Hw].
Qed.

(** The pass over a mapping in two parts. *)
Lemma generic_pass_app (mark : bool) (device_data : PyVal)
    (pre post : list (string * (string * converter))) :
  forall (changed : gset string) (self : t),
  generic_pass B mark device_data (pre ++ post) changed self
  = match generic_pass B mark device_data pre changed self with
    | (Ok changed1, self1) => generic_pass B mark device_data post changed1 self1
    | (Raise e, self1) => (Raise e, self1)
    end.
Proof.
  induction pre as [|[a [key c]] rest IH]; intros changed self; [reflexivity|].
  rewrite <- app_comm_cons, !generic_pass_cons.
  destruct (is_skipped c); [apply IH|].
  destruct (wire_value B mark device_data key c) as [[value|]|e]; [|apply IH|reflexivity].
  destruct (py_ne value (getattr self a)); apply IH.
Qed.

(** What raises in a turn is a converter, or the subscript of a payload
    that is not an object. *)
Lemma wire_value_raises (mark : bool) (device_data : PyVal) (key : string)
    (c : converter) (e : exn) :
  wire_value B mark device_data key c = Raise e -> is_conversion_error e = true.
Proof.
  unfold wire_value, py_getitem.
  destruct device_data as [|b|n|x|s|l|d]; try (intros [= <-]; reflexivity).
  destruct (dict_get key d) as [value|].
  - destruct c; cbn [convert bind _float_less py_float py_int]; try discriminate.
    + destruct value as [|b|n|x|s|l|d']; cbn [bind py_float];
        try discriminate; try (intros [= <-]; reflexivity).
      * unfold float_of_Z. destruct (is_infinity _); cbn [bind];
          [intros [= <-]; reflexivity | discriminate].
      * destruct (float_of_str B s); cbn [bind];
          [discriminate | intros [= <-]; reflexivity].
    + destruct value as [|b|n|x|s|l|d']; cbn [bind py_int];
        try discriminate; try (intros [= <-]; reflexivity).
      * destruct (Prim2SF x); cbn [bind];
          try discriminate; intros [= <-]; reflexivity.
      * destruct (int_of_str B s); cbn [bind];
          [discriminate | intros [= <-]; reflexivity].
    + unfold _float_less.
      destruct value as [|b|n|x|s|l|d']; cbn [bind py_float];
        try discriminate; try (intros [= <-]; reflexivity).
      * unfold float_of_Z. destruct (is_infinity _); cbn [bind];
          [intros [= <-]; reflexivity | discriminate].
      * destruct (float_of_str B s); cbn [bind];
          [discriminate | intros [= <-]; reflexivity].
  - destruct (negb mark); discriminate.
Qed.

(** A generic pass that returns has read an object. *)
Lemma generic_pass_reads_object (mark : bool) (device_data : PyVal)
    (changed changed' : gset string) (self self' : t) :
  generic_pass B mark device_data ATTRIBUTE_KEY_MAPPING changed self = (Ok changed', self') ->
  convertible B mark device_data /\ exists d, device_data = VDict d.
Proof.
  intros Hg.
  destruct (generic_pass_spec B mark device_data _ mapping_names_distinct _ _ _ _ Hg)
    as (_ & Hin & _).
  assert (Hconv : convertible B mark device_data).
  { intros e He. exact (proj2 (proj2 (Hin e He))). }
  split; [exact Hconv | exact (convertible_dict B mark device_data Hconv)].
Qed.

(** However [update_state] ends, the device it leaves differs from the
    one it found in attributes of the mapping only. *)
Lemma update_state_touches_mapped (net : Network) (self : t) (mark force : bool)
    (r : result (gset string)) (self' : t) (sent : list request) :
  update_state B net self mark force = (r, self', sent) ->
  self' = with_attrs self (attrs self')
  /\ (forall a, a ∉ ATTRIBUTE_KEY_MAPPING.*1 -> getattr self' a = getattr self a).
Proof.
  assert (Hself : self = with_attrs self (attrs self)
                  /\ (forall a, a ∉ ATTRIBUTE_KEY_MAPPING.*1 -> getattr self a = getattr self a)).
  { split; [symmetry; apply with_attrs_id | reflexivity]. }
  unfold update_state, apply_state.
  destruct (get_state net self force) as [[device_data|e] sent0].
  - destruct (is_none device_data); [intros [= <- <- <-]; exact Hself|].
    destruct (generic_pass B mark device_data ATTRIBUTE_KEY_MAPPING ∅ self)
      as [[changed1|e] self1] eqn:Hg;
      destruct (generic_pass_frame mark device_data _ _ _ _ _ Hg) as [Hid Hout].
    + destruct (resolve_image_url B self1 device_data) as [image_url|e].
      * destruct (image_url_changed mark self1 image_url); cbn [set_attribute].
        -- intros [= <- <- <-]. split; [rewrite Hid at 1; reflexivity|].
           intros a Ha. rewrite getattr_setattr.
           destruct (decide ("image_url" = a)) as [<-|_];
             [destruct (Ha image_url_is_mapped) | exact (Hout a Ha)].
        -- intros [= <- <- <-]. split; [exact Hid | exact Hout].
      * intros [= <- <- <-]. split; [exact Hid | exact Hout].
    + intros [= <- <- <-]. split; [exact Hid | exact Hout].
  - intros [= <- <- <-]. exact Hself.
Qed.

Lemma entry_update_differs (mark : bool) (device_data : PyVal) (self : t)
    (e : string * (string * converter)) (v : PyVal) :
  entry_update B mark device_data self e = Some v -> py_ne v (getattr self e.1) = true.
Proof.
  unfold entry_update. destruct (is_skipped e.2.2); [discriminate|].
  destruct (wire_value B mark device_data e.2.1 e.2.2) as [[value|]|e0]; try discriminate.
  destruct (py_ne value (getattr self e.1)) eqn:E; [|discriminate].
  intros [= <-]. exact E.
Qed.

(** A call that returns: the value every attribute ends with, and the
    names recorded. *)
Lemma update_state_values (net : Network) (self : t) (mark force : bool)
    (changes : gset string) (self' : t) (sent : list request) :
  update_state B net self mark force = (Ok changes, self', sent) ->
  exists device_data,
    get_state net self force = (Ok device_data, sent)
    /\ (forall a key c, (a, (key, c)) ∈ ATTRIBUTE_KEY_MAPPING -> c <> conv_False ->
          getattr self' a
          = default (getattr self a) (entry_update B mark device_data self (a, (key, c)))
          /\ (a ∈ changes <->
              is_Some (entry_update B mark device_data self (a, (key, c)))))
    /\ (forall a, a ∈ changes -> a ∈ ATTRIBUTE_KEY_MAPPING.*1)
    /\ (forall a, a ∉ changes -> getattr self' a = getattr self a).
Proof.
  intros Hrun.
  destruct (update_state_ok B _ _ _ _ _ _ _ Hrun) as (device_data & Hfetch & Happly).
  exists device_data. split; [exact Hfetch|].
  destruct (is_none device_data) eqn:Hd.
  { destruct device_data; try discriminate.
    unfold apply_state in Happly. cbn [is_none] in Happly. injection Happly as <- <-.
    split; [|split].
    - intros a key c _ Hc. unfold entry_update. cbn [fst snd].
      rewrite (proj2 (is_skipped_false c) Hc). cbn.
      split; [reflexivity|].
      split; [intros H; destruct (not_elem_of_empty (C := gset string) _ H)
             | intros [x Hx]; discriminate Hx].
    - intros a H. destruct (not_elem_of_empty (C := gset string) _ H).
    - reflexivity. }
  destruct (apply_state_spec B mark device_data self changes self' Hd Happly)
    as (changed1 & self1 & image_url & Hg & Hres & Hstored & Hnot & Hfinal).
  destruct (generic_pass_spec B mark device_data _ mapping_names_distinct _ _ _ _ Hg)
    as (Hid & Hin & Hout).
  assert (Hmem : forall a, a <> "image_url" -> (a ∈ changes <-> a ∈ changed1)).
  { intros a Ha. destruct (image_url_changed mark self image_url);
      injection Hfinal as -> ->; [|reflexivity].
    rewrite elem_of_union, elem_of_singleton. tauto. }
  assert (Hval : forall a, a <> "image_url" -> getattr self' a = getattr self1 a).
  { intros a Ha. destruct (image_url_changed mark self image_url);
      injection Hfinal as -> ->; [|reflexivity].
    rewrite getattr_setattr. destruct (decide ("image_url" = a)); [congruence | reflexivity]. }
  assert (Hturn : forall a key c, (a, (key, c)) ∈ ATTRIBUTE_KEY_MAPPING -> c <> conv_False ->
            a <> "image_url"
            /\ getattr self' a
               = default (getattr self a) (entry_update B mark device_data self (a, (key, c)))
            /\ (a ∈ changes <->
                is_Some (entry_update B mark device_data self (a, (key, c))))).
  { intros a key c He Hc. destruct (Hin _ He) as (Hv & Hm & _). cbn [fst] in Hv, Hm.
    assert (Hne : a <> "image_url").
    { intros ->. apply is_skipped_false in Hc.
      pose proof (proj2 (mapping_skips_image_url _ He) eq_refl) as Hs.
      cbn [snd] in Hs. congruence. }
    split; [exact Hne|]. split; [rewrite (Hval a Hne); exact Hv|].
    rewrite (Hmem a Hne), Hm.
    split; [intros [H | H]; [|exact H] | intros H; right; exact H].
    destruct (not_elem_of_empty (C := gset string) _ H). }
  split; [|split].
  - intros a key c He Hc. destruct (Hturn a key c He Hc) as (_ & Hv & Hm).
    split; [exact Hv | exact Hm].
  - intros a Ha. destruct (decide (a = "image_url")) as [->|Hne];
      [exact image_url_is_mapped|].
    destruct (decide (a ∈ ATTRIBUTE_KEY_MAPPING.*1)) as [Hin'|Hnin]; [exact Hin'|].
    apply (Hmem a Hne) in Ha. apply (proj2 (Hout a Hnin)) in Ha.
    destruct (not_elem_of_empty (C := gset string) _ Ha).
  - intros a Ha. destruct (decide (a = "image_url")) as [->|Hne].
    + destruct (image_url_changed mark self image_url); injection Hfinal as -> ->.
      * destruct Ha. apply elem_of_union. left. apply elem_of_singleton. reflexivity.
      * exact Hstored.
    + rewrite (Hval a Hne).
      destruct (decide (a ∈ ATTRIBUTE_KEY_MAPPING.*1)) as [Hin'|Hnin];
        [|exact (proj1 (Hout a Hnin))].
      apply list_elem_of_fmap in Hin' as ([a0 [key c]] & -> & He). cbn [fst] in *.
      destruct (Hin _ He) as (Hv & Hm & _). cbn [fst] in Hv, Hm.
      rewrite Hv.
      destruct (entry_update B mark device_data self (a0, (key, c))) as [v|] eqn:Hu;
        [|reflexivity].
      destruct Ha. apply (Hmem a0 Hne), Hm. right. eexists. reflexivity.
Qed.

End StateFrame.

Section ReconciliationOutcome.

Import TurkovDevice.

Variable B : Builtins.

(** X6: however [update_state] ends, normally or with an exception, it
    sends what [get_state] sends and nothing more, and it leaves the
    identity of the device (id, API reference, session, host, port) and
    its descriptive fields (serial number, pin, type, name, firmware
    version) as they were: only attributes named in
    [ATTRIBUTE_KEY_MAPPING] can differ. When it returns, every name in
    the change set is a name of the mapping, and an attribute that is not
    in the change set holds the value it held before. When the fetch
    fails, or reports no change ([None]), the device is left untouched. *)
Theorem update_state_frame (net : Network) (self : t) (mark force : bool)
    (r : result (gset string)) (self' : t) (sent : list request)
    (Hrun : update_state B net self mark force = (r, self', sent)) :
  self' = with_attrs self (attrs self')
  /\ sent = (get_state net self force).2
  /\ (forall a, a ∉ ATTRIBUTE_KEY_MAPPING.*1 -> getattr self' a = getattr self a)
  /\ (forall changes, r = Ok changes ->
        (forall a, a ∈ changes -> a ∈ ATTRIBUTE_KEY_MAPPING.*1)
        /\ (forall a, a ∉ changes -> getattr self' a = getattr self a))
  /\ (forall e, (get_state net self force).1 = Raise e -> r = Raise e /\ self' = self)
  /\ ((get_state net self force).1 = Ok VNone -> r = Ok ∅ /\ self' = self).
Proof.
  destruct (update_state_touches_mapped B net self mark force r self' sent Hrun)
    as [Hid Hout].
  split; [exact Hid|]. split; [|split; [exact Hout|split; [|split]]].
  - unfold update_state in Hrun.
    destruct (get_state net self force) as [[device_data|e] sent0];
      apply (f_equal snd) in Hrun; symmetry; exact Hrun.
  - intros changes ->.
    destruct (update_state_values B net self mark force changes self' sent Hrun)
      as (device_data & _ & _ & Hnames & Hkeep).
    split; [exact Hnames | exact Hkeep].
  - intros e He. unfold update_state in Hrun.
    destruct (get_state net self force) as [[device_data|e0] sent0];
      cbn [fst] in He; [discriminate He|].
    injection He as ->. injection Hrun as <- <- _. split; reflexivity.
  - intros Hnone. unfold update_state, apply_state in Hrun.
    destruct (get_state net self force) as [[device_data|e0] sent0];
      cbn [fst] in Hnone; [|discriminate Hnone].
    injection Hnone as ->. cbn [is_none] in Hrun.
    injection Hrun as <- <- _. split; reflexivity.
Qed.

(** X7: once the state has been fetched, [update_state] can fail in one
    way only: a turn of the generic loop raises, in a converter ([float],
    [int], [_float_less]) or in the subscript of a payload that is not an
    object, and the exception, a [TypeError], a [ValueError] or an
    [OverflowError], comes out as it is. So the call returns a change set
    exactly when the fetch reports no change or every value the mapping
    reads converts; a [null] under a numeric key, say, makes it raise,
    while a missing key does not. *)
Theorem update_state_fails_in_conversion (net : Network) (self : t) (mark force : bool)
    (device_data : PyVal) (sent : list request)
    (Hfetch : get_state net self force = (Ok device_data, sent)) :
  (forall e, (update_state B net self mark force).1.1 = Raise e ->
     is_conversion_error e = true
     /\ is_none device_data = false
     /\ fails_to_convert B mark device_data e)
  /\ ((exists changes, (update_state B net self mark force).1.1 = Ok changes)
      <-> is_none device_data = true \/ convertible B mark device_data).
Proof.
  split.
  - intros e. unfold update_state, apply_state. rewrite Hfetch. cbn [fst].
    destruct (is_none device_data); [discriminate|].
    destruct (generic_pass B mark device_data ATTRIBUTE_KEY_MAPPING ∅ self)
      as [[changed1|e1] self1] eqn:Hg.
    + destruct (generic_pass_reads_object B mark device_data _ _ _ _ Hg) as [_ [d ->]].
      destruct (resolve_image_url_returns B self1 d) as [image_url ->].
      destruct (image_url_changed mark self1 image_url); discriminate.
    + cbn [fst]. intros [= ->].
      destruct (generic_pass_raises B mark device_data _ _ _ _ _ Hg)
        as (a & key & c & Hin & Hc & Hw).
      split; [exact (wire_value_raises B mark device_data key c e Hw)|].
      split; [reflexivity|]. exists a, key, c. split; [exact Hin | split; [exact Hc | exact Hw]].
  - split.
    + intros [changes Hok]. unfold update_state, apply_state in Hok.
      rewrite Hfetch in Hok. cbn [fst] in Hok.
      destruct (is_none device_data); [left; reflexivity|]. right.
      destruct (generic_pass B mark device_data ATTRIBUTE_KEY_MAPPING ∅ self)
        as [[changed1|e1] self1] eqn:Hg; [|discriminate Hok].
      exact (proj1 (generic_pass_reads_object B mark device_data _ _ _ _ Hg)).
    + intros Hconv.
      destruct (update_state_returns B net self mark force device_data sent Hfetch Hconv)
        as (changes & self' & Hrun).
      exists changes. rewrite Hrun. reflexivity.
Qed.

(** X8: [update_state] is not atomic. When the turn of one attribute
    raises, the call raises the same exception and leaves the device with
    every assignment of the turns before it: an attribute that comes
    earlier in [ATTRIBUTE_KEY_MAPPING] holds its new value, one that
    comes later (or is not in the mapping) holds its old one, and no
    change set is returned to say which. *)
Theorem update_state_keeps_earlier_assignments (net : Network) (self : t)
    (mark force : bool) (device_data : PyVal) (sent : list request)
    (pre post : list (string * (string * converter)))
    (a key : string) (c : converter) (ex : exn)
    (Hfetch : get_state net self force = (Ok device_data, sent))
    (Hdata : is_none device_data = false)
    (Hsplit : ATTRIBUTE_KEY_MAPPING = pre ++ (a, (key, c)) :: post)
    (Hc : c <> conv_False)
    (Hfail : wire_value B mark device_data key c = Raise ex)
    (Hpre : forall e, e ∈ pre -> entry_passes B mark device_data e) :
  exists self',
    update_state B net self mark force = (Raise ex, self', sent)
    /\ (forall e, e ∈ pre ->
          getattr self' e.1
          = default (getattr self e.1) (entry_update B mark device_data self e))
    /\ (forall a', a' ∉ pre.*1 -> getattr self' a' = getattr self a').
Proof.
  destruct (generic_pass_returns B mark device_data pre Hpre ∅ self)
    as (changed1 & self1 & Hg).
  assert (Hnd : NoDup pre.*1).
  { pose proof mapping_names_distinct as H. rewrite Hsplit, fmap_app in H.
    exact (proj1 (proj1 (NoDup_app _ _) H)). }
  destruct (generic_pass_spec B mark device_data pre Hnd _ _ _ _ Hg) as (_ & Hin & Hout).
  exists self1. split; [|split].
  - unfold update_state, apply_state. rewrite Hfetch, Hdata, Hsplit, generic_pass_app, Hg.
    rewrite generic_pass_cons, (proj2 (is_skipped_false c) Hc), Hfail. reflexivity.
  - intros e He. exact (proj1 (Hin e He)).
  - intros a' Ha'. exact (proj1 (Hout a' Ha')).
Qed.

End ReconciliationOutcome.

(** X6, witness: a device that learns it is on changes in [is_on] only. *)
Lemma update_state_frame_witness :
  Examples.cloud_device {[ "is_on" := VBool true ]}
  = with_attrs (Examples.cloud_device ∅) {[ "is_on" := VBool true ]}
  /\ forall a, a ∉ ({[ "is_on" ]} : gset string) ->
       TurkovDevice.getattr (Examples.cloud_device {[ "is_on" := VBool true ]}) a
       = TurkovDevice.getattr (Examples.cloud_device ∅) a.
Proof.
  assert (Hrun : TurkovDevice.update_state Examples.example_builtins
                   (Examples.cloud_answers Examples.payload_on) (Examples.cloud_device ∅)
                   false false
                 = (Ok {[ "is_on" ]}, Examples.cloud_device {[ "is_on" := VBool true ]},
                    [TurkovDevice.CloudState (Some "dev1") false])).
  { vm_compute. reflexivity. }
  destruct (update_state_frame Examples.example_builtins _ _ _ _ _ _ _ Hrun)
    as (Hid & _ & _ & Hok & _).
  split; [exact Hid | exact (proj2 (Hok _ eq_refl))].
Defined.

(** X7, witness: a [null] target temperature makes the call raise
    [TypeError], which the turn of an attribute raised. *)
Lemma update_state_fails_in_conversion_witness :
  is_conversion_error TypeError = true
  /\ is_none Examples.payload_null = false
  /\ fails_to_convert Examples.example_builtins false Examples.payload_null TypeError.
Proof.
  exact (proj1 (update_state_fails_in_conversion Examples.example_builtins
                  (Examples.cloud_answers Examples.payload_null) (Examples.cloud_device ∅)
                  false false Examples.payload_null
                  [TurkovDevice.CloudState (Some "dev1") false] eq_refl)
           TypeError eq_refl).
Defined.

(** X8, witness: the payload reports the device on and a [null] target
    temperature; the call raises [TypeError] and the device is on. *)
Lemma update_state_keeps_earlier_assignments_witness :
  exists self',
    TurkovDevice.update_state Examples.example_builtins
      (Examples.cloud_answers Examples.payload_null) (Examples.cloud_device ∅) false false
    = (Raise TypeError, self', [TurkovDevice.CloudState (Some "dev1") false])
    /\ TurkovDevice.getattr self' "is_on" = VBool true.
Proof.
  destruct (update_state_keeps_earlier_assignments Examples.example_builtins
              (Examples.cloud_answers Examples.payload_null) (Examples.cloud_device ∅)
              false false Examples.payload_null
              [TurkovDevice.CloudState (Some "dev1") false]
              (take 3 TurkovDevice.ATTRIBUTE_KEY_MAPPING)
              (drop 4 TurkovDevice.ATTRIBUTE_KEY_MAPPING)
              "target_temperature" "temp_sp" TurkovDevice.conv_float TypeError
              eq_refl eq_refl eq_refl)
    as (self' & Hrun & Hpre & _).
  - discriminate.
  - reflexivity.
  - intros e He _. cbn [take TurkovDevice.ATTRIBUTE_KEY_MAPPING] in He.
    repeat (apply elem_of_cons in He as [He|He]; [subst; eexists; reflexivity|]).
    destruct (not_elem_of_nil _ He).
  - exists self'. split; [exact Hrun|].
    apply (Hpre ("is_on", ("on", TurkovDevice.conv_None))).
    apply elem_of_cons. left. reflexivity.
Defined.

(** ** Sensors *)

Section Sensors.

Import TurkovDevice Sensor.

Lemma is_none_false (v : PyVal) : is_none v = false <-> v <> VNone.
Proof. destruct v; cbn; split; congruence. Qed.

Lemma sensor_table_entry (k : string) (d : TurkovSensorEntityDescription) :
  (k, d) ∈ DYNAMIC_SENSOR_TYPES ->
  k = key d
  /\ exists wire c, (k, (wire, c)) ∈ ATTRIBUTE_KEY_MAPPING /\ c <> conv_False.
Proof.
  assert (H : Forall (fun e : string * TurkovSensorEntityDescription =>
                        e.1 = key e.2
                        /\ exists wire c,
                             (e.1, (wire, c)) ∈ ATTRIBUTE_KEY_MAPPING /\ c <> conv_False)
                DYNAMIC_SENSOR_TYPES).
  { unfold DYNAMIC_SENSOR_TYPES.
    repeat (apply Forall_cons; split;
            [split; [reflexivity | eexists _, _; split; [in_mapping | discriminate]]|]).
    apply Forall_nil_2. }
  intros Hin. exact (proj1 (Forall_forall _ _) H (k, d) Hin).
Qed.

Lemma sensor_offered (device : t) (d : TurkovSensorEntityDescription) :
  d ∈ _get_dynamic_sensor_descriptions device
  <-> (key d, d) ∈ DYNAMIC_SENSOR_TYPES /\ getattr device (key d) <> VNone.
Proof.
  unfold _get_dynamic_sensor_descriptions. rewrite list_elem_of_fmap. split.
  - intros ([k d'] & Hd & Hin). cbn [snd] in Hd. subst d'.
    apply list_elem_of_In, filter_In in Hin as [Hin Hf]. apply list_elem_of_In in Hin.
    destruct (sensor_table_entry k d Hin) as [-> _]. cbn [fst] in Hf.
    split; [exact Hin|]. apply is_none_false. apply negb_true_iff. exact Hf.
  - intros [Hin Hv]. exists (key d, d). split; [reflexivity|].
    apply list_elem_of_In, filter_In. split; [apply list_elem_of_In; exact Hin|].
    cbn [fst]. apply negb_true_iff, is_none_false. exact Hv.
Qed.

(** X9: [_get_dynamic_sensor_descriptions] offers a sensor exactly for
    the descriptions of [DYNAMIC_SENSOR_TYPES] whose attribute the device
    holds with a value other than [None], so an attribute that holds
    [False], [0] or an empty string has its sensor. Every description is
    filed under its own key, and every key is an attribute that
    [update_state] reads from the device state (none is [image_url] or a
    name outside [ATTRIBUTE_KEY_MAPPING]): no sensor is bound to an
    attribute that is never updated. *)
Theorem sensors_read_reconciled_attributes :
  (forall device d,
     d ∈ _get_dynamic_sensor_descriptions device
     <-> (key d, d) ∈ DYNAMIC_SENSOR_TYPES /\ getattr device (key d) <> VNone)
  /\ (forall k d, (k, d) ∈ DYNAMIC_SENSOR_TYPES ->
        k = key d
        /\ exists wire c, (k, (wire, c)) ∈ ATTRIBUTE_KEY_MAPPING /\ c <> conv_False).
Proof. split; [exact sensor_offered | exact sensor_table_entry]. Qed.

(** X10: for a device that holds no attribute value yet (as created by
    the synchronisation of the device list), the sensors offered after a
    first [update_state] that returns are exactly those of the attributes
    in the change set it returned. *)
Theorem first_update_decides_sensors (B : Builtins) (net : Network) (self : t)
    (mark force : bool) (changes : gset string) (self' : t) (sent : list request)
    (Hblank : is_blank self)
    (Hrun : update_state B net self mark force = (Ok changes, self', sent)) :
  forall d,
    d ∈ _get_dynamic_sensor_descriptions self'
    <-> (key d, d) ∈ DYNAMIC_SENSOR_TYPES /\ key d ∈ changes.
Proof.
  intros d. rewrite sensor_offered.
  destruct (update_state_values B net self mark force changes self' sent Hrun)
    as (device_data & _ & Hturn & _ & _).
  split; intros [Hin H]; (split; [exact Hin|]);
    destruct (sensor_table_entry _ _ Hin) as (_ & wire & c & Hmap & Hc);
    destruct (Hturn _ _ _ Hmap Hc) as [Hv Hm];
    rewrite (Hblank (key d)) in Hv;
    destruct (entry_update B mark device_data self (key d, (wire, c))) as [v|] eqn:Hu.
  - apply Hm. eexists. reflexivity.
  - destruct H. exact Hv.
  - rewrite Hv. change (default VNone (Some v)) with v. intros ->.
    apply entry_update_differs in Hu. cbn [fst] in Hu. rewrite (Hblank (key d)) in Hu.
    discriminate Hu.
  - apply Hm in H. destruct H as [x Hx]. discriminate Hx.
Qed.

End Sensors.

(** X10, witness: a new device that reports a fan speed gets the fan
    speed sensor. *)
Lemma first_update_decides_sensors_witness :
  Examples.fan_speed_sensor
    ∈ Sensor._get_dynamic_sensor_descriptions
        (Examples.cloud_device {[ "fan_speed" := VStr "2" ]})
  <-> (Sensor.key Examples.fan_speed_sensor, Examples.fan_speed_sensor)
        ∈ Sensor.DYNAMIC_SENSOR_TYPES
      /\ Sensor.key Examples.fan_speed_sensor ∈ ({[ "fan_speed" ]} : gset string).
Proof.
  assert (Hrun : TurkovDevice.update_state Examples.example_builtins
                   (Examples.cloud_answers Examples.payload_fan) (Examples.cloud_device ∅)
                   false false
                 = (Ok {[ "fan_speed" ]},
                    Examples.cloud_device {[ "fan_speed" := VStr "2" ]},
                    [TurkovDevice.CloudState (Some "dev1") false])).
  { vm_compute. reflexivity. }
  assert (Hblank : is_blank (Examples.cloud_device ∅)).
  { intros a. reflexivity. }
  exact (first_update_decides_sensors Examples.example_builtins _ _ _ _ _ _ _
           Hblank Hrun Examples.fan_speed_sensor).
Defined.

(** ** Authentication: fallback and what it stores *)

Section Authentication.

Import TurkovAPI.

Variable B : Builtins.

Lemma seconds_left_in_range (n : Z) : in_float_range n -> seconds_left n = Ok tt.
Proof. intros [x H]. unfold seconds_left. rewrite H. reflexivity. Qed.

Lemma process_auth_request_grants (self : t) (data : PyVal) (now : Q)
    (a : PyVal) (ae : Z) (r : PyVal) (re : Z) :
  extract_auth_data B data = Ok (a, ae, r, re) ->
  truthy a || truthy r = true ->
  Z_lt_Q ae now = false -> Z_lt_Q re now = false ->
  in_float_range ae -> in_float_range re ->
  _process_auth_request B self (Ok data) now = (Ok tt, set_tokens self a ae r re).
Proof.
  intros He Ht Ha Hr Hae Hre. unfold _process_auth_request.
  rewrite He, Ht, Ha, Hr, (seconds_left_in_range ae Hae), (seconds_left_in_range re Hre).
  reflexivity.
Qed.

Lemma process_auth_request_accepts (self : t) (json : result PyVal) (now : Q) :
  (_process_auth_request B self json now).1 = Ok tt ->
  exists data a ae r re,
    json = Ok data
    /\ extract_auth_data B data = Ok (a, ae, r, re)
    /\ truthy a || truthy r = true
    /\ Z_lt_Q ae now = false /\ Z_lt_Q re now = false
    /\ (_process_auth_request B self json now).2 = set_tokens self a ae r re.
Proof.
  unfold _process_auth_request.
  destruct json as [data|e0].
  - destruct (extract_auth_data B data) as [[[[a ae] r] re]|e1] eqn:E.
    + destruct (truthy a || truthy r) eqn:Ht; [|discriminate]. cbn [negb].
      destruct (Z_lt_Q ae now) eqn:Ha; [discriminate|].
      destruct (Z_lt_Q re now) eqn:Hr; [discriminate|].
      destruct (seconds_left ae); [|discriminate].
      destruct (seconds_left re); [|discriminate].
      intros _. exists data, a, ae, r, re. repeat split; assumption.
    + destruct e1; simpl; try discriminate;
        destruct (is_ValueError_or_TypeError _); discriminate.
  - destruct e0; discriminate.
Qed.

Lemma same_account_refl (self : t) : same_account self self.
Proof. repeat split. Qed.

Lemma same_account_trans (s1 s2 s3 : t) :
  same_account s1 s2 -> same_account s2 s3 -> same_account s1 s3.
Proof. unfold same_account. intuition congruence. Qed.

Lemma same_account_set_tokens (self : t) (a : PyVal) (ae : Z) (r : PyVal) (re : Z) :
  same_account self (set_tokens self a ae r re).
Proof. repeat split. Qed.

(** The tokens stored over a session that differs in its tokens only. *)
Lemma set_tokens_same_account (self self1 : t) (a : PyVal) (ae : Z) (r : PyVal) (re : Z) :
  same_account self self1 -> set_tokens self1 a ae r re = set_tokens self a ae r re.
Proof.
  intros (H1 & H2 & H3 & H4 & H5 & H6 & H7 & H8). unfold set_tokens.
  rewrite H1, H2, H3, H4, H5, H6, H7, H8. reflexivity.
Qed.

Lemma authenticate_with_email_grants (self : t) (x : exchange)
    (a : PyVal) (ae : Z) (r : PyVal) (re : Z) :
  non_empty (_user_email self) && non_empty (_password self) = true ->
  has_label (_user_email self) ->
  in_float_range ae -> in_float_range re ->
  grants_tokens B x (signin_request (_user_email self) (_password self)) a ae r re ->
  authenticate_with_email B self None None x = (Ok tt, set_tokens self a ae r re).
Proof.
  intros Hcred Hlabel Hae Hre (status & etag & data & Hans & He & Ht & Ha & Hr).
  unfold authenticate_with_email. cbn [truthy_str]. rewrite Hcred. cbn [negb].
  rewrite (formats_has_label self Hlabel).
  unfold signin_request in Hans. rewrite Hans.
  apply process_auth_request_grants; assumption.
Qed.

(** How a sign-in ends. *)
Lemma authenticate_with_email_outcome (self : t) (x : exchange) :
  same_account self (authenticate_with_email B self None None x).2
  /\ ((authenticate_with_email B self None None x).1 = Ok tt ->
      exists a ae r re,
        grants_tokens B x (signin_request (_user_email self) (_password self)) a ae r re
        /\ (authenticate_with_email B self None None x).2 = set_tokens self a ae r re).
Proof.
  unfold authenticate_with_email. cbn [truthy_str].
  destruct (negb _); [split; [apply same_account_refl | discriminate]|].
  destruct (formats self) as [[]|e0]; [|split; [apply same_account_refl | discriminate]].
  fold (signin_request (_user_email self) (_password self)).
  destruct (answer x _) as [e|status etag json] eqn:Hans;
    [split; [apply same_account_refl | discriminate]|].
  split; [apply process_auth_request_same_account|].
  intros Hok.
  destruct (process_auth_request_accepts self json (answered_at x) Hok)
    as (data & a & ae & r & re & -> & He & Ht & Ha & Hr & Hs).
  exists a, ae, r, re. split; [|exact Hs].
  exists status, etag, data. repeat split; assumption.
Qed.

(** How a refresh with the stored token ends. *)
Lemma authenticate_with_token_outcome (self : t) (now : Q) (x : exchange) :
  same_account self (authenticate_with_token B self VNone now x).2
  /\ ((authenticate_with_token B self VNone now x).1 = Ok tt ->
      exists a ae r re,
        grants_tokens B x (token_request (_refresh_token self)) a ae r re
        /\ (authenticate_with_token B self VNone now x).2 = set_tokens self a ae r re).
Proof.
  unfold authenticate_with_token. cbn [truthy negb].
  destruct (refresh_token_needs_update self now);
    [split; [apply same_account_refl | discriminate]|].
  destruct (formats self) as [[]|e0]; [|split; [apply same_account_refl | discriminate]].
  fold (token_request (_refresh_token self)).
  destruct (answer x _) as [e|status etag json] eqn:Hans;
    [split; [apply same_account_refl | discriminate]|].
  split; [apply process_auth_request_same_account|].
  intros Hok.
  destruct (process_auth_request_accepts self json (answered_at x) Hok)
    as (data & a & ae & r & re & -> & He & Ht & Ha & Hr & Hs).
  exists a, ae, r, re. split; [|exact Hs].
  exists status, etag, data. repeat split; assumption.
Qed.

(** X11: take a session whose address the log lines can make a label
    of, with credentials on file, and a sign-in endpoint that grants
    tokens whose expiries are within the range of the floats. Then
    [authenticate] fails in one case only, a cancellation during the
    refresh attempt. When the stored refresh token is stale, or the
    refresh attempt fails in any other way (the server is unreachable,
    answers with a bad envelope, or the token turned stale between the
    two readings of the clock), the sign-in is made and its tokens are
    stored. When the refresh attempt succeeds its outcome is final and
    the sign-in exchange plays no part. *)
Theorem authenticate_falls_back_to_sign_in (self : t) (now now' : Q)
    (refresh signin : exchange) (a : PyVal) (ae : Z) (r : PyVal) (re : Z)
    (Hcred : non_empty (_user_email self) && non_empty (_password self) = true)
    (Hlabel : has_label (_user_email self))
    (Hgrant : grants_tokens B signin (signin_request (_user_email self) (_password self))
                a ae r re)
    (Hae : in_float_range ae)
    (Hre : in_float_range re) :
  (refresh_token_needs_update self now = true ->
     authenticate B self now now' refresh signin = (Ok tt, set_tokens self a ae r re))
  /\ (refresh_token_needs_update self now = false ->
      forall e, (authenticate_with_token B self VNone now' refresh).1 = Raise e ->
        e <> CancelledError ->
        authenticate B self now now' refresh signin = (Ok tt, set_tokens self a ae r re))
  /\ (refresh_token_needs_update self now = false ->
      (authenticate_with_token B self VNone now' refresh).1 = Raise CancelledError ->
      authenticate B self now now' refresh signin = (Raise CancelledError, self))
  /\ (refresh_token_needs_update self now = false ->
      (authenticate_with_token B self VNone now' refresh).1 = Ok tt ->
      forall signin',
        authenticate B self now now' refresh signin'
        = (Ok tt, (authenticate_with_token B self VNone now' refresh).2))
  /\ ((authenticate B self now now' refresh signin).1 = Ok tt
      \/ (authenticate B self now now' refresh signin).1 = Raise CancelledError).
Proof.
  pose proof (authenticate_with_email_grants self signin a ae r re Hcred Hlabel Hae Hre
                Hgrant) as Hemail.
  pose proof (formats_has_label self Hlabel) as Hf.
  assert (Hlater : forall self1, same_account self self1 ->
            formats self1 = Ok tt
            /\ authenticate_with_email B self1 None None signin
               = (Ok tt, set_tokens self a ae r re)).
  { intros self1 Hsame. pose proof Hsame as (_ & Hmail & Hpass & _).
    split; [rewrite (formats_same_email self self1 Hmail); exact Hf|].
    rewrite <- (set_tokens_same_account self self1 a ae r re Hsame).
    apply authenticate_with_email_grants; rewrite ?Hmail, ?Hpass; assumption. }
  pose proof (authenticate_with_token_failure B self VNone now' refresh) as Hkeep.
  pose proof (proj1 (authenticate_with_token_outcome self now' refresh)) as Hsame.
  assert (H1 : refresh_token_needs_update self now = true ->
               authenticate B self now now' refresh signin
               = (Ok tt, set_tokens self a ae r re)).
  { intros Hstale. unfold authenticate. rewrite Hstale. exact Hemail. }
  assert (H2 : refresh_token_needs_update self now = false ->
               forall e, (authenticate_with_token B self VNone now' refresh).1 = Raise e ->
                 e <> CancelledError ->
                 authenticate B self now now' refresh signin
                 = (Ok tt, set_tokens self a ae r re)).
  { intros Hfresh e He Hne. unfold authenticate. rewrite Hfresh, Hf. cbn [negb].
    destruct (authenticate_with_token B self VNone now' refresh) as [[u|e0] self1].
    - discriminate He.
    - cbn [fst snd] in He, Hsame. injection He as ->.
      destruct (Hlater self1 Hsame) as [Hf1 Hrun1].
      destruct e; rewrite ?Hf1; try exact Hrun1. congruence. }
  assert (H3 : refresh_token_needs_update self now = false ->
               (authenticate_with_token B self VNone now' refresh).1 = Raise CancelledError ->
               authenticate B self now now' refresh signin = (Raise CancelledError, self)).
  { intros Hfresh He. unfold authenticate. rewrite Hfresh, Hf. cbn [negb].
    specialize (Hkeep _ He ltac:(discriminate)).
    destruct (authenticate_with_token B self VNone now' refresh) as [[u|e0] self1].
    - discriminate He.
    - cbn [fst snd] in He, Hkeep. injection He as ->. subst self1. reflexivity. }
  assert (H4 : refresh_token_needs_update self now = false ->
               (authenticate_with_token B self VNone now' refresh).1 = Ok tt ->
               forall signin',
                 authenticate B self now now' refresh signin'
                 = (Ok tt, (authenticate_with_token B self VNone now' refresh).2)).
  { intros Hfresh Hok signin'. unfold authenticate. rewrite Hfresh, Hf. cbn [negb].
    destruct (authenticate_with_token B self VNone now' refresh) as [[u|e0] self1].
    - reflexivity.
    - discriminate Hok. }
  split; [exact H1|]. split; [exact H2|]. split; [exact H3|]. split; [exact H4|].
  destruct (refresh_token_needs_update self now) eqn:Hstale.
  - left. rewrite (H1 eq_refl). reflexivity.
  - destruct (authenticate_with_token B self VNone now' refresh).1 as [[]|e] eqn:He.
    + left. rewrite (H4 eq_refl eq_refl). reflexivity.
    + assert (Hdec : e = CancelledError \/ e <> CancelledError).
      { destruct e; first [left; reflexivity | right; discriminate]. }
      destruct Hdec as [->|Hne].
      * right. rewrite (H3 eq_refl eq_refl). reflexivity.
      * left. rewrite (H2 eq_refl e eq_refl Hne). reflexivity.
Qed.

(** X12: [authenticate] changes nothing but the four token fields:
    credentials, profile, request history and device registry are as
    they were, however it ends. When it succeeds, the four values stored
    are those of one envelope, the answer to the refresh request or to
    the sign-in request, and that envelope passed the validation when it
    was processed (a non-empty token, no expiry in the past): values of
    two responses are never mixed. The access token stored is the one
    the next authenticated request carries. *)
Theorem authenticate_stores_one_envelope (self : t) (now now' : Q)
    (refresh signin : exchange) :
  same_account self (authenticate B self now now' refresh signin).2
  /\ ((authenticate B self now now' refresh signin).1 = Ok tt ->
      exists x req a ae r re,
        ((x = refresh /\ req = token_request (_refresh_token self))
         \/ (x = signin /\ req = signin_request (_user_email self) (_password self)))
        /\ grants_tokens B x req a ae r re
        /\ (authenticate B self now now' refresh signin).2 = set_tokens self a ae r re
        /\ forall method url params json request_tag,
             req_headers (prepare_authenticated_request
                            (authenticate B self now now' refresh signin).2
                            method url params json request_tag) !! "x-access-token"
             = Some a).
Proof.
  assert (Hheader : forall a ae r re method url params json request_tag,
            req_headers (prepare_authenticated_request (set_tokens self a ae r re)
                           method url params json request_tag) !! "x-access-token"
            = Some a).
  { intros. unfold prepare_authenticated_request. cbn [req_headers _access_token set_tokens].
    destruct request_tag as [tag|]; [|apply lookup_singleton_eq].
    destruct (_request_history _ !! tag);
      [rewrite lookup_insert_ne by discriminate|]; apply lookup_singleton_eq. }
  assert (Hvia_email : forall self1, same_account self self1 ->
            same_account self (authenticate_with_email B self1 None None signin).2
            /\ ((authenticate_with_email B self1 None None signin).1 = Ok tt ->
                exists x req a ae r re,
                  ((x = refresh /\ req = token_request (_refresh_token self))
                   \/ (x = signin
                       /\ req = signin_request (_user_email self) (_password self)))
                  /\ grants_tokens B x req a ae r re
                  /\ (authenticate_with_email B self1 None None signin).2
                     = set_tokens self a ae r re
                  /\ forall method url params json request_tag,
                       req_headers (prepare_authenticated_request
                                      (authenticate_with_email B self1 None None signin).2
                                      method url params json request_tag)
                         !! "x-access-token"
                       = Some a)).
  { intros self1 Hsame1. pose proof Hsame1 as (_ & Hmail & Hpass & _).
    destruct (authenticate_with_email_outcome self1 signin) as [Hsame Hok].
    split; [exact (same_account_trans _ _ _ Hsame1 Hsame)|].
    intros H. destruct (Hok H) as (a & ae & r & re & Hg & Hs).
    rewrite Hmail, Hpass in Hg.
    rewrite (set_tokens_same_account self self1 a ae r re Hsame1) in Hs.
    exists signin, (signin_request (_user_email self) (_password self)), a, ae, r, re.
    split; [right; split; reflexivity|]. split; [exact Hg|]. split; [exact Hs|].
    rewrite Hs. intros. apply Hheader. }
  unfold authenticate.
  destruct (negb (refresh_token_needs_update self now));
    [|exact (Hvia_email self (same_account_refl self))].
  destruct (formats self) as [[]|e0]; [|split; [apply same_account_refl | discriminate]].
  destruct (authenticate_with_token_outcome self now' refresh) as [Hsame Hok].
  destruct (authenticate_with_token B self VNone now' refresh) as [[u|e] self1].
  - cbn [fst snd] in *. split; [exact Hsame|]. intros _.
    destruct (Hok ltac:(destruct u; reflexivity)) as (a & ae & r & re & Hg & Hs).
    exists refresh, (token_request (_refresh_token self)), a, ae, r, re.
    split; [left; split; reflexivity|]. split; [exact Hg|]. split; [exact Hs|].
    rewrite Hs. intros. apply Hheader.
  - cbn [fst snd] in Hsame.
    assert (Hlate : same_account self
                      (match formats self1 with
                       | Ok _ => authenticate_with_email B self1 None None signin
                       | Raise e' => (Raise e', self1)
                       end).2
                    /\ ((match formats self1 with
                         | Ok _ => authenticate_with_email B self1 None None signin
                         | Raise e' => (Raise e', self1)
                         end).1 = Ok tt ->
                        exists x req a ae r re,
                          ((x = refresh /\ req = token_request (_refresh_token self))
                           \/ (x = signin
                               /\ req = signin_request (_user_email self)
                                          (_password self)))
                          /\ grants_tokens B x req a ae r re
                          /\ (match formats self1 with
                              | Ok _ => authenticate_with_email B self1 None None signin
                              | Raise e' => (Raise e', self1)
                              end).2 = set_tokens self a ae r re
                          /\ forall method url params json request_tag,
                               req_headers
                                 (prepare_authenticated_request
                                    (match formats self1 with
                                     | Ok _ =>
                                         authenticate_with_email B self1 None None signin
                                     | Raise e' => (Raise e', self1)
                                     end).2
                                    method url params json request_tag)
                                 !! "x-access-token"
                               = Some a)).
    { destruct (formats self1) as [[]|e0]; [exact (Hvia_email self1 Hsame)|].
      split; [exact Hsame | discriminate]. }
    destruct e; try exact Hlate.
    split; [exact Hsame | discriminate].
Qed.

End Authentication.

(** X11, witness: the refresh endpoint is unreachable and the sign-in
    endpoint grants tokens that expire at 5000 and 9000. *)
Lemma authenticate_falls_back_to_sign_in_witness :
  TurkovAPI.authenticate Examples.example_builtins Examples.session_1060 1000 1000
    Examples.unreachable (Examples.grants Examples.envelope_5000)
  = (Ok tt, Examples.session_5000).
Proof.
  assert (H5000 : in_float_range 5000) by (eexists; vm_compute; reflexivity).
  assert (H9000 : in_float_range 9000) by (eexists; vm_compute; reflexivity).
  refine (proj1 (proj2
            (authenticate_falls_back_to_sign_in Examples.example_builtins
               Examples.session_1060 1000 1000 Examples.unreachable
               (Examples.grants Examples.envelope_5000)
               (VStr "access-1") 5000 (VStr "refresh-1") 9000 eq_refl _ _ H5000 H9000))
            eq_refl ClientError eq_refl _).
  - exists "user", "example.org". repeat split; discriminate.
  - exists 200, None, Examples.envelope_5000. repeat split; reflexivity.
  - discriminate.
Defined.

(** ** The decorator when nothing asks for a new authentication *)

Section Passthrough.

Import TurkovAPI.

Context {S A : Type}.
Variable handle_authentication_of : S -> bool.
Variable access_token_needs_update_of : S -> bool.
Variable authenticate_ : S -> result unit * S.
Variable fn : S -> result A * S.

Abbreviation run :=
  (_handle_preliminary_auth handle_authentication_of access_token_needs_update_of
     authenticate_ fn).

(** X13: with authentication handling switched off the decorator never
    calls [authenticate()], whatever the state of the access token, and
    calls the wrapped operation exactly once. A value, or an exception
    that is not of the authorization class, comes out as it is; an
    [AuthenticationError] comes out as it is; [HTTPForbidden] and
    [HTTPUnauthorized] come out as an [AuthenticationError]. *)
Theorem handling_off_calls_once (self : S)
    (Hoff : handle_authentication_of self = false) :
  (run self).2 = [CallWrapped]
  /\ (run self).1.2 = (fn self).2
  /\ (forall a, (fn self).1 = Ok a -> (run self).1.1 = Ok a)
  /\ (forall e, (fn self).1 = Raise e -> is_authorization_error e = false ->
        (run self).1.1 = Raise e)
  /\ (forall msg, (fn self).1 = Raise (TurkovAPIAuthenticationError msg) ->
        (run self).1.1 = Raise (TurkovAPIAuthenticationError msg))
  /\ (forall e, (fn self).1 = Raise e -> e = HTTPForbidden \/ e = HTTPUnauthorized ->
        (run self).1.1
        = Raise (TurkovAPIAuthenticationError "Unauthorized request performed")).
Proof.
  unfold _handle_preliminary_auth, perform, on_authorization_error.
  rewrite Hoff. cbn [andb negb orb].
  destruct (fn self) as [[a|e] s1]; cbn [fst snd app].
  - repeat split; try discriminate. intros a' [= ->]. reflexivity.
  - destruct (is_authorization_error e) eqn:Hauthz.
    + destruct e; try discriminate Hauthz; cbn;
        (split; [reflexivity|]); (split; [reflexivity|]); (split; [discriminate|]);
        (split; [intros e [= <-]; discriminate|]);
        (split; [first [intros msg' [= <-]; reflexivity | discriminate]|]);
        intros e [= <-] [H|H]; first [reflexivity | discriminate H].
    + split; [reflexivity|]. split; [reflexivity|]. split; [discriminate|].
      split; [intros e' [= <-] _; reflexivity|].
      split; [intros msg [= ->]; discriminate Hauthz|].
      intros e' [= <-] [->| ->]; discriminate Hauthz.
Qed.

End Passthrough.

(** X13, witness: a session with handling switched off and no token,
    refused by the server: one call, no authentication, and an
    [AuthenticationError] in place of [HTTPUnauthorized]. *)
Lemma handling_off_calls_once_witness :
  (TurkovAPI.decorated Examples.example_builtins 1000 Examples.unreachable
     Examples.unreachable (Examples.update_user_data_fn Examples.refuses)
     Examples.session_unmanaged).2 = [TurkovAPI.CallWrapped]
  /\ (TurkovAPI.decorated Examples.example_builtins 1000 Examples.unreachable
        Examples.unreachable (Examples.update_user_data_fn Examples.refuses)
        Examples.session_unmanaged).1.1
     = Raise (TurkovAPIAuthenticationError "Unauthorized request performed").
Proof.
  destruct (handling_off_calls_once TurkovAPI.handle_authentication
              (fun self => TurkovAPI.access_token_needs_update self 1000)
              (fun self => TurkovAPI.authenticate Examples.example_builtins self 1000 1000
                             Examples.unreachable Examples.unreachable)
              (Examples.update_user_data_fn Examples.refuses)
              Examples.session_unmanaged eq_refl)
    as (Hcalls & _ & _ & _ & _ & Hwrap).
  split; [exact Hcalls|].
  exact (Hwrap HTTPUnauthorized eq_refl (or_intror eq_refl)).
Defined.

Section Transparency.

Import TurkovAPI.


End Transparency.


(** ** Conditional requests and what the cloud calls leave behind *)

Section ConditionalRequests.

Import TurkovAPI.

Variable B : Builtins.

Lemma append_prefix_inj (p a b : string) : p +:+ a = p +:+ b -> a = b.
Proof. induction p as [|c p IH]; cbn; intros H; [exact H | injection H; auto]. Qed.

Lemma device_tag_inj (a b : string) :
  "device_state__" +:+ a = "device_state__" +:+ b -> a = b.
Proof. apply append_prefix_inj. Qed.

Lemma same_but_history_refl (self : t) : same_but_history self self.
Proof. repeat split. Qed.

Lemma remember_tag_spec (self : t) (tag : string) (etag : option string) :
  same_but_history self (remember_tag self tag etag)
  /\ _request_history (remember_tag self tag etag)
     = (if truthy_str etag then <[ tag := default "" etag ]> (_request_history self)
        else _request_history self).
Proof.
  unfold remember_tag. destruct (truthy_str etag); split;
    first [reflexivity | repeat split].
Qed.

Lemma if_none_match_of (self : t) (method url : string) (params : list (string * string))
    (json : list (string * PyVal)) (request_tag : option string) :
  req_headers (prepare_authenticated_request self method url params json request_tag)
    !! IF_NONE_MATCH
  = match request_tag with
    | Some tag => VStr <$> _request_history self !! tag
    | None => None
    end.
Proof.
  unfold prepare_authenticated_request. cbn [req_headers].
  destruct request_tag as [tag|]; [|apply lookup_singleton_ne; discriminate].
  destruct (_request_history self !! tag) as [v|]; cbn [fmap option_fmap option_map].
  - apply lookup_insert_eq.
  - apply lookup_singleton_ne. discriminate.
Qed.

Lemma prepared_alike (self self' : t) (method url : string)
    (params : list (string * string)) (json : list (string * PyVal))
    (request_tag : option string) :
  _access_token self' = _access_token self ->
  (forall tag, request_tag = Some tag ->
     _request_history self' !! tag = _request_history self !! tag) ->
  prepare_authenticated_request self' method url params json request_tag
  = prepare_authenticated_request self method url params json request_tag.
Proof.
  intros Ha Hh. unfold prepare_authenticated_request. rewrite Ha.
  destruct request_tag as [tag|]; [|reflexivity].
  rewrite (Hh tag eq_refl). reflexivity.
Qed.

(** X15: the validator of a device state makes a round trip. Take a
    session whose address the log line can make a label of. When
    [get_device_state] accepts an answer that carries a non-empty [ETag],
    the next unforced request for the same device carries that value as
    [If-None-Match], and a 304 to it returns [None] and leaves the
    session as it is. A forced request carries no validator. The
    requests for any other device, and the request of the user data, are
    what they would have been: validators are kept apart by tag. *)
Theorem validator_round_trip (self : t) (device_id : string) (force : bool)
    (send : request -> http_outcome PyVal) (status : Z) (etag : string)
    (payload : PyVal) (d : list (string * PyVal))
    (Hlabel : has_label (_user_email self))
    (Hsend : send (device_state_request self device_id force)
             = Responds status (Some etag) (Ok payload))
    (Hfresh : negb force && (status =? 304) = false)
    (Hwrap : wraps_object B (Ok payload) d)
    (Hetag : non_empty etag = true) :
  exists self',
    get_device_state B self device_id force send = (Ok (VDict d), self', [])
    /\ req_headers (device_state_request self' device_id false) !! IF_NONE_MATCH
       = Some (VStr etag)
    /\ req_headers (device_state_request self' device_id true) !! IF_NONE_MATCH = None
    /\ (forall other, other <> device_id ->
          device_state_request self' other false = device_state_request self other false)
    /\ user_data_request self' false = user_data_request self false
    /\ (forall send2 etag2 json2,
          send2 (device_state_request self' device_id false) = Responds 304 etag2 json2 ->
          get_device_state B self' device_id false send2 = (Ok VNone, self', [])).
Proof.
  assert (Hdec : decode_device_data B payload = Ok (VDict d)).
  { apply decode_device_data_spec. exists d. split; [exact Hwrap | reflexivity]. }
  pose proof (formats_has_label self Hlabel) as Hf.
  exists (set_request_history self ("device_state__" +:+ device_id) etag).
  split; [|split; [|split; [|split; [|split]]]].
  - unfold get_device_state. fold (device_state_request self device_id force).
    rewrite Hf, Hsend, Hfresh, Hdec. unfold remember_tag. cbn [truthy_str].
    unfold non_empty in Hetag. rewrite Hetag. reflexivity.
  - unfold device_state_request. rewrite if_none_match_of.
    cbn [_request_history set_request_history]. rewrite lookup_insert_eq. reflexivity.
  - unfold device_state_request. rewrite if_none_match_of. reflexivity.
  - intros other Hne. unfold device_state_request. apply prepared_alike; [reflexivity|].
    intros tag [= <-]. cbn [_request_history set_request_history].
    apply lookup_insert_ne. intros H. apply device_tag_inj in H. congruence.
  - unfold user_data_request. apply prepared_alike; [reflexivity|].
    intros tag [= <-]. cbn [_request_history set_request_history].
    apply lookup_insert_ne. discriminate.
  - intros send2 etag2 json2 Hsend2. unfold get_device_state.
    fold (device_state_request
            (set_request_history self ("device_state__" +:+ device_id) etag)
            device_id false).
    rewrite (formats_same_email self
               (set_request_history self ("device_state__" +:+ device_id) etag) eq_refl),
      Hf, Hsend2.
    reflexivity.
Qed.

(** X16: the HTTP status of an answer is read for one purpose, to
    recognise a 304 to an unforced request. In a session whose address
    the log lines can make a label of, such an answer ends
    [get_device_state] with [None] and [update_user_data] with nothing
    done, whatever the body, and leaves the session untouched. In every
    other case (the request was forced, or the status is not 304) the
    outcome does not depend on the status: an answer with an error status
    and a well-formed body is processed as a 200 is, and a 304 to a
    forced request has its body decoded. [set_device_value] never reads
    the status. *)
Theorem status_read_for_not_modified_only (self : t) :
  (has_label (_user_email self) ->
   forall device_id send etag json,
     send (device_state_request self device_id false) = Responds 304 etag json ->
     get_device_state B self device_id false send = (Ok VNone, self, []))
  /\ (has_label (_user_email self) ->
      forall send etag json,
        send (user_data_request self false) = Responds 304 etag json ->
        update_user_data self false send = (Ok tt, self, []))
  /\ (forall device_id force send send' status status' etag json,
        force = true \/ (status <> 304 /\ status' <> 304) ->
        send (device_state_request self device_id force) = Responds status etag json ->
        send' (device_state_request self device_id force) = Responds status' etag json ->
        get_device_state B self device_id force send
        = get_device_state B self device_id force send')
  /\ (forall force send send' status status' etag json,
        force = true \/ (status <> 304 /\ status' <> 304) ->
        send (user_data_request self force) = Responds status etag json ->
        send' (user_data_request self force) = Responds status' etag json ->
        update_user_data self force send = update_user_data self force send')
  /\ (forall device_id key value send send' status status' etag etag' json,
        send (device_command_request self device_id key value)
        = Responds status etag json ->
        send' (device_command_request self device_id key value)
        = Responds status' etag' json ->
        set_device_value self device_id key value send
        = set_device_value self device_id key value send').
Proof.
  assert (Hstatus : forall force status status',
            force = true \/ (status <> 304 /\ status' <> 304) ->
            negb force && (status =? 304) = negb force && (status' =? 304)).
  { intros force status status' [->|[H1 H2]]; [reflexivity|].
    apply Z.eqb_neq in H1, H2. rewrite H1, H2. reflexivity. }
  split; [|split; [|split; [|split]]].
  - intros Hlabel device_id send etag json Hsend. unfold get_device_state.
    fold (device_state_request self device_id false).
    rewrite (formats_has_label self Hlabel), Hsend. reflexivity.
  - intros Hlabel send etag json Hsend. unfold update_user_data.
    fold (user_data_request self false).
    rewrite (formats_has_label self Hlabel), Hsend. reflexivity.
  - intros device_id force send send' status status' etag json Hs Hsend Hsend'.
    unfold get_device_state. fold (device_state_request self device_id force).
    rewrite Hsend, Hsend', (Hstatus force status status' Hs). reflexivity.
  - intros force send send' status status' etag json Hs Hsend Hsend'.
    unfold update_user_data. fold (user_data_request self force).
    rewrite Hsend, Hsend', (Hstatus force status status' Hs). reflexivity.
  - intros device_id key value send send' status status' etag etag' json Hsend Hsend'.
    unfold set_device_value. fold (device_command_request self device_id key value).
    rewrite Hsend, Hsend'. reflexivity.
Qed.

(** X17: what the three cloud calls leave behind. [get_device_state]
    changes nothing but the request history, and there nothing but the
    validator of its own device; when it raises it changes nothing at
    all, so a payload that is refused leaves no validator.
    [set_device_value] never changes the session. [update_user_data]
    never changes the tokens, the password or the handling flag, and
    changes no validator but its own, however it ends. *)
Theorem cloud_calls_keep_account (self : t) :
  (forall device_id force send,
     same_but_history self (get_device_state B self device_id force send).1.2
     /\ (forall tag, tag <> "device_state__" +:+ device_id ->
           _request_history (get_device_state B self device_id force send).1.2 !! tag
           = _request_history self !! tag)
     /\ (forall e, (get_device_state B self device_id force send).1.1 = Raise e ->
           (get_device_state B self device_id force send).1.2 = self))
  /\ (forall device_id key value send,
        (set_device_value self device_id key value send).2 = self)
  /\ (forall force send,
        same_tokens self (update_user_data self force send).1.2
        /\ (forall tag, tag <> "user_data" ->
              _request_history (update_user_data self force send).1.2 !! tag
              = _request_history self !! tag)).
Proof.
  assert (Hself : forall tag : string,
            same_but_history self self
            /\ (forall tag', tag' <> tag ->
                  _request_history self !! tag' = _request_history self !! tag')).
  { intros tag. split; [apply same_but_history_refl | reflexivity]. }
  split; [|split].
  - intros device_id force send. unfold get_device_state.
    destruct (formats self) as [[]|e0]; cbn [fst snd].
    2: { destruct (Hself ("device_state__" +:+ device_id)) as [H1 H2].
         split; [exact H1 | split; [exact H2 | reflexivity]]. }
    destruct (send _) as [e|status etag json]; cbn [fst snd].
    { destruct (Hself ("device_state__" +:+ device_id)) as [H1 H2].
      split; [exact H1 | split; [exact H2 | reflexivity]]. }
    destruct (negb force && (status =? 304)); cbn [fst snd].
    { destruct (Hself ("device_state__" +:+ device_id)) as [H1 H2].
      split; [exact H1 | split; [exact H2 | discriminate]]. }
    destruct json as [device_data_list|e].
    + destruct (decode_device_data B device_data_list) as [v|e]; cbn [fst snd].
      * destruct (remember_tag_spec self ("device_state__" +:+ device_id) etag)
          as [Hsame Hhist].
        split; [exact Hsame|]. split; [|discriminate].
        intros tag Hne. rewrite Hhist. destruct (truthy_str etag); [|reflexivity].
        apply lookup_insert_ne. congruence.
      * destruct (Hself ("device_state__" +:+ device_id)) as [H1 H2].
        split; [exact H1 | split; [exact H2 | reflexivity]].
    + destruct (Hself ("device_state__" +:+ device_id)) as [H1 H2].
      destruct e; cbn [fst snd]; (split; [exact H1 | split; [exact H2 | reflexivity]]).
  - intros device_id key value send. unfold set_device_value.
    destruct (formats self) as [[]|e0]; [|reflexivity].
    destruct (send _) as [e|status etag json]; [reflexivity|].
    destruct json as [body|e].
    + destruct (py_getitem body "message") as [message|e]; [|reflexivity].
      destruct (py_ne message (VStr "success")); reflexivity.
    + destruct e; cbn; reflexivity.
  - intros force send.
    assert (Hkeep : same_tokens self self
                    /\ (forall tag, tag <> "user_data" ->
                          _request_history self !! tag = _request_history self !! tag)).
    { split; [repeat split | reflexivity]. }
    unfold update_user_data.
    destruct (formats self) as [[]|e0]; cbn [fst snd]; [|exact Hkeep].
    destruct (send _) as [e|status etag json]; cbn [fst snd]; [exact Hkeep|].
    destruct (negb force && (status =? 304)); cbn [fst snd]; [exact Hkeep|].
    destruct json as [user_data|e]; [|destruct e; cbn [fst snd]; exact Hkeep].
    destruct (devices user_data) as [device_datum|],
             (userEmail user_data) as [user_email|],
             (firstName user_data) as [first_name|],
             (lastName user_data) as [last_name|],
             (fathersName user_data) as [middle_name|]; cbn [fst snd];
      try exact Hkeep.
    destruct (sync_devices _ _ device_datum) as [[[]|e] st]; cbn [fst snd];
      [|split; [repeat split | reflexivity]].
    destruct (discard_leftover_devices _ _ _) as [[[]|e] registry]; cbn [fst snd];
      (split; [unfold remember_tag; destruct (truthy_str etag); repeat split|]);
      intros tag Hne; unfold remember_tag;
      (destruct (truthy_str etag);
       cbn [_request_history set_devices set_request_history set_profile];
       [apply lookup_insert_ne; congruence | reflexivity]).
Qed.

End ConditionalRequests.

(** X15, witness: the state of [dev1] comes with the validator [v1]. *)
Lemma validator_round_trip_witness :
  exists self',
    TurkovAPI.get_device_state Examples.example_builtins Examples.session_1060 "dev1" false
      Examples.serves_state
    = (Ok (VDict []), self', [])
    /\ TurkovAPI.req_headers (device_state_request self' "dev1" false)
         !! TurkovAPI.IF_NONE_MATCH
       = Some (VStr "v1").
Proof.
  destruct (validator_round_trip Examples.example_builtins Examples.session_1060 "dev1"
              false Examples.serves_state 200 "v1" (VList [VStr "{}"]) [])
    as (self' & Hrun & Hnext & _).
  - exists "user", "example.org". repeat split; discriminate.
  - reflexivity.
  - reflexivity.
  - exists [VStr "{}"], "{}". repeat split.
  - reflexivity.
  - exists self'. split; [exact Hrun | exact Hnext].
Defined.

(** ** Outcomes of the cloud calls *)

Section CloudOutcomes.

Import TurkovAPI.

(** X18: in a session whose address the first log line can make a
    label of, [set_device_value] succeeds exactly when the server
    answers with an object whose [message] is the string ["success"].
    The request carries the pair [key], [value] as its JSON body and the
    stored access token, and no validator. Whatever body the server
    answers with (an object without [message], another message, a list,
    [null]), the failure is a [TurkovAPIError]; a failure of the request
    itself comes out as it is. In any other session the call raises
    [IndexError] at the log line, before the request. *)
Theorem set_device_value_needs_success_message (self : t) (device_id key : string)
    (value : PyVal) (send : request -> http_outcome PyVal) :
  req_json (device_command_request self device_id key value) = [(key, value)]
  /\ req_headers (device_command_request self device_id key value)
     = {[ "x-access-token" := _access_token self ]}
  /\ (has_label (_user_email self) ->
      ((set_device_value self device_id key value send).1 = Ok tt <->
       exists status etag items,
         send (device_command_request self device_id key value)
         = Responds status etag (Ok (VDict items))
         /\ dict_get "message" items = Some (VStr "success"))
      /\ (forall status etag body,
            send (device_command_request self device_id key value)
            = Responds status etag (Ok body) ->
            (set_device_value self device_id key value send).1 = Ok tt
            \/ exists msg,
                 (set_device_value self device_id key value send).1
                 = Raise (TurkovAPIError msg))
      /\ (forall e,
            send (device_command_request self device_id key value) = ConnectionFails e ->
            (set_device_value self device_id key value send).1 = Raise e))
  /\ (~ has_label (_user_email self) ->
      set_device_value self device_id key value send = (Raise IndexError, self)).
Proof.
  split; [reflexivity|]. split; [reflexivity|].
  unfold set_device_value. fold (device_command_request self device_id key value).
  split; [|intros Hno; rewrite (formats_no_label self Hno); reflexivity].
  intros Hlabel. rewrite (formats_has_label self Hlabel).
  destruct (send (device_command_request self device_id key value))
    as [e|status etag json].
  { split; [|split].
    - split; [discriminate | intros (? & ? & ? & H & _); discriminate H].
    - intros ? ? ? H. discriminate H.
    - intros e' [= <-]. reflexivity. }
  split; [|split; [|intros e H; discriminate H]].
  - destruct json as [body|e].
    + unfold py_getitem. destruct body as [|b|n|x|s0|l|items];
        try (split; [discriminate | intros (? & ? & ? & H & _); discriminate H]).
      destruct (dict_get "message" items) as [message|] eqn:Hm.
      * unfold py_ne. destruct (py_eq message (VStr "success")) eqn:E; cbn [negb fst].
        -- apply is_mode in E. subst message.
           split; [intros _; eexists _, _, _; split; [reflexivity | exact Hm] | reflexivity].
        -- split; [discriminate|]. intros (? & ? & items' & [= <- <- <-] & Hm').
           rewrite Hm in Hm'. injection Hm' as ->. discriminate E.
      * split; [discriminate|]. intros (? & ? & items' & [= <- <- <-] & Hm').
        congruence.
    + split; [|intros (? & ? & ? & H & _); discriminate H].
      destruct e; cbn; discriminate.
  - intros status' etag' body [= -> -> ->].
    destruct (py_getitem body "message") as [message|e]; [|right; eexists; reflexivity].
    destruct (py_ne message (VStr "success")); [right; eexists|left]; reflexivity.
Qed.

(** X19: how [update_user_data] ends when the server answers the request
    (not with a 304 to an unforced request) with a body of the declared
    type, in a session whose address the first log line can make a label
    of. A body that does not decode raises an [AuthenticationError], an
    error of the authorization class, so that under the decorator it
    sets off a new authentication. A document that lacks one of its keys
    raises [UnboundLocalError], not the [TurkovAPIError] the handler
    means to raise: the handler formats [exp], a name bound in another
    [except] clause only. In both cases the session is left as it was. A
    complete document is synchronised when its address is one a label
    can be made of. When it is not, the log line of the first turn of
    either loop raises [IndexError] after the profile has been replaced:
    the call succeeds only if there is no device to report and none to
    discard, and the session it leaves otherwise raises [IndexError] at
    the first log line of every later call, before any request. *)
Theorem update_user_data_outcomes (self : t) (force : bool)
    (send : request -> http_outcome UserDataResponseDict)
    (status : Z) (etag : option string) (json : result UserDataResponseDict)
    (Hlabel : has_label (_user_email self))
    (Hsend : send (user_data_request self force) = Responds status etag json)
    (Hfresh : negb force && (status =? 304) = false) :
  ((update_user_data self force send).1.1 = Ok tt <->
     exists user_data device_datum,
       json = Ok user_data /\ complete user_data device_datum
       /\ (labelled user_data \/ (device_datum = [] /\ _devices self = ∅)))
  /\ (forall user_data, json = Ok user_data ->
        (forall device_datum, ~ complete user_data device_datum) ->
        update_user_data self force send = (Raise UnboundLocalError, self, []))
  /\ (json = Raise JSONDecodeError \/ json = Raise ContentTypeError ->
      update_user_data self force send
      = (Raise (TurkovAPIAuthenticationError
                  "Server did not provide user and/or device datum"), self, [])
      /\ is_authorization_error
           (TurkovAPIAuthenticationError
              "Server did not provide user and/or device datum") = true)
  /\ (forall e, json = Raise e -> e <> JSONDecodeError -> e <> ContentTypeError ->
        update_user_data self force send = (Raise e, self, []))
  /\ (forall user_data device_datum user_email first_name_ last_name_ middle_name_,
        json = Ok user_data ->
        devices user_data = Some device_datum ->
        userEmail user_data = Some user_email ->
        firstName user_data = Some first_name_ ->
        lastName user_data = Some last_name_ ->
        fathersName user_data = Some middle_name_ ->
        ~ has_label user_email ->
        let self1 := set_profile self user_email first_name_ last_name_ middle_name_ in
        (device_datum <> [] ->
         update_user_data self force send = (Raise IndexError, self1, []))
        /\ (device_datum = [] -> _devices self <> ∅ ->
            update_user_data self force send
            = (Raise IndexError, remember_tag self1 "user_data" etag, []))
        /\ (forall self', (update_user_data self force send).1.2 = self' ->
              (forall force' send',
                 update_user_data self' force' send' = (Raise IndexError, self', []))
              /\ (forall B device_id force' send',
                    get_device_state B self' device_id force' send'
                    = (Raise IndexError, self', []))
              /\ (forall device_id key value send',
                    set_device_value self' device_id key value send'
                    = (Raise IndexError, self')))).
Proof.
  split; [|split; [|split; [|split]]].
  - split.
    + intros Hok.
      destruct (update_user_data self force send) as [[r self'] log] eqn:Hrun.
      cbn [fst] in Hok. subst r.
      destruct (update_user_data_success self self' force send status etag json log
                  Hsend Hfresh Hrun)
        as (user_data & device_datum & ue & fn & ln & mn & st & -> & Hd & Hue & Hfn & Hln
            & Hmn & _ & Hcase & _).
      exists user_data, device_datum. split; [reflexivity|].
      split; [apply complete_fields; eexists _, _, _, _; repeat split; eassumption|].
      destruct Hcase as [Hnew | Hempty]; [left; exists ue; split; assumption | right; exact Hempty].
    + intros (user_data & device_datum & -> & Hc & Hcase).
      apply complete_fields in Hc as (ue & fn & ln & mn & Hd & Hue & Hfn & Hln & Hmn).
      assert (Hcase' : has_label ue \/ (device_datum = [] /\ _devices self = ∅)).
      { destruct Hcase as [(ue' & Hue' & Hnew) | Hempty]; [left | right; exact Hempty].
        congruence. }
      destruct (proj1 (update_user_data_run self force send status etag user_data
                         device_datum ue fn ln mn Hsend Hfresh Hd Hue Hfn Hln Hmn Hlabel)
                  Hcase') as (st & _ & Hrun).
      rewrite Hrun. reflexivity.
  - intros user_data -> Hnot. unfold update_user_data.
    fold (user_data_request self force).
    rewrite (formats_has_label self Hlabel), Hsend, Hfresh.
    destruct (devices user_data) as [device_datum|] eqn:Hd,
             (userEmail user_data) as [user_email|] eqn:Hue,
             (firstName user_data) as [first_name|] eqn:Hfn,
             (lastName user_data) as [last_name|] eqn:Hln,
             (fathersName user_data) as [middle_name|] eqn:Hmn; try reflexivity.
    destruct (Hnot device_datum). apply complete_fields.
    eexists _, _, _, _. repeat split; eassumption.
  - intros Hj. split; [|reflexivity]. unfold update_user_data.
    fold (user_data_request self force).
    rewrite (formats_has_label self Hlabel), Hsend, Hfresh.
    destruct Hj as [-> | ->]; reflexivity.
  - intros e -> H1 H2. unfold update_user_data.
    fold (user_data_request self force).
    rewrite (formats_has_label self Hlabel), Hsend, Hfresh.
    destruct e; try reflexivity; congruence.
  - intros user_data device_datum ue fn ln mn -> Hd Hue Hfn Hln Hmn Hnew self1.
    destruct (update_user_data_run self force send status etag user_data device_datum
                ue fn ln mn Hsend Hfresh Hd Hue Hfn Hln Hmn Hlabel)
      as (Hok & Hraise1 & Hraise2).
    split; [exact (Hraise1 Hnew)|]. split; [exact (Hraise2 Hnew)|].
    intros self' Hleft.
    assert (Hmail : _user_email self' = ue).
    { destruct (decide (device_datum = [])) as [Hnil | Hcons].
      - destruct (decide (_devices self = ∅)) as [Hempty | Hfull].
        + destruct (Hok (or_intror (conj Hnil Hempty))) as (st & _ & Hrun).
          rewrite Hrun in Hleft. rewrite <- Hleft. unfold synchronised_session, remember_tag.
          destruct (truthy_str etag); reflexivity.
        + rewrite (Hraise2 Hnew Hnil Hfull) in Hleft. rewrite <- Hleft.
          unfold remember_tag. destruct (truthy_str etag); reflexivity.
      - rewrite (Hraise1 Hnew Hcons) in Hleft. rewrite <- Hleft. reflexivity. }
    assert (Hf : formats self' = Raise IndexError).
    { apply formats_no_label. rewrite Hmail. exact Hnew. }
    split; [|split].
    + intros force' send'. unfold update_user_data. rewrite Hf. reflexivity.
    + intros B device_id force' send'. unfold get_device_state. rewrite Hf. reflexivity.
    + intros device_id key value send'. unfold set_device_value. rewrite Hf. reflexivity.
Qed.

(** X20: a synchronisation that the server answers with a complete
    document of the declared type, in a session whose address and whose
    new address are ones the log lines can make a label of, succeeds and
    replaces the profile of the session by the document's: the names,
    and the e-mail address, which is the one the session signs in with
    from then on. The tokens and the password are as they were, and the
    validator of the user data is the response's [ETag] when it has a
    non-empty one. *)
Theorem update_user_data_replaces_profile (self : t) (force : bool)
    (send : request -> http_outcome UserDataResponseDict)
    (status : Z) (etag : option string) (user_data : UserDataResponseDict)
    (device_datum : list DeviceDataResponseDict)
    (user_email first_name_ last_name_ middle_name_ : string)
    (Hlabel : has_label (_user_email self))
    (Hsend : send (user_data_request self force) = Responds status etag (Ok user_data))
    (Hfresh : negb force && (status =? 304) = false)
    (Hdevices : devices user_data = Some device_datum)
    (Hemail : userEmail user_data = Some user_email)
    (Hfirst : firstName user_data = Some first_name_)
    (Hlast : lastName user_data = Some last_name_)
    (Hmiddle : fathersName user_data = Some middle_name_)
    (Hnew : has_label user_email) :
  exists self' log,
    update_user_data self force send = (Ok tt, self', log)
    /\ _user_email self' = user_email
    /\ first_name self' = Some first_name_
    /\ last_name self' = Some last_name_
    /\ middle_name self' = Some middle_name_
    /\ same_tokens self self'
    /\ _request_history self'
       = (if truthy_str etag then <[ "user_data" := default "" etag ]> (_request_history self)
          else _request_history self)
    /\ (forall B x,
          non_empty (_password self) = true ->
          authenticate_with_email B self' None None x
          = match answer x (signin_request user_email (_password self)) with
            | ConnectionFails e => (Raise e, self')
            | Responds _ _ json => _process_auth_request B self' json (answered_at x)
            end).
Proof.
  destruct (proj1 (update_user_data_run self force send status etag user_data
                     device_datum user_email first_name_ last_name_ middle_name_
                     Hsend Hfresh Hdevices Hemail Hfirst Hlast Hmiddle Hlabel)
              (or_introl Hnew)) as (st & _ & Hrun).
  eexists _, _. split; [exact Hrun|].
  assert (Hcred : _user_email (synchronised_session self user_email first_name_
                                 last_name_ middle_name_ etag st) = user_email
                  /\ _password (synchronised_session self user_email first_name_
                                  last_name_ middle_name_ etag st) = _password self).
  { unfold synchronised_session, remember_tag. destruct (truthy_str etag);
      split; reflexivity. }
  unfold synchronised_session at 1 2 3 4 5 6.
  split; [unfold remember_tag; destruct (truthy_str etag); reflexivity|].
  split; [unfold remember_tag; destruct (truthy_str etag); reflexivity|].
  split; [unfold remember_tag; destruct (truthy_str etag); reflexivity|].
  split; [unfold remember_tag; destruct (truthy_str etag); reflexivity|].
  split; [unfold remember_tag; destruct (truthy_str etag); repeat split|].
  split; [unfold remember_tag; destruct (truthy_str etag); reflexivity|].
  intros B x Hne. unfold authenticate_with_email. cbn [truthy_str].
  destruct Hcred as [Hmail Hpass]. rewrite Hmail, Hpass, Hne.
  assert (Hne' : non_empty user_email = true).
  { destruct Hnew as (local & domain & _ & Hl & _ & ->).
    destruct local; [congruence | reflexivity]. }
  rewrite Hne'. cbn [andb negb].
  rewrite formats_has_label by (rewrite Hmail; exact Hnew).
  reflexivity.
Qed.

End CloudOutcomes.

(** X19, witness: a user document without [fathersName]. *)
Lemma update_user_data_outcomes_witness :
  TurkovAPI.update_user_data Examples.session_1060 true Examples.serves_partial_document
  = (Raise UnboundLocalError, Examples.session_1060, []).
Proof.
  refine (proj1 (proj2 (update_user_data_outcomes Examples.session_1060 true
                          Examples.serves_partial_document 200 None
                          (Ok Examples.partial_document) _ eq_refl eq_refl))
            Examples.partial_document eq_refl _).
  - exists "user", "example.org". repeat split; discriminate.
  - intros device_datum (_ & _ & _ & _ & [x Hx]). discriminate Hx.
Defined.

(** X20, witness: the document of the examples names Ada Lovelace. *)
Lemma update_user_data_replaces_profile_witness :
  exists self' log,
    TurkovAPI.update_user_data Examples.session_1060 false Examples.serves_user_document
    = (Ok tt, self', log)
    /\ TurkovAPI.first_name self' = Some "Ada"
    /\ TurkovAPI._request_history self' = {[ "user_data" := "tag-1" ]}.
Proof.
  assert (Hlabel : has_label "user@example.org").
  { exists "user", "example.org". repeat split; discriminate. }
  destruct (update_user_data_replaces_profile Examples.session_1060 false
              Examples.serves_user_document 200 (Some "tag-1") Examples.user_document
              Examples.three_entries "user@example.org" "Ada" "Lovelace" ""
              Hlabel eq_refl eq_refl eq_refl eq_refl eq_refl eq_refl eq_refl Hlabel)
    as (self' & log & Hrun & _ & Hfirst & _ & _ & _ & Hhist & _).
  exists self', log. split; [exact Hrun|]. split; [exact Hfirst | exact Hhist].
Defined.

(** ** Reconciliation: missing keys and the types of the values *)

Section MissingKeys.

Import TurkovDevice.

Variable B : Builtins.

Lemma py_ne_none (v : PyVal) : py_ne VNone v = false <-> v = VNone.
Proof. destruct v; cbn; split; congruence. Qed.

(** X25: what a key missing from the payload does to its attribute.
    Without [mark_as_none_if_not_present] the attribute keeps the value
    it had, however old, and is not in the change set. With the flag the
    attribute ends as [None], and is in the change set exactly when it
    held a value before. *)
Theorem missing_key_keeps_or_clears (net : Network) (self : t) (mark force : bool)
    (d : list (string * PyVal)) (changes : gset string) (self' : t)
    (sent : list request)
    (Hfetch : get_state net self force = (Ok (VDict d), sent))
    (Hrun : update_state B net self mark force = (Ok changes, self', sent)) :
  forall a key c, (a, (key, c)) ∈ ATTRIBUTE_KEY_MAPPING -> c <> conv_False ->
    dict_get key d = None ->
    (mark = false -> getattr self' a = getattr self a /\ (a ∉ changes))
    /\ (mark = true ->
        getattr self' a = VNone /\ (a ∈ changes <-> getattr self a <> VNone)).
Proof.
  intros a key c He Hc Hmiss.
  destruct (update_state_values B net self mark force changes self' sent Hrun)
    as (device_data & Hfetch' & Hturn & _ & _).
  rewrite Hfetch in Hfetch'. injection Hfetch' as <-.
  destruct (Hturn a key c He Hc) as [Hv Hm].
  unfold entry_update, wire_value, py_getitem in Hv, Hm. cbn [fst snd] in Hv, Hm.
  rewrite (proj2 (is_skipped_false c) Hc), Hmiss in Hv, Hm.
  split; intros ->; cbn [negb] in Hv, Hm.
  - split; [exact Hv|]. rewrite Hm. intros [x Hx]. discriminate Hx.
  - destruct (py_ne VNone (getattr self a)) eqn:E.
    + split; [exact Hv|]. split; [|intros _; apply Hm; eexists; reflexivity].
      intros _ Hn. apply py_ne_none in Hn. congruence.
    + apply py_ne_none in E. split; [rewrite Hv; exact E|].
      rewrite Hm. split; [intros [x Hx]; discriminate Hx | intros Hn; contradiction].
Qed.

Lemma convert_holds_type (c : converter) (raw v : PyVal) :
  convert B c raw = Ok v -> holds_type c v = true.
Proof.
  destruct c; cbn [convert].
  - intros [= <-]. destruct raw; reflexivity.
  - intros [= <-]. reflexivity.
  - destruct (py_float B raw); cbn [bind]; [intros [= <-]; reflexivity | discriminate].
  - destruct (py_int B raw); cbn [bind]; [intros [= <-]; reflexivity | discriminate].
  - intros [= <-]. reflexivity.
  - destruct (_float_less B raw); cbn [bind]; [intros [= <-]; reflexivity | discriminate].
  - intros [= <-]. destruct raw; reflexivity.
Qed.

Lemma wire_value_holds_type (mark : bool) (device_data : PyVal) (key : string)
    (c : converter) (v : PyVal) :
  wire_value B mark device_data key c = Ok (Some v) -> holds_type c v = true.
Proof.
  unfold wire_value.
  destruct (py_getitem device_data key) as [raw|e].
  - destruct (convert B c raw) as [w|e] eqn:Hc; cbn [bind]; [|discriminate].
    intros [= <-]. exact (convert_holds_type c raw w Hc).
  - destruct e; try discriminate. destruct (negb mark); [discriminate|].
    intros [= <-]. destruct c; reflexivity.
Qed.

(** X26: [update_state] keeps the attributes typed. An attribute it
    assigns in the generic pass holds [None] or a value of the type its
    converter returns: a string for [str], a float for [float] and
    [_float_less], an integer for [int], a boolean for [bool]. So if
    every attribute of the mapping held such a value before the call
    (as on a new device, where all are [None]), every one does after a
    call that returns. *)
Theorem update_state_keeps_types (net : Network) (self : t) (mark force : bool)
    (changes : gset string) (self' : t) (sent : list request)
    (Hrun : update_state B net self mark force = (Ok changes, self', sent)) :
  forall a key c, (a, (key, c)) ∈ ATTRIBUTE_KEY_MAPPING -> c <> conv_False ->
    (a ∈ changes -> holds_type c (getattr self' a) = true)
    /\ (holds_type c (getattr self a) = true -> holds_type c (getattr self' a) = true).
Proof.
  intros a key c He Hc.
  destruct (update_state_values B net self mark force changes self' sent Hrun)
    as (device_data & _ & Hturn & _ & _).
  destruct (Hturn a key c He Hc) as [Hv Hm].
  assert (Hnew : forall v, entry_update B mark device_data self (a, (key, c)) = Some v ->
                   holds_type c v = true).
  { intros v. unfold entry_update. cbn [fst snd].
    rewrite (proj2 (is_skipped_false c) Hc).
    destruct (wire_value B mark device_data key c) as [[w|]|e] eqn:Hw; try discriminate.
    destruct (py_ne w (getattr self a)); [|discriminate].
    intros [= <-]. exact (wire_value_holds_type mark device_data key c w Hw). }
  destruct (entry_update B mark device_data self (a, (key, c))) as [v|].
  - change (getattr self' a = v) in Hv. rewrite Hv.
    split; intros _; apply Hnew; reflexivity.
  - change (getattr self' a = getattr self a) in Hv. rewrite Hv. split; [|auto].
    intros Hin. apply Hm in Hin. destruct Hin as [x Hx]. discriminate Hx.
Qed.

End MissingKeys.

(** X25, witness: the payload reports a fan speed and no humidifier
    state; without the flag a humidifier that was on stays on. *)
Lemma missing_key_keeps_or_clears_witness :
  TurkovDevice.getattr
    (Examples.cloud_device {[ "fan_speed" := VStr "2"; "humidifier" := VBool true ]})
    "humidifier"
  = TurkovDevice.getattr (Examples.cloud_device {[ "humidifier" := VBool true ]})
      "humidifier"
  /\ ("humidifier" ∉ ({[ "fan_speed" ]} : gset string)).
Proof.
  assert (Hrun : TurkovDevice.update_state Examples.example_builtins
                   (Examples.cloud_answers Examples.payload_fan)
                   (Examples.cloud_device {[ "humidifier" := VBool true ]}) false false
                 = (Ok {[ "fan_speed" ]},
                    Examples.cloud_device
                      {[ "fan_speed" := VStr "2"; "humidifier" := VBool true ]},
                    [TurkovDevice.CloudState (Some "dev1") false])).
  { vm_compute. reflexivity. }
  refine (proj1 (missing_key_keeps_or_clears Examples.example_builtins
                   (Examples.cloud_answers Examples.payload_fan)
                   (Examples.cloud_device {[ "humidifier" := VBool true ]}) false false
                   [("fan_speed", VStr "2")] _ _
                   [TurkovDevice.CloudState (Some "dev1") false] eq_refl Hrun
                   "humidifier" "humib" TurkovDevice.conv_bool _ _ eq_refl) eq_refl).
  - in_mapping.
  - discriminate.
Defined.

(** X26, witness: the fan speed a new device learns is a string. *)
Lemma update_state_keeps_types_witness :
  holds_type TurkovDevice.conv_str
    (TurkovDevice.getattr (Examples.cloud_device {[ "fan_speed" := VStr "2" ]})
       "fan_speed") = true.
Proof.
  assert (Hrun : TurkovDevice.update_state Examples.example_builtins
                   (Examples.cloud_answers Examples.payload_fan) (Examples.cloud_device ∅)
                   false false
                 = (Ok {[ "fan_speed" ]},
                    Examples.cloud_device {[ "fan_speed" := VStr "2" ]},
                    [TurkovDevice.CloudState (Some "dev1") false])).
  { vm_compute. reflexivity. }
  refine (proj2 (update_state_keeps_types Examples.example_builtins _ _ _ _ _ _ _ Hrun
                   "fan_speed" "fan_speed" TurkovDevice.conv_str _ _) eq_refl).
  - in_mapping.
  - discriminate.
Defined.

(** ** The registry, device by device *)

Section Registry.

Import TurkovAPI.

(** The registry after a synchronisation of a complete document, in a
    session whose address and whose new address have a label. *)
Lemma update_user_data_lookup (self : t) (force : bool)
    (send : request -> http_outcome UserDataResponseDict)
    (status : Z) (etag : option string) (user_data : UserDataResponseDict)
    (device_datum : list DeviceDataResponseDict) :
  has_label (_user_email self) ->
  send (user_data_request self force) = Responds status etag (Ok user_data) ->
  negb force && (status =? 304) = false ->
  complete user_data device_datum ->
  labelled user_data ->
  exists self' log,
    update_user_data self force send = (Ok tt, self', log)
    /\ forall id_,
         _devices self' !! id_
         = match entries_of id_ device_datum with
           | [] => None
           | entries => Some (synchronised (_devices self) id_ entries)
           end.
Proof.
  intros Hlabel Hsend Hfresh Hc Hnew.
  destruct (update_user_data_runs self force send status etag user_data device_datum
              Hsend Hfresh Hc Hlabel Hnew) as (self' & log & Hrun).
  exists self', log. split; [exact Hrun|].
  destruct Hc as [Hd _].
  exact (proj2 (proj2 (proj2 (proj2
           (update_user_data_sync self self' force send status etag user_data
              device_datum log Hsend Hfresh Hd Hrun))))).
Qed.

(** X21: take a synchronisation that the server answers with a complete
    document of the declared type, in a session whose address and whose
    new address are ones the log lines can make a label of. It succeeds,
    and the device filed under an id is what the entries reporting that
    id make, one after the other, of the device the registry held under
    it before (of a new device when it held none); an id that no entry
    reports is not in the registry. A descriptive field (type, name,
    serial number, pin, firmware version) whose key none of these
    entries carries keeps the value it had: it is never reset for being
    absent. A field whose key the last of these entries carries takes
    that entry's value, [null] included. *)
Theorem update_user_data_applies_entries (self : t) (force : bool)
    (send : request -> http_outcome UserDataResponseDict)
    (status : Z) (etag : option string) (user_data : UserDataResponseDict)
    (device_datum : list DeviceDataResponseDict)
    (Hlabel : has_label (_user_email self))
    (Hsend : send (user_data_request self force) = Responds status etag (Ok user_data))
    (Hfresh : negb force && (status =? 304) = false)
    (Hcomplete : complete user_data device_datum)
    (Hnew : labelled user_data) :
  exists self' log,
    update_user_data self force send = (Ok tt, self', log)
    /\ (forall id_,
          _devices self' !! id_
          = match entries_of id_ device_datum with
            | [] => None
            | entries => Some (synchronised (_devices self) id_ entries)
            end)
    /\ (forall id_ device' key field,
          _devices self' !! id_ = Some device' ->
          (key, field) ∈ descriptive_fields ->
          ((forall d, d ∈ entries_of id_ device_datum -> d !! key = None) ->
           field device' = field (default (new_device id_) (_devices self !! id_)))
          /\ (forall earlier d value,
                entries_of id_ device_datum = earlier ++ [d] ->
                d !! key = Some value ->
                field device' = value)).
Proof.
  destruct (update_user_data_lookup self force send status etag user_data device_datum
              Hlabel Hsend Hfresh Hcomplete Hnew) as (self' & log & Hrun & Hlook).
  exists self', log. split; [exact Hrun|]. split; [exact Hlook|].
  intros id_ device' key field Hd Hf. rewrite Hlook in Hd.
  assert (Hdev : device' = synchronised (_devices self) id_ (entries_of id_ device_datum)).
  { destruct (entries_of id_ device_datum); [discriminate Hd | congruence]. }
  split.
  - intros Hnone. rewrite Hdev. unfold synchronised.
    apply (synchronised_field_kept _ key field Hf Hnone).
  - intros earlier d value He Hv. rewrite Hdev, He. unfold synchronised.
    rewrite fold_left_app. cbn [fold_left].
    rewrite (apply_device_data_field _ d key field Hf), Hv. reflexivity.
Qed.

(** X22: the registry stays well keyed. If every device is filed under
    its own id and holds the API reference (as in the empty registry of
    a new session), the same holds after a synchronisation of a complete
    document of the declared type, in a session whose address and whose
    new address are ones the log lines can make a label of. A device the
    synchronisation creates has no host, no session of its own and no
    attribute value yet. So the state of a registered device that has no
    host is fetched through the cloud, with one request that names the
    id the device is filed under. *)
Theorem registry_stays_well_keyed (self : t) (force : bool)
    (send : request -> http_outcome UserDataResponseDict)
    (status : Z) (etag : option string) (user_data : UserDataResponseDict)
    (device_datum : list DeviceDataResponseDict)
    (Hlabel : has_label (_user_email self))
    (Hsend : send (user_data_request self force) = Responds status etag (Ok user_data))
    (Hfresh : negb force && (status =? 304) = false)
    (Hcomplete : complete user_data device_datum)
    (Hnew : labelled user_data)
    (Hkeyed : well_keyed (_devices self)) :
  exists self' log,
    update_user_data self force send = (Ok tt, self', log)
    /\ well_keyed (_devices self')
    /\ (forall id_ device, _devices self !! id_ = None ->
          _devices self' !! id_ = Some device ->
          is_blank device
          /\ TurkovDevice.host device = None
          /\ TurkovDevice._session device = false)
    /\ (forall id_ device net force',
          _devices self' !! id_ = Some device ->
          truthy_str (TurkovDevice.host device) = false ->
          TurkovDevice.get_state net device force'
          = (TurkovDevice.cloud_state net (Some id_) force',
             [TurkovDevice.CloudState (Some id_) force'])).
Proof.
  destruct (update_user_data_lookup self force send status etag user_data device_datum
              Hlabel Hsend Hfresh Hcomplete Hnew) as (self' & log & Hrun & Hlook).
  exists self', log. split; [exact Hrun|].
  assert (Hsame : forall id_ device, _devices self' !! id_ = Some device ->
            same_device (default (new_device id_) (_devices self !! id_)) device).
  { intros id_ device Hd. rewrite Hlook in Hd.
    destruct (entries_of id_ device_datum) as [|d rest]; [discriminate Hd|].
    injection Hd as <-. apply synchronised_same_device. }
  assert (Hwk : well_keyed (_devices self')).
  { intros id_ device Hd. destruct (Hsame id_ device Hd) as (Hapi & Hid & _).
    rewrite Hapi, Hid. destruct (_devices self !! id_) as [device0|] eqn:H0.
    - cbn [default]. destruct (Hkeyed id_ device0 H0) as [H1 H2]. split; assumption.
    - split; reflexivity. }
  split; [exact Hwk|]. split.
  - intros id_ device Hnone Hd. destruct (Hsame id_ device Hd)
      as (_ & _ & Hsess & Hhost & _ & Hattrs).
    rewrite Hnone in Hsess, Hhost, Hattrs. cbn in Hsess, Hhost, Hattrs.
    split; [|split; assumption].
    intros a. unfold TurkovDevice.getattr. rewrite Hattrs. reflexivity.
  - intros id_ device net force' Hd Hhost. destruct (Hwk id_ device Hd) as [Hid Hapi].
    unfold TurkovDevice.get_state. rewrite Hhost, Hapi, Hid. reflexivity.
Qed.

End Registry.

(** X21, witness: of the three entries of the examples the first reports
    [dev1] with its type; the device is created and its name is left
    unset. *)
Lemma update_user_data_applies_entries_witness :
  exists self' log device,
    TurkovAPI.update_user_data Examples.session_1060 false Examples.serves_user_document
    = (Ok tt, self', log)
    /\ TurkovAPI._devices self' !! "dev1" = Some device
    /\ TurkovDevice.name device = None.
Proof.
  assert (Hlabel : has_label "user@example.org").
  { exists "user", "example.org". repeat split; discriminate. }
  destruct (update_user_data_applies_entries Examples.session_1060 false
              Examples.serves_user_document 200 (Some "tag-1") Examples.user_document
              Examples.three_entries Hlabel eq_refl eq_refl)
    as (self' & log & Hrun & Hlook & Hfields).
  - split; [reflexivity|]. repeat split; eexists; reflexivity.
  - exists "user@example.org". split; [reflexivity | exact Hlabel].
  - pose proof (Hlook "dev1") as Hdev.
    assert (He : entries_of "dev1" Examples.three_entries
                 = [ {[ "_id" := Some "dev1"; "deviceType" := Some "Capsule" ]} ]).
    { vm_compute. reflexivity. }
    rewrite He in Hdev.
    eexists self', log, _. split; [exact Hrun|]. split; [exact Hdev|].
    refine (proj1 (Hfields "dev1" _ "deviceName" TurkovDevice.name Hdev _) _).
    + unfold descriptive_fields. apply elem_of_cons. right. apply elem_of_cons. left.
      reflexivity.
    + intros d Hd. rewrite He in Hd. apply elem_of_cons in Hd as [->|Hd].
      * vm_compute. reflexivity.
      * destruct (not_elem_of_nil _ Hd).
Defined.

(** X22, witness: the registry of the examples starts empty; the device
    created for [dev1] is filed under its id. *)
Lemma registry_stays_well_keyed_witness :
  exists self' log,
    TurkovAPI.update_user_data Examples.session_1060 false Examples.serves_user_document
    = (Ok tt, self', log)
    /\ well_keyed (TurkovAPI._devices self').
Proof.
  assert (Hlabel : has_label "user@example.org").
  { exists "user", "example.org". repeat split; discriminate. }
  destruct (registry_stays_well_keyed Examples.session_1060 false
              Examples.serves_user_document 200 (Some "tag-1") Examples.user_document
              Examples.three_entries Hlabel eq_refl eq_refl)
    as (self' & log & Hrun & Hwk & _).
  - split; [reflexivity|]. repeat split; eexists; reflexivity.
  - exists "user@example.org". split; [reflexivity | exact Hlabel].
  - intros id_ device H. discriminate H.
  - exists self', log. split; [exact Hrun | exact Hwk].
Defined.

(** ** What the log lines show *)

Section Display.

(** X23: the label under which a session appears in the log lines shows
    two code points of the e-mail address, the first of the local part
    and the first of the domain, and the [@] between them, each followed
    by two asterisks. It exists exactly when the address has a non-empty
    part before its first [@] and a non-empty part after it; for any
    other address (no [@], nothing before it, nothing after it)
    [__str__] raises [IndexError], and so does every log line that
    formats the session. *)
Theorem session_label_masks_email (self : TurkovAPI.t) :
  (forall local domain c1 c2,
     contains "@" local = false ->
     TurkovAPI._user_email self = local +:+ String "@" domain ->
     starts_with_point local c1 -> starts_with_point domain c2 ->
     TurkovAPI.__str__ self = Ok (masked_label c1 c2))
  /\ (contains "@" (TurkovAPI._user_email self) = false ->
      TurkovAPI.__str__ self = Raise IndexError)
  /\ (forall rest, TurkovAPI._user_email self = String "@" rest ->
        TurkovAPI.__str__ self = Raise IndexError)
  /\ (forall local, contains "@" local = false ->
        TurkovAPI._user_email self = local +:+ "@" ->
        TurkovAPI.__str__ self = Raise IndexError)
  /\ (forall label, TurkovAPI.__str__ self = Ok label ->
        exists local domain c1 c2,
          contains "@" local = false
          /\ TurkovAPI._user_email self = local +:+ String "@" domain
          /\ starts_with_point local c1 /\ starts_with_point domain c2
          /\ label = masked_label c1 c2).
Proof.
  unfold TurkovAPI.__str__.
  split; [|split; [|split; [|split]]].
  - intros local domain c1 c2 Hno -> H1 H2. rewrite (str_partition_found _ _ _ Hno).
    rewrite (first_char_point _ _ H1), (first_char_point _ _ H2). reflexivity.
  - intros Hno. rewrite (str_partition_absent _ _ Hno).
    destruct (first_char_cases (TurkovAPI._user_email self)) as [-> | [point ->]];
      reflexivity.
  - intros rest ->. reflexivity.
  - intros local Hno ->. rewrite (str_partition_found _ _ _ Hno).
    destruct (first_char_cases local) as [-> | [point ->]]; reflexivity.
  - intros label.
    destruct (str_partition_spec "@" (TurkovAPI._user_email self))
      as [(head & tail & -> & Hh) | Hno].
    + rewrite (str_partition_found _ _ _ Hh).
      destruct (first_char_spec head) as [[-> ->] | (c1 & H1 & ->)]; [discriminate|].
      cbn [bind].
      destruct (first_char_spec tail) as [[-> ->] | (c2 & H2 & ->)]; [discriminate|].
      cbn -[String.append]. intros [= <-].
      exists head, tail, c1, c2. repeat split; assumption.
    + rewrite (str_partition_absent _ _ Hno).
      destruct (first_char (TurkovAPI._user_email self)); discriminate.
Qed.

Lemma last_points (n : nat) (points : list string) :
  exists hidden shown,
    points = hidden ++ shown
    /\ length shown = Nat.min n (length points)
    /\ shown = drop (length points - n)%nat points.
Proof.
  exists (take (length points - n)%nat points), (drop (length points - n)%nat points).
  split; [symmetry; apply take_drop|]. split; [|reflexivity].
  rewrite length_drop. lia.
Qed.

(** X24: [_log_hide_id] shows the last four code points of the text of
    an id after an asterisk, and nothing of what comes before them; an
    id of four code points or fewer is shown whole. The label of a
    device in the log lines is its class name with its id hidden in this
    way. *)
Theorem log_hide_id_shows_last_four (B : Builtins) :
  (forall id_,
     exists hidden shown,
       code_points (py_str B id_) = hidden ++ shown
       /\ length shown = Nat.min 4 (length (code_points (py_str B id_)))
       /\ py_str B id_ = join_points hidden +:+ join_points shown
       /\ _log_hide_id B id_ = "*" +:+ join_points shown)
  /\ (forall self id_, TurkovDevice._id self = Some id_ ->
        exists hidden shown,
          code_points id_ = hidden ++ shown
          /\ length shown = Nat.min 4 (length (code_points id_))
          /\ id_ = join_points hidden +:+ join_points shown
          /\ TurkovDevice.__str__ B self = "TurkovDevice[*" +:+ join_points shown +:+ "]").
Proof.
  assert (Hgen : forall s,
            exists hidden shown,
              code_points s = hidden ++ shown
              /\ length shown = Nat.min 4 (length (code_points s))
              /\ s = join_points hidden +:+ join_points shown
              /\ last_chars 4 s = join_points shown).
  { intros s. destruct (last_points 4 (code_points s)) as (hidden & shown & Hs & Hlen & Hd).
    exists hidden, shown. split; [exact Hs|]. split; [exact Hlen|]. split.
    - rewrite <- join_points_app, <- Hs. symmetry. apply join_code_points.
    - unfold last_chars. rewrite <- Hd. reflexivity. }
  split.
  - intros id_. destruct (Hgen (py_str B id_)) as (hidden & shown & H1 & H2 & H3 & H4).
    exists hidden, shown. split; [exact H1|]. split; [exact H2|]. split; [exact H3|].
    unfold _log_hide_id. rewrite H4. reflexivity.
  - intros self id_ Hid. destruct (Hgen id_) as (hidden & shown & H1 & H2 & H3 & H4).
    exists hidden, shown. split; [exact H1|]. split; [exact H2|]. split; [exact H3|].
    unfold TurkovDevice.__str__, _log_hide_id. rewrite Hid. cbn [py_str]. rewrite H4.
    reflexivity.
Qed.

End Display.

(** ** Checks of the embedding on the spec's sample values *)

(** The converter of a tenths-scaled field turns the wire value 215 into
    21.5. *)
Example temperature_scaling (B : Builtins) :
  TurkovDevice.convert B TurkovDevice.conv_float_less (VInt 215) = Ok (VFloat 21.5%float).
Proof. reflexivity. Qed.

(** A target temperature of 14 or 51 is refused and nothing is sent; 15
    and 50 are dispatched as [temp_sp]. *)
Example target_temperature_bounds (net : TurkovDevice.Network) (self : TurkovDevice.t) :
  TurkovDevice.set_target_temperature net self 14
  = (Raise (TurkovAPIValueError "target temperature out of bounds"), [])
  /\ TurkovDevice.set_target_temperature net self 51
     = (Raise (TurkovAPIValueError "target temperature out of bounds"), [])
  /\ TurkovDevice.set_target_temperature net self 15
     = TurkovDevice.returning_none (TurkovDevice.set_value net self "temp_sp" (VInt 15))
  /\ TurkovDevice.set_target_temperature net self 50
     = TurkovDevice.returning_none (TurkovDevice.set_value net self "temp_sp" (VInt 50)).
Proof. repeat split. Qed.

Example nan_differs_from_itself : py_ne (VFloat nan) (VFloat nan) = true.
Proof. reflexivity. Qed.

Example int_equals_float : py_eq (VInt 1) (VFloat 1%float) = true.
Proof. reflexivity. Qed.

Example float_of_large_int_overflows : float_of_Z (2 ^ 1024) = Raise OverflowError.
Proof. vm_compute. reflexivity. Qed.

Example nan_in_a_list_equals_itself :
  py_ne (VList [VFloat nan]) (VList [VFloat nan]) = false.
Proof. reflexivity. Qed.

Example code_points_of_accented_text :
  code_points "abcdéé" = ["a"; "b"; "c"; "d"; "é"; "é"]
  /\ last_chars 4 "abcdéé" = "cdéé".
Proof. split; reflexivity. Qed.

(** A session whose address has no [@] has no label: a cloud call raises
    at its first log line and sends nothing. A user document that gives
    such an address stops the synchronisation at the log line of the
    first entry, with the profile replaced and the registry untouched. *)
Example no_label_no_request (B : Builtins)
    (send : TurkovAPI.request -> TurkovAPI.http_outcome PyVal) :
  TurkovAPI.__str__ Examples.session_admin = Raise IndexError
  /\ TurkovAPI.get_device_state B Examples.session_admin "dev1" true send
     = (Raise IndexError, Examples.session_admin, [])
  /\ TurkovAPI.set_device_value Examples.session_admin "dev1" "on" (VStr "true") send
     = (Raise IndexError, Examples.session_admin).
Proof. repeat split. Qed.

Example document_without_label_stops_the_loop :
  TurkovAPI.update_user_data Examples.session_1060 true Examples.serves_admin_document
  = (Raise IndexError, Examples.session_admin, []).
Proof. vm_compute. reflexivity. Qed.

Example session_label : TurkovAPI.__str__ Examples.session_1060 = Ok "TurkovAPI[u**@**e**]".
Proof. reflexivity. Qed.
